(** * protocolo_udp: discovery, reliable messaging and file transfer over UDP

    Shallow embedding of [src/protocolo_udp.py].

    - Python [str] values are Rocq [string]s; one [ascii] stands for one code
      point below 256.
    - The dictionaries [ack_received], [pending_files] and [file_chunks] are
      [gmap]s, the set [received_ids] is a [gset]; [known_devices] is an
      association list, because the reverse look-up of a sender walks the
      dictionary in insertion order.
    - The module globals form the record [state]; every function takes the
      state and returns the new one together with the list of [event]s it
      produced (datagrams handed to [sendto], banners shown to the user,
      back-off sleeps).  Diagnostic [print]s are not part of the model,
      except where computing what they show can raise: the progress line of
      a CHUNK.
    - [hashlib.sha256], [base64.b64decode] and [base64.b64encode] are library
      code: they are variables of the section.
    - The listener thread and the clock are an explicit environment: for each
      call of [wait_for_ack] it says how many times the polling loop finds its
      deadline not yet reached and which outcomes the listener has recorded
      before each acquisition of [ack_lock]. *)

From stdpp Require Import gmap strings list fin_maps sorting pretty.
From Stdlib Require Import ZArith Ascii String Strings.Byte.

Open Scope string_scope.
Open Scope Z_scope.

(** ** Configuration (lines 12-19) *)

Definition UDP_PORT : Z := 5000.
Definition ACK_TIMEOUT : Z := 2.
Definition MAX_RETRIES : nat := 10.
Definition CHUNK_SIZE : Z := 250.

(** ** Text primitives of the Python runtime *)

Module Py.

(** [str.isspace] on the code points below 256. *)
Definition isspace (c : ascii) : bool :=
  let n := Z.of_nat (nat_of_ascii c) in
  ((9 <=? n) && (n <=? 13)) || ((28 <=? n) && (n <=? 32))
  || (n =? 133) || (n =? 160).

(** [s.split(maxsplit=n)]: [split_from] is positioned between two words,
    [in_word] inside one.  Once [n] splits are done the rest of the string,
    without its leading white space, becomes the last field. *)
Fixpoint split_from (n : nat) (s : string) : list string :=
  match s with
  | EmptyString => []
  | String c s' =>
      if isspace c then split_from n s'
      else match n with
           | O => [s]
           | S n' => let '(w, fields) := in_word n' s' in String c w :: fields
           end
  end
with in_word (n : nat) (s : string) : string * list string :=
  match s with
  | EmptyString => (EmptyString, [])
  | String c s' =>
      if isspace c then (EmptyString, split_from n s')
      else let '(w, fields) := in_word n s' in (String c w, fields)
  end.

Definition split (s : string) (maxsplit : nat) : list string :=
  split_from maxsplit s.

Fixpoint lstrip (s : string) : string :=
  match s with
  | String c s' => if isspace c then lstrip s' else s
  | EmptyString => EmptyString
  end.

(** [s.strip()] *)
Definition strip (s : string) : string :=
  String.rev (lstrip (String.rev (lstrip s))).

Definition digit (c : ascii) : option Z :=
  let n := Z.of_nat (nat_of_ascii c) in
  if (48 <=? n) && (n <=? 57) then Some (n - 48) else None.

(** Decimal digits, single underscores allowed between two digits. *)
Fixpoint digits (acc : Z) (after_digit : bool) (s : string) : option Z :=
  match s with
  | EmptyString => if after_digit then Some acc else None
  | String c s' =>
      if Ascii.eqb c "_"%char
      then (if after_digit then digits acc false s' else None)
      else match digit c with
           | Some d => digits (10 * acc + d) true s'
           | None => None
           end
  end.

(** The white space that [int] skips at the ends of its argument: the ASCII
    blanks, and the two Latin-1 spaces, which it turns into blanks first.
    The separators U+001C to U+001F are white space for [split] and [strip]
    but not for [int]. *)
Definition int_space (c : ascii) : bool :=
  let n := Z.of_nat (nat_of_ascii c) in
  ((9 <=? n) && (n <=? 13)) || (n =? 32) || (n =? 133) || (n =? 160).

Fixpoint lstrip_int (s : string) : string :=
  match s with
  | String c s' => if int_space c then lstrip_int s' else s
  | EmptyString => EmptyString
  end.

Definition strip_int (s : string) : string :=
  String.rev (lstrip_int (String.rev (lstrip_int s))).

(** [sys.int_info.default_max_str_digits]: a decimal text of more digits is
    not converted to an integer, nor an integer of more digits to text. *)
Definition MAX_STR_DIGITS : nat := 4300.

Definition INT_LIMIT : Z := 10 ^ Z.of_nat MAX_STR_DIGITS.

(** The digits of a numeral, underscores and leading zeros apart and
    included respectively. *)
Fixpoint digit_count (s : string) : nat :=
  match s with
  | EmptyString => O
  | String c s' =>
      match digit c with
      | Some _ => S (digit_count s')
      | None => digit_count s'
      end
  end.

(** An unsigned numeral of at most [MAX_STR_DIGITS] digits. *)
Definition number (s : string) : option Z :=
  if (MAX_STR_DIGITS <? digit_count s)%nat then None else digits 0 false s.

(** [int(s)]: the white space of [int_space] around the number is ignored,
    then an optional sign and the digits; [None] stands for [ValueError]. *)
Definition int (s : string) : option Z :=
  match strip_int s with
  | String "-"%char s' => Z.opp <$> number s'
  | String "+"%char s' => number s'
  | s' => number s'
  end.

(** [str(n)], and whether it returns: for a number of more than
    [MAX_STR_DIGITS] digits it raises [ValueError], as does formatting the
    number in an f-string. *)
Definition str (n : Z) : string := pretty n.

Definition str_fits (n : Z) : bool := Z.abs n <? INT_LIMIT.

(** [a / b] on integers raises [OverflowError] when the quotient, rounded
    to the nearest float, is out of range; [b] is not zero. *)
Definition FLOAT_LIMIT : Z := 2 ^ 1024 - 2 ^ 970.

Definition true_div_overflows (a b : Z) : bool :=
  FLOAT_LIMIT * Z.abs b <=? Z.abs a.

(** [os.path.basename]: what follows the last slash. *)
Fixpoint basename (s : string) : string :=
  match s with
  | EmptyString => EmptyString
  | String c s' =>
      if existsb (Ascii.eqb "/"%char) (list_ascii_of_string s')
      then basename s'
      else if Ascii.eqb c "/"%char then s' else s
  end.

End Py.

(** ** Observable effects *)

Inductive event :=
| Sendto (ip : string) (port : Z) (payload : string)
| NewMessage (sender content : string)
| ReceivingFile (sender filename : string) (file_size : Z)
| FileReceived (sender filename : string) (file_size : Z) (output_path : string)
| Sleep (seconds : Z).

Inductive exn := IndexError | KeyError | OSError.

Inductive completion := Returned | Raised (e : exn).

#[global] Instance event_eq_dec : EqDecision event.
Proof. solve_decision. Defined.

Definition is_send (e : event) : bool :=
  match e with Sendto _ _ _ => true | _ => false end.

(** ** The file system *)

Record filesystem := {
  files : gmap string (list byte);
  unwritable : gset string;
  unreadable : gset string
}.

Definition with_files (f : gmap string (list byte)) (d : filesystem) : filesystem :=
  {| files := f; unwritable := unwritable d; unreadable := unreadable d |}.

(** [open(path, "wb")]: creates or truncates the file; [None] is [OSError]. *)
Definition open_wb (path : string) (d : filesystem) : option filesystem :=
  if decide (path ∈ unwritable d) then None
  else Some (with_files (<[path := []]> (files d)) d).

(** [f.write(data)] on a file opened by [open_wb]. *)
Definition write (path : string) (data : list byte) (d : filesystem) : filesystem :=
  with_files (<[path := app (files d !!! path) data]> (files d)) d.

(** [open(path, "rb")] followed by reading the whole file. *)
Definition read_rb (path : string) (d : filesystem) : option (list byte) :=
  if decide (path ∈ unreadable d) then None else files d !! path.

(** [os.remove(path)] *)
Definition remove (path : string) (d : filesystem) : option filesystem :=
  match files d !! path with
  | Some _ => Some (with_files (delete path (files d)) d)
  | None => None
  end.

(** ** Global state (lines 21-30) *)

Abbreviation device := (string * Z * Z)%type.
Abbreviation transfer := (string * Z * Z * string)%type.

Record state := {
  device_name : string;
  known_devices : list (string * device);
  received_ids : gset string;
  ack_received : gmap string bool;
  pending_files : gmap string transfer;
  file_chunks : gmap string (gmap Z (list byte));
  disk : filesystem
}.

Definition set_known_devices (v : list (string * device)) (st : state) : state :=
  {| device_name := device_name st; known_devices := v;
     received_ids := received_ids st; ack_received := ack_received st;
     pending_files := pending_files st; file_chunks := file_chunks st;
     disk := disk st |}.

Definition set_received_ids (v : gset string) (st : state) : state :=
  {| device_name := device_name st; known_devices := known_devices st;
     received_ids := v; ack_received := ack_received st;
     pending_files := pending_files st; file_chunks := file_chunks st;
     disk := disk st |}.

Definition set_ack_received (v : gmap string bool) (st : state) : state :=
  {| device_name := device_name st; known_devices := known_devices st;
     received_ids := received_ids st; ack_received := v;
     pending_files := pending_files st; file_chunks := file_chunks st;
     disk := disk st |}.

Definition set_pending_files (v : gmap string transfer) (st : state) : state :=
  {| device_name := device_name st; known_devices := known_devices st;
     received_ids := received_ids st; ack_received := ack_received st;
     pending_files := v; file_chunks := file_chunks st;
     disk := disk st |}.

Definition set_file_chunks (v : gmap string (gmap Z (list byte))) (st : state) : state :=
  {| device_name := device_name st; known_devices := known_devices st;
     received_ids := received_ids st; ack_received := ack_received st;
     pending_files := pending_files st; file_chunks := v;
     disk := disk st |}.

Definition set_disk (v : filesystem) (st : state) : state :=
  {| device_name := device_name st; known_devices := known_devices st;
     received_ids := received_ids st; ack_received := ack_received st;
     pending_files := pending_files st; file_chunks := file_chunks st;
     disk := v |}.

(** [known_devices[name] = v]: an existing key keeps its position, a new one
    goes last. *)
Fixpoint dict_set (name : string) (v : device) (d : list (string * device))
  : list (string * device) :=
  match d with
  | [] => [(name, v)]
  | (name', v') :: d' =>
      if String.eqb name name' then (name, v) :: d'
      else (name', v') :: dict_set name v d'
  end.

Fixpoint dict_get (name : string) (d : list (string * device)) : option device :=
  match d with
  | [] => None
  | (name', v') :: d' => if String.eqb name name' then Some v' else dict_get name d'
  end.

(** The loop of lines 127-132 and 161-166: the first device, in insertion
    order, whose address is [ip]. *)
Fixpoint sender_of (ip : string) (d : list (string * device)) : string :=
  match d with
  | [] => "Dispositivo desconhecido"
  | (name, (dev_ip, _, _)) :: d' =>
      if String.eqb dev_ip ip then name else sender_of ip d'
  end.

(** [send_message_to_ip(ip, UDP_PORT, message)] with its result dropped, as
    every reply of [handle_message] does. *)
Definition reply (ip : string) (message : string) : list event :=
  [Sendto ip UDP_PORT message].

(** [sorted(chunks.keys())] *)
Definition sorted_keys (chunks : gmap Z (list byte)) : list Z :=
  merge_sort Z.le (map_to_list chunks).*1.

(** Lines 243-246: the writes of the reassembly loop. *)
Definition write_chunks (path : string) (chunks : gmap Z (list byte))
    (d : filesystem) : filesystem :=
  foldl (fun d seq => write path (chunks !!! seq) d) d (sorted_keys chunks).

(** The bytes those writes put in the file, one after the other. *)
Definition reassemble (chunks : gmap Z (list byte)) : list byte :=
  List.concat ((fun seq => chunks !!! seq) <$> sorted_keys chunks).

(** The state in which END leaves a transfer that it closes: [kept] says
    whether the output file stays on disk. *)
Definition closed (file_id output_path : string) (kept : option (list byte))
    (st : state) : state :=
  let f := match kept with
           | Some data => <[output_path := data]> (files (disk st))
           | None => delete output_path (files (disk st))
           end in
  set_file_chunks (delete file_id (file_chunks st))
    (set_pending_files (delete file_id (pending_files st))
       (set_disk (with_files f (disk st)) st)).

(** The two transfer tables hold the same file ids. *)
Definition tables_agree (st : state) : Prop :=
  dom (pending_files st) = dom (file_chunks st).

(** A datagram that [handle_message] reads as CHUNK [file_id] with sequence
    number [item.1] and payload [item.2], and one that it reads as END
    [file_id] with the declared hash. *)
Definition chunk_datagram (b64decode : string -> option (list byte))
    (file_id : string) (dg : Z * string * (string * Z)) (item : Z * list byte) : Prop :=
  exists seq_field data_b64 rest,
    Py.split (Py.strip dg.1.2) 3 = "CHUNK" :: file_id :: seq_field :: data_b64 :: rest
    /\ Py.int seq_field = Some item.1
    /\ b64decode data_b64 = Some item.2.

Definition end_datagram (file_id received_hash : string)
    (dg : Z * string * (string * Z)) : Prop :=
  exists rest, Py.split (Py.strip dg.1.2) 3 = "END" :: file_id :: received_hash :: rest.

Section Protocol.

(** [hashlib.sha256(data).hexdigest()], [base64.b64decode] ([None] when it
    raises) and [base64.b64encode(data).decode()]. *)
Variable sha256_hex : list byte -> string.
Variable b64decode : string -> option (list byte).
Variable b64encode : list byte -> string.

(** [calculate_file_hash] (lines 40-46); [None] is the [OSError] of [open]. *)
Definition calculate_file_hash (file_path : string) (d : filesystem) : option string :=
  sha256_hex <$> read_rb file_path d.

(** ** Inbound dispatch: [handle_message] (lines 89-303) *)

(** HEARTBEAT, lines 99-108. *)
Definition on_heartbeat (now : Z) (ip : string) (port : Z)
    (device_name_received : string) (st : state) : completion * state * list event :=
  if String.eqb device_name_received (device_name st) then (Returned, st, [])
  else (Returned,
        set_known_devices
          (dict_set device_name_received (ip, port, now) (known_devices st)) st,
        []).

(** TALK, lines 110-142. *)
Definition on_talk (ip : string) (message_id content : string) (st : state)
  : completion * state * list event :=
  if decide (message_id ∈ received_ids st) then
    (Returned, st, reply ip ("ACK " +:+ message_id))
  else
    let st1 := set_received_ids ({[message_id]} ∪ received_ids st) st in
    let sender := sender_of ip (known_devices st1) in
    (Returned, st1, NewMessage sender content :: reply ip ("ACK " +:+ message_id)).

(** FILE, lines 144-180. *)
Definition on_file (ip : string) (file_id filename size_field : string) (st : state)
  : completion * state * list event :=
  match Py.int size_field with
  | None => (Returned, st, [])
  | Some file_size =>
      match pending_files st !! file_id with
      | Some _ => (Returned, st, reply ip ("ACK " +:+ file_id))
      | None =>
          let sender := sender_of ip (known_devices st) in
          let st1 := set_file_chunks (<[file_id := ∅]> (file_chunks st)) st in
          let st2 :=
            set_pending_files
              (<[file_id := (filename, file_size, 0, sender)]> (pending_files st1))
              st1 in
          (Returned, st2,
           ReceivingFile sender filename file_size :: reply ip ("ACK " +:+ file_id))
      end
  end.

(** Lines 216-218: computing and showing the progress raises when
    [total_chunks] is zero (ZeroDivisionError), when the quotient does not
    fit a float (OverflowError), and when [seq + 1] or [total_chunks] has too
    many digits to be shown (ValueError). *)
Definition progress_raises (file_size chunks_received seq : Z) : bool :=
  let total_chunks := (file_size + CHUNK_SIZE - 1) / CHUNK_SIZE in
  (total_chunks =? 0)
  || Py.true_div_overflows chunks_received total_chunks
  || negb (Py.str_fits (seq + 1))
  || negb (Py.str_fits total_chunks).

(** CHUNK, lines 182-224.  The [try] starts at the decoding; a failed
    decoding and a failure of the progress line both end in the [except]
    clause, which sends nothing.  The sequence number itself, which [int]
    has read, is never too long to be written into the reply. *)
Definition on_chunk (ip : string) (file_id seq_field data_b64 : string) (st : state)
  : completion * state * list event :=
  match Py.int seq_field with
  | None => (Returned, st, [])
  | Some seq =>
      match pending_files st !! file_id with
      | None => (Returned, st, [])
      | Some (filename, file_size, chunks_received, sender) =>
          match file_chunks st !! file_id with
          | None => (Raised KeyError, st, [])
          | Some chunks =>
              match chunks !! seq with
              | Some _ =>
                  (Returned, st,
                   reply ip ("ACK " +:+ file_id +:+ "-" +:+ Py.str seq))
              | None =>
                  match b64decode data_b64 with
                  | None => (Returned, st, [])
                  | Some chunk_data =>
                      let st1 :=
                        set_file_chunks
                          (<[file_id := <[seq := chunk_data]> chunks]> (file_chunks st))
                          st in
                      let chunks_received := chunks_received + 1 in
                      let st2 :=
                        set_pending_files
                          (<[file_id := (filename, file_size, chunks_received, sender)]>
                             (pending_files st1))
                          st1 in
                      if progress_raises file_size chunks_received seq
                      then (Returned, st2, [])
                      else
                        let chunk_ack_id := file_id +:+ "-" +:+ Py.str seq in
                        (Returned, st2, reply ip ("ACK " +:+ chunk_ack_id))
                  end
              end
          end
      end
  end.

(** The body of the [try] of END, lines 239-281: [inl e] when it raises [e],
    with the state and the events reached by then. *)
Definition end_body (ip : string) (file_id received_hash : string)
    (filename : string) (file_size : Z) (sender : string) (st : state)
  : (exn + unit) * state * list event :=
  let output_path := "/root/" +:+ filename in
  match open_wb output_path (disk st) with
  | None => (inl OSError, st, [])
  | Some d0 =>
      match file_chunks st !! file_id with
      | None => (inl KeyError, set_disk d0 st, [])
      | Some chunks =>
          let st1 := set_disk (write_chunks output_path chunks d0) st in
          match calculate_file_hash output_path (disk st1) with
          | None => (inl OSError, st1, [])
          | Some calculated_hash =>
              if negb (String.eqb calculated_hash received_hash) then
                match remove output_path (disk st1) with
                | None => (inl OSError, st1, [])
                | Some d2 =>
                    let st2 := set_disk d2 st1 in
                    let sent := reply ip ("NACK " +:+ file_id +:+ " hash_invalido") in
                    let st3 := set_pending_files (delete file_id (pending_files st2)) st2 in
                    let st4 := set_file_chunks (delete file_id (file_chunks st3)) st3 in
                    (inr tt, st4, sent)
                end
              else
                let shown := FileReceived sender filename file_size output_path in
                let sent := reply ip ("ACK " +:+ file_id) in
                let st2 := set_pending_files (delete file_id (pending_files st1)) st1 in
                let st3 := set_file_chunks (delete file_id (file_chunks st2)) st2 in
                (inr tt, st3, shown :: sent)
          end
      end
  end.

(** END, lines 226-284. *)
Definition on_end (ip : string) (file_id received_hash : string) (st : state)
  : completion * state * list event :=
  match pending_files st !! file_id with
  | None => (Returned, st, [])
  | Some (filename, file_size, chunks_received, sender) =>
      match end_body ip file_id received_hash filename file_size sender st with
      | (inr _, st', evs) => (Returned, st', evs)
      | (inl _, st', evs) =>
          (Returned, st',
           app evs (reply ip ("NACK " +:+ file_id +:+ " erro_processamento")))
      end
  end.

(** ACK, lines 286-293, and NACK, lines 295-303. *)
Definition on_ack (ack_id : string) (st : state) : completion * state * list event :=
  (Returned, set_ack_received (<[ack_id := true]> (ack_received st)) st, []).

Definition on_nack (nack_id : string) (st : state) : completion * state * list event :=
  (Returned, set_ack_received (<[nack_id := false]> (ack_received st)) st, []).

(** [parts[i]] past the end of [parts] raises [IndexError]; only the ACK
    branch, which has no length test, can reach it. *)
Definition handle_message (now : Z) (message : string) (addr : string * Z)
    (st : state) : completion * state * list event :=
  let parts := Py.split message 3 in
  let '(ip, port) := addr in
  match parts with
  | [] => (Returned, st, [])
  | message_type :: fields =>
      if String.eqb message_type "HEARTBEAT" && (2 <=? List.length parts)%nat then
        match fields with
        | name :: _ => on_heartbeat now ip port name st
        | _ => (Raised IndexError, st, [])
        end
      else if String.eqb message_type "TALK" && (3 <=? List.length parts)%nat then
        match fields with
        | message_id :: content :: _ => on_talk ip message_id content st
        | _ => (Raised IndexError, st, [])
        end
      else if String.eqb message_type "FILE" && (4 <=? List.length parts)%nat then
        match fields with
        | file_id :: filename :: size_field :: _ =>
            on_file ip file_id filename size_field st
        | _ => (Raised IndexError, st, [])
        end
      else if String.eqb message_type "CHUNK" && (4 <=? List.length parts)%nat then
        match fields with
        | file_id :: seq_field :: data_b64 :: _ =>
            on_chunk ip file_id seq_field data_b64 st
        | _ => (Raised IndexError, st, [])
        end
      else if String.eqb message_type "END" && (3 <=? List.length parts)%nat then
        match fields with
        | file_id :: received_hash :: _ => on_end ip file_id received_hash st
        | _ => (Raised IndexError, st, [])
        end
      else if String.eqb message_type "ACK" then
        match fields with
        | ack_id :: _ => on_ack ack_id st
        | _ => (Raised IndexError, st, [])
        end
      else if String.eqb message_type "NACK" && (3 <=? List.length parts)%nat then
        match fields with
        | nack_id :: _ => on_nack nack_id st
        | _ => (Raised IndexError, st, [])
        end
      else (Returned, st, [])
  end.

(** [listen_for_messages] (lines 63-76) over the datagrams of an inbox, each
    with the clock reading at its arrival; an exception of [handle_message]
    is caught and logged by the loop. *)
Fixpoint listen_for_messages (inbox : list (Z * string * (string * Z)))
    (st : state) : state * list event :=
  match inbox with
  | [] => (st, [])
  | (now, data, addr) :: inbox' =>
      let '(_, st1, evs1) := handle_message now (Py.strip data) addr st in
      let '(st2, evs2) := listen_for_messages inbox' st1 in
      (st2, app evs1 evs2)
  end.

(** ** The delivery tracker seen from a waiting sender *)

(** What the listener thread stores under [ack_lock] between two acquisitions
    of the lock by the sender: [ack_received[id] = outcome], in order. *)
Definition record_all (ws : list (string * bool)) (acks : gmap string bool)
  : gmap string bool :=
  foldl (fun a w => <[w.1 := w.2]> a) acks ws.

(** One call of [wait_for_ack]: [stale] is stored before the call takes the
    lock for the first time; [polls] has one entry per iteration of the
    polling loop that starts before the deadline, with what is stored since
    the previous acquisition. *)
Record wait_env := {
  stale : list (string * bool);
  polls : list (list (string * bool))
}.

(** One attempt of a retry loop: whether [sendto] reports bytes sent, and the
    wait that follows. *)
Record attempt_env := {
  network_ok : bool;
  waiting : wait_env
}.

(** [send_message_to_ip] (lines 78-87): [true] when bytes were sent, [false]
    when none were or [sendto] raised. *)
Definition send_message_to_ip (ip : string) (port : Z) (message : string)
    (ok : bool) : bool * list event :=
  (ok, [Sendto ip port message]).

(** The polling loop of lines 336-342. *)
Fixpoint poll (ack_id : string) (windows : list (list (string * bool)))
    (acks : gmap string bool) : option bool * gmap string bool :=
  match windows with
  | [] => (None, acks)
  | ws :: windows' =>
      let acks' := record_all ws acks in
      match acks' !! ack_id with
      | Some outcome => (Some outcome, acks')
      | None => poll ack_id windows' acks'
      end
  end.

(** [wait_for_ack] (lines 326-342): [Some true] is [True], [Some false] is
    [False], [None] is the time-out. *)
Definition wait_for_ack (ack_id : string) (env : wait_env) (st : state)
  : option bool * state :=
  let acks0 := record_all (stale env) (ack_received st) in
  let acks1 := delete ack_id acks0 in
  let '(result, acks2) := poll ack_id (polls env) acks1 in
  (result, set_ack_received acks2 st).

(** ** Outbound reliable operations *)

Inductive op_kind := TALK | FILE | CHUNK | END.

Inductive loop_exit := Acked | Rejected | Exhausted.

(** The four retry loops (lines 360-379, 426-445, 467-485, 496-515) over the
    values [attempts] of the loop variable.  They differ in two places: the
    CHUNK loop goes on after a NACK, and the TALK loop has no [else] on its
    last attempt but runs off its end. *)
Fixpoint retry_loop (kind : op_kind) (ip message ack_id : string)
    (env : nat -> attempt_env) (attempts : list nat) (st : state)
  : loop_exit * state * list event :=
  match attempts with
  | [] => (Exhausted, st, [])
  | attempt :: attempts' =>
      let '(sent, evs) :=
        send_message_to_ip ip UDP_PORT message (network_ok (env attempt)) in
      let '(result, st1) :=
        if sent then wait_for_ack ack_id (waiting (env attempt)) st
        else (None, st) in
      match result, kind with
      | Some true, _ => (Acked, st1, evs)
      | Some false, (TALK | FILE | END) => (Rejected, st1, evs)
      | _, _ =>
          if (attempt <? MAX_RETRIES)%nat then
            let '(exit, st2, evs2) :=
              retry_loop kind ip message ack_id env attempts' st1 in
            (exit, st2, app evs (Sleep 1 :: evs2))
          else
            match kind with
            | TALK =>
                let '(exit, st2, evs2) :=
                  retry_loop kind ip message ack_id env attempts' st1 in
                (exit, st2, app evs evs2)
            | _ => (Exhausted, st1, evs)
            end
      end
  end.

(** [generate_message_id] (lines 36-38), from the clock reading and the
    random draw. *)
Definition generate_message_id (name : string) (epoch rnd : Z) : string :=
  name +:+ "-" +:+ Py.str epoch +:+ "-" +:+ Py.str rnd.

(** [talk_to_device] (lines 344-379). *)
Definition talk_to_device (target_device content : string) (epoch rnd : Z)
    (env : nat -> attempt_env) (st : state) : bool * state * list event :=
  match dict_get target_device (known_devices st) with
  | None => (false, st, [])
  | Some (ip, _, _) =>
      let message_id := generate_message_id (device_name st) epoch rnd in
      let message := "TALK " +:+ message_id +:+ " " +:+ content in
      match retry_loop TALK ip message message_id env (List.seq 1 MAX_RETRIES) st with
      | (Acked, st', evs) => (true, st', evs)
      | (Rejected, st', evs) => (false, st', evs)
      | (Exhausted, st', evs) => (false, st', evs)
      end
  end.

(** [send_file_to_device] (lines 381-404): the result, and the arguments
    [(target_device, ip, file_path)] of the [transfer_file] thread it starts,
    if it starts one.  Nothing is sent and no id is drawn here. *)
Definition send_file_to_device (target_device file_path : string) (st : state)
  : bool * option (string * string * string) :=
  match files (disk st) !! file_path with
  | None => (false, None)
  | Some _ =>
      match dict_get target_device (known_devices st) with
      | None => (false, None)
      | Some (ip, _, _) => (true, Some (target_device, ip, file_path))
      end
  end.

(** The environment of one transfer: the draws of its file id and the
    attempts of its FILE loop, of the CHUNK loop of each sequence number, and
    of its END loop. *)
Record transfer_env := {
  file_epoch : Z;
  file_rnd : Z;
  file_attempts : nat -> attempt_env;
  chunk_attempts : Z -> nat -> attempt_env;
  end_attempts : nat -> attempt_env
}.

(** Lines 453-489: [f] is what is left to read of the open file. *)
Fixpoint send_chunks (ip file_id : string) (env : Z -> nat -> attempt_env)
    (seqs : list Z) (f : list byte) (st : state) : bool * state * list event :=
  match seqs with
  | [] => (true, st, [])
  | seq :: seqs' =>
      let chunk_data := take (Z.to_nat CHUNK_SIZE) f in
      match chunk_data with
      | [] => (true, st, [])
      | _ =>
          let chunk_b64 := b64encode chunk_data in
          let chunk_message :=
            "CHUNK " +:+ file_id +:+ " " +:+ Py.str seq +:+ " " +:+ chunk_b64 in
          let chunk_ack_id := file_id +:+ "-" +:+ Py.str seq in
          match retry_loop CHUNK ip chunk_message chunk_ack_id (env seq)
                  (List.seq 1 MAX_RETRIES) st with
          | (Acked, st1, evs) =>
              let '(ok, st2, evs2) :=
                send_chunks ip file_id env seqs' (drop (Z.to_nat CHUNK_SIZE) f) st1 in
              (ok, st2, app evs evs2)
          | (_, st1, evs) => (false, st1, evs)
          end
      end
  end.

(** Lines 422-445: the FILE loop; [false] is its [return False]. *)
Definition announce_file (ip file_message file_id : string)
    (env : nat -> attempt_env) (st : state) : bool * state * list event :=
  match retry_loop FILE ip file_message file_id env (List.seq 1 MAX_RETRIES) st with
  | (Acked, st1, evs) => (true, st1, evs)
  | (Rejected, st1, evs) => (false, st1, evs)
  | (Exhausted, st1, evs) => (false, st1, evs)
  end.

(** Lines 491-515: the END loop and the result of the transfer. *)
Definition send_end (ip end_message file_id : string)
    (env : nat -> attempt_env) (st : state) : bool * state * list event :=
  match retry_loop END ip end_message file_id env (List.seq 1 MAX_RETRIES) st with
  | (Acked, st1, evs) => (true, st1, evs)
  | (Rejected, st1, evs) => (false, st1, evs)
  | (Exhausted, st1, evs) => (false, st1, evs)
  end.

(** [transfer_file] (lines 406-519); every exception ends in [return False].
    The file being sent is not changed while the transfer runs. *)
Definition transfer_file (target_device ip file_path : string)
    (env : transfer_env) (st : state) : bool * state * list event :=
  match files (disk st) !! file_path with
  | None => (false, st, [])
  | Some content =>
      let file_size := Z.of_nat (List.length content) in
      let file_name := Py.basename file_path in
      let file_id :=
        generate_message_id (device_name st) (file_epoch env) (file_rnd env) in
      let file_message :=
        "FILE " +:+ file_id +:+ " " +:+ file_name +:+ " " +:+ Py.str file_size in
      match announce_file ip file_message file_id (file_attempts env) st with
      | (false, st1, evs1) => (false, st1, evs1)
      | (true, st1, evs1) =>
          let total_chunks := (file_size + CHUNK_SIZE - 1) / CHUNK_SIZE in
          match read_rb file_path (disk st1) with
          | None => (false, st1, evs1)
          | Some f =>
              match send_chunks ip file_id (chunk_attempts env)
                      (Z.of_nat <$> List.seq 0 (Z.to_nat total_chunks)) f st1 with
              | (false, st2, evs2) => (false, st2, app evs1 evs2)
              | (true, st2, evs2) =>
                  match calculate_file_hash file_path (disk st2) with
                  | None => (false, st2, app evs1 evs2)
                  | Some file_hash =>
                      let end_message := "END " +:+ file_id +:+ " " +:+ file_hash in
                      let '(ok, st3, evs3) :=
                        send_end ip end_message file_id (end_attempts env) st2 in
                      (ok, st3, app evs1 (app evs2 evs3))
                  end
              end
          end
      end
  end.

End Protocol.

(** ** What the environment does to one wait *)

(** Nothing is stored under [ack_id] while the sender polls. *)
Definition silent (ack_id : string) (env : wait_env) : Prop :=
  Forall (fun ws : list (string * bool) => ack_id ∉ ws.*1) (polls env).

(** The first poll that finds something stored under [ack_id] finds
    [outcome]: [true] after an ACK, [false] after a NACK. *)
Definition answers (ack_id : string) (outcome : bool) (env : wait_env) : Prop :=
  exists quiet ws later,
    polls env = app quiet (ws :: later)
    /\ Forall (fun ws : list (string * bool) => ack_id ∉ ws.*1) quiet
    /\ (ack_id, outcome) ∈ ws
    /\ (ack_id, negb outcome) ∉ ws.

(** An attempt that leaves a retry loop of kind [kind] running: the send
    fails, or nothing arrives during the wait, or, in the CHUNK loop only, a
    NACK arrives. *)
Definition fruitless (kind : op_kind) (ack_id : string) (e : attempt_env) : Prop :=
  network_ok e = false
  \/ silent ack_id (waiting e)
  \/ (kind = CHUNK /\ answers ack_id false (waiting e)).

(** [n] sends of one datagram with the back-off sleep between consecutive
    ones. *)
Fixpoint retries (ip message : string) (n : nat) : list event :=
  match n with
  | O => []
  | S O => [Sendto ip UDP_PORT message]
  | S n' => Sendto ip UDP_PORT message :: Sleep 1 :: retries ip message n'
  end.

(** ** Running the model *)

(** Stand-ins for the three library functions, to run the model on examples:
    the digest is the text of the data itself, the encoding is the identity. *)
Definition plain_digest (data : list byte) : string := string_of_list_byte data.
Definition plain_decode (s : string) : option (list byte) := Some (list_byte_of_string s).
Definition plain_encode (data : list byte) : string := string_of_list_byte data.

Definition empty_disk : filesystem :=
  {| files := ∅; unwritable := ∅; unreadable := ∅ |}.

(** The state of a device that has just started. *)
Definition started (name : string) : state :=
  {| device_name := name; known_devices := []; received_ids := ∅;
     ack_received := ∅; pending_files := ∅; file_chunks := ∅;
     disk := empty_disk |}.

(** An environment in which nothing ever arrives: every send goes out and
    every wait polls once and times out. *)
Definition no_answer : attempt_env :=
  {| network_ok := true; waiting := {| stale := []; polls := [[]] |} |}.

(** An attempt during which the listener stores [outcome] for [ack_id] before
    the second poll. *)
Definition answered (ack_id : string) (outcome : bool) : attempt_env :=
  {| network_ok := true;
     waiting := {| stale := []; polls := [[]; [(ack_id, outcome)]] |} |}.

(** A receiver that rejects the first attempt and accepts every later one. *)
Definition nack_then_ack (ack_id : string) (attempt : nat) : attempt_env :=
  if (attempt =? 1)%nat then answered ack_id false else answered ack_id true.

(** A device "pc1" that has heard of "pc2" and has a three-byte file to send. *)
Definition pc1 : state :=
  set_disk (with_files {["/tmp/a.txt" := ["a"; "b"; "c"]%byte]} empty_disk)
    (set_known_devices [("pc2", ("10.0.0.2", 5000, 0))] (started "pc1")).

(** A transfer whose only chunk is rejected once, everything else being
    accepted at the first attempt. *)
Definition one_chunk_rejected_once : transfer_env :=
  {| file_epoch := 17; file_rnd := 4242;
     file_attempts := fun _ => answered "pc1-17-4242" true;
     chunk_attempts := fun _ => nack_then_ack "pc1-17-4242-0";
     end_attempts := fun _ => answered "pc1-17-4242" true |}.

(** The third attempt is rejected, nothing arrives during the others. *)
Definition rejected_at_third (ack_id : string) (attempt : nat) : attempt_env :=
  if (attempt =? 3)%nat then answered ack_id false else no_answer.

Definition peer : string * Z := ("10.0.0.2", 5000).

(** "pc1" receiving the file "f1", announced as a.txt of [file_size] bytes,
    with the chunks [chunks] stored so far. *)
Definition receiving (file_size : Z) (chunks : gmap Z (list byte)) : state :=
  set_pending_files
    {["f1" := ("a.txt", file_size, Z.of_nat (size chunks), "pc2")]}
    (set_file_chunks {["f1" := chunks]} (started "pc1")).

(** The same on a device that may not write /root/a.txt. *)
Definition receiving_read_only (file_size : Z) (chunks : gmap Z (list byte)) : state :=
  set_disk {| files := ∅; unwritable := {["/root/a.txt"]}; unreadable := ∅ |}
    (receiving file_size chunks).

(** The count kept in [pending_files] is the number of chunks stored in
    [file_chunks]. *)
Definition counts_agree (st : state) : Prop :=
  forall file_id filename file_size chunks_received sender chunks,
    pending_files st !! file_id = Some (filename, file_size, chunks_received, sender) ->
    file_chunks st !! file_id = Some chunks ->
    chunks_received = Z.of_nat (size chunks).

(** The number of fields that the [elif] chain of [handle_message] asks of
    each message type; ACK is tested without a length. *)
Definition fields_needed (message_type : string) : option nat :=
  if String.eqb message_type "HEARTBEAT" then Some 2%nat
  else if String.eqb message_type "TALK" then Some 3%nat
  else if String.eqb message_type "FILE" then Some 4%nat
  else if String.eqb message_type "CHUNK" then Some 4%nat
  else if String.eqb message_type "END" then Some 3%nat
  else if String.eqb message_type "ACK" then Some 0%nat
  else if String.eqb message_type "NACK" then Some 3%nat
  else None.

(** A stand-in decoder that fails: it rejects a payload that holds an
    exclamation mark. *)
Definition checked_decode (s : string) : option (list byte) :=
  if existsb (Ascii.eqb "!"%char) (list_ascii_of_string s) then None
  else Some (list_byte_of_string s).

(** The bytes of chunk [i] of a file, the number of chunks of a file, and
    the datagram that carries chunk [i] (lines 448-464). *)
Definition slice (content : list byte) (i : nat) : list byte :=
  take (Z.to_nat CHUNK_SIZE) (drop (Z.to_nat CHUNK_SIZE * i) content).

Definition chunk_count (content : list byte) : nat :=
  Z.to_nat ((Z.of_nat (List.length content) + CHUNK_SIZE - 1) / CHUNK_SIZE).

Definition chunk_text (b64encode : list byte -> string) (file_id : string)
    (content : list byte) (i : nat) : string :=
  "CHUNK " +:+ file_id +:+ " " +:+ Py.str (Z.of_nat i) +:+ " "
  +:+ b64encode (slice content i).

Definition chunk_datagram_of (b64encode : list byte -> string) (ip file_id : string)
    (content : list byte) (i : nat) : event :=
  Sendto ip UDP_PORT (chunk_text b64encode file_id content i).

(** An attempt whose send goes out and whose wait sees an ACK first. *)
Definition acked (ack_id : string) (e : attempt_env) : Prop :=
  network_ok e = true /\ answers ack_id true (waiting e).

(** ** The heartbeat and the sweeper *)

Definition BROADCAST_ADDR : string := "255.255.255.255".
Definition HEARTBEAT_INTERVAL : Z := 25.
Definition DEVICE_TIMEOUT : Z := 120.

(** One turn of the loop of [send_heartbeat] (lines 53-61): [ok] says whether
    [sendto] returned; when it raised, the loop sleeps one second only. *)
Definition heartbeat_round (name : string) (ok : bool) : list event :=
  [Sendto BROADCAST_ADDR UDP_PORT ("HEARTBEAT " +:+ name);
   Sleep (if ok then HEARTBEAT_INTERVAL else 1)].

(** [send_heartbeat] (lines 48-61), one entry of [rounds] per turn taken
    while [running] holds. *)
Definition send_heartbeat (rounds : list bool) (st : state) : list event :=
  List.concat (heartbeat_round (device_name st) <$> rounds).

(** [if name in known_devices: del known_devices[name]] *)
Fixpoint dict_del (name : string) (d : list (string * device))
  : list (string * device) :=
  match d with
  | [] => []
  | (name', v') :: d' =>
      if String.eqb name name' then d' else (name', v') :: dict_del name d'
  end.

(** The [for] loop of lines 314-319 over the copy of the registry: an entry
    of the copy that is too old has its name deleted from the registry. *)
Definition evict (current_time : Z) (devices_copy devices : list (string * device))
  : list (string * device) :=
  foldl (fun d '(name, (ip, port, last_seen)) =>
           if DEVICE_TIMEOUT <? current_time - last_seen then dict_del name d else d)
        devices devices_copy.

(** The names that a copy of the registry condemns. *)
Definition expired_names (current_time : Z) (devices_copy : list (string * device))
  : list string :=
  (filter (fun e : string * device => DEVICE_TIMEOUT < current_time - e.2.2) devices_copy).*1.

Section Sweeper.

Variable sha256_hex : list byte -> string.
Variable b64decode : string -> option (list byte).

(** One turn of the loop of [clean_inactive_devices] (lines 307-321).  The
    clock is read once, in whole seconds here; [inbox] holds the datagrams
    that the listener thread handles after the copy is taken and before the
    deletions are made.  The line printed for each removal is left out. *)
Definition clean_inactive_devices (current_time : Z)
    (inbox : list (Z * string * (string * Z))) (st : state) : state * list event :=
  let devices_copy := known_devices st in
  let '(st1, evs) := listen_for_messages sha256_hex b64decode inbox st in
  (set_known_devices (evict current_time devices_copy (known_devices st1)) st1,
   app evs [Sleep 1]).

End Sweeper.

(** ** Words *)

(** A text without white space, and a field as [split] yields them: not
    empty and without white space. *)
Definition no_space (w : string) : bool :=
  forallb (fun c => negb (Py.isspace c)) (list_ascii_of_string w).

Definition is_word (w : string) : bool :=
  match w with
  | EmptyString => false
  | _ => no_space w
  end.

(** A text that [strip] leaves alone: not empty, no white space at either
    end. *)
Definition trimmed (s : string) : Prop :=
  s <> "" /\ Py.lstrip s = s /\ Py.lstrip (String.rev s) = String.rev s.

(** The datagrams among the events of a sender, as they reach a listener at
    time [now] from the address [from]. *)
Definition delivered (now : Z) (from : string * Z) (evs : list event)
  : list (Z * string * (string * Z)) :=
  flat_map (fun e => match e with
                     | Sendto _ _ payload => [(now, payload, from)]
                     | _ => []
                     end) evs.

(** [k] nines: for [k = MAX_STR_DIGITS] the largest numeral that [int]
    reads. *)
Definition nines (k : nat) : string := string_of_list_ascii (replicate k "9"%char).

(** ** The command loop *)

(** What one line typed at the prompt makes [command_loop] do (lines
    544-573): the call it makes, with its arguments. *)
Inductive action :=
| ShowDevices
| TalkTo (target_device message : string)
| SendFileTo (target_device file_path : string)
| Usage (command : string)
| Stop
| UnknownCommand.

(** The [if] chain of lines 546-573 on one line of input. *)
Definition read_command (line : string) : action :=
  let cmd := Py.strip line in
  if String.eqb cmd "devices" then ShowDevices
  else if String.prefix "talk " cmd then
    match Py.split cmd 2 with
    | _ :: target_device :: message :: _ => TalkTo target_device message
    | _ => Usage "talk"
    end
  else if String.prefix "sendfile " cmd then
    match Py.split cmd 2 with
    | _ :: target_device :: file_path :: _ => SendFileTo target_device file_path
    | _ => Usage "sendfile"
    end
  else if String.eqb cmd "exit" then Stop
  else UnknownCommand.

(** [command_loop] (lines 539-577) over the lines typed: "exit" clears
    [running] and leaves the loop, what is typed after it is not read. *)
Fixpoint command_loop (lines : list string) : list action :=
  match lines with
  | [] => []
  | line :: lines' =>
      match read_command line with
      | Stop => [Stop]
      | a => a :: command_loop lines'
      end
  end.

(** The arguments of a call made by the command loop are a name without
    white space and a text without white space at its ends. *)
Definition clean_arguments (a : action) : Prop :=
  match a with
  | TalkTo target text | SendFileTo target text => is_word target = true /\ trimmed text
  | _ => True
  end.

(** A last field of [split], as a part of the text [s] that was split:
    none, or the rest of [s] from its first character that is not white
    space. *)
Definition tail_field (s : string) (fields : list string) : Prop :=
  fields = []
  \/ exists pre m, fields = [m] /\ s = pre +:+ m /\ m <> "" /\ Py.lstrip m = m.

(** ** More sample runs *)

(** A payload encoding that, like Base64, yields one word and decodes back:
    two hexadecimal digits per byte. *)
Definition hex_digit (n : N) : ascii :=
  ascii_of_N (if (n <? 10)%N then 48 + n else 87 + n).

Definition hex_value (c : ascii) : option N :=
  let n := N_of_ascii c in
  if ((48 <=? n) && (n <=? 57))%N then Some (n - 48)%N
  else if ((97 <=? n) && (n <=? 102))%N then Some (n - 87)%N
  else None.

Fixpoint hex_encode (data : list byte) : string :=
  match data with
  | [] => ""
  | b :: data' =>
      String (hex_digit (Byte.to_N b / 16))
        (String (hex_digit (Byte.to_N b mod 16)) (hex_encode data'))
  end.

Fixpoint hex_decode (s : string) : option (list byte) :=
  match s with
  | EmptyString => Some []
  | String a (String b s') =>
      match hex_value a, hex_value b, hex_decode s' with
      | Some x, Some y, Some data =>
          (fun v => v :: data) <$> Byte.of_N (16 * x + y)
      | _, _, _ => None
      end
  | _ => None
  end.

(** A wait that finds an ACK for "m1" stored before it starts, and nothing
    after. *)
Definition early_ack : wait_env :=
  {| stale := [("m1", true)]; polls := [[]; []] |}.

(** An attempt whose send fails. *)
Definition network_down : attempt_env :=
  {| network_ok := false; waiting := {| stale := []; polls := [] |} |}.

(** The first send fails, the second gets no answer, the third is
    acknowledged. *)
Definition accepted_at_third (ack_id : string) (attempt : nat) : attempt_env :=
  if (attempt =? 1)%nat then network_down
  else if (attempt =? 3)%nat then answered ack_id true
  else no_answer.

(** A transfer every operation of which is acknowledged at once. *)
Definition all_accepted : transfer_env :=
  {| file_epoch := 17; file_rnd := 4242;
     file_attempts := fun _ => answered "pc1-17-4242" true;
     chunk_attempts := fun seq _ => answered ("pc1-17-4242-" +:+ Py.str seq) true;
     end_attempts := fun _ => answered "pc1-17-4242" true |}.

(** "pc1" with a file of 300 bytes, that is two chunks. *)
Definition pc1_two_chunks : state :=
  set_disk (with_files {["/tmp/b.bin" := replicate 300 "x"%byte]} empty_disk)
    (set_known_devices [("pc2", ("10.0.0.2", 5000, 0))] (started "pc1")).

(** The first chunk is acknowledged at once; the sends of the second fail,
    are rejected or get no answer. *)
Definition second_chunk_lost : transfer_env :=
  {| file_epoch := 17; file_rnd := 4242;
     file_attempts := fun _ => answered "pc1-17-4242" true;
     chunk_attempts := fun seq attempt =>
       if seq =? 0 then answered "pc1-17-4242-0" true
       else if (attempt =? 1)%nat then network_down
       else if (attempt =? 2)%nat then answered "pc1-17-4242-1" false
       else no_answer;
     end_attempts := fun _ => answered "pc1-17-4242" true |}.

(** "pc1" knowing "pc2", last heard of at time 0, and "pc3", at time 1. *)
Definition two_peers : state :=
  set_known_devices
    [("pc2", ("10.0.0.2", 5000, 0)); ("pc3", ("10.0.0.3", 5000, 1))]
    (started "pc1").

(** "pc1" with a file whose name has a space. *)
Definition pc1_spaced_file : state :=
  set_disk (with_files {["/tmp/my notes.txt" := ["a"; "b"; "c"]%byte]} empty_disk)
    (set_known_devices [("pc2", ("10.0.0.2", 5000, 0))] (started "pc1")).

(** * Properties *)

(** ** The text primitives on sample inputs *)

Example split_talk :
  Py.split "TALK pc1-17-4242 hello   big world " 3
  = ["TALK"; "pc1-17-4242"; "hello"; "big world "].
Proof. reflexivity. Qed.

Example split_short : Py.split "  ACK " 3 = ["ACK"].
Proof. reflexivity. Qed.

Example strip_both : Py.strip "  END f1 abc  " = "END f1 abc".
Proof. reflexivity. Qed.

Example int_samples :
  (Py.int "250", Py.int "-7", Py.int "+1_000", Py.int "007", Py.int "12 ",
   Py.int "", Py.int "-", Py.int "1__0", Py.int "12a", Py.int "_1", Py.int "1 2")
  = (Some 250, Some (-7), Some 1000, Some 7, Some 12,
     None, None, None, None, None, None).
Proof. reflexivity. Qed.

Example basename_samples :
  (Py.basename "/home/u/a.txt", Py.basename "a.txt", Py.basename "dir/")
  = ("a.txt", "a.txt", "").
Proof. reflexivity. Qed.

(** ** Inbound dispatch *)

(** Case analysis along the [elif] chain of [handle_message]: one goal per
    branch and per shape of the field list. *)
Ltac dispatch_cases :=
  repeat match goal with
  | |- context [if ?b then _ else _] => destruct b
  | |- context [match ?l with [] => _ | _ :: _ => _ end] => destruct l
  end.

Section Inbound.

Variable sha256_hex : list byte -> string.
Variable b64decode : string -> option (list byte).

(** The tracker is written by the ACK and NACK branches only, one entry at a
    time: this is what [record_all] replays on the sender's side. *)
Lemma handle_message_tracker now message addr st c st' evs :
  handle_message sha256_hex b64decode now message addr st = (c, st', evs) ->
  ack_received st' = ack_received st
  \/ exists ack_id outcome,
       ack_received st' = record_all [(ack_id, outcome)] (ack_received st).
Proof.
  unfold handle_message. destruct addr as [ip port].
  destruct (Py.split message 3) as [|message_type fields];
    [intros [= <- <- <-]; by left|].
  dispatch_cases; try (intros [= <- <- <-]; by left).
  all: try (unfold on_ack, on_nack; intros [= <- <- <-]; right; eauto).
  - unfold on_heartbeat. case_match; intros [= <- <- <-]; by left.
  - unfold on_talk. case_decide; intros [= <- <- <-]; by left.
  - unfold on_file. repeat case_match; intros [= <- <- <-]; by left.
  - unfold on_chunk. repeat case_match; intros [= <- <- <-]; by left.
  - unfold on_end, end_body.
    repeat case_match; simplify_eq; intros [= <- <- <-]; by left.
Qed.

(** [pending_files] and [file_chunks] are filled and emptied together. *)
Lemma handle_message_tables_agree now message addr st c st' evs :
  tables_agree st ->
  handle_message sha256_hex b64decode now message addr st = (c, st', evs) ->
  tables_agree st'.
Proof.
  unfold tables_agree. intros Hagree.
  unfold handle_message. destruct addr as [ip port].
  destruct (Py.split message 3) as [|message_type fields]; [by intros [= <- <- <-]|].
  dispatch_cases; try (by intros [= <- <- <-]).
  - unfold on_heartbeat. case_match; by intros [= <- <- <-].
  - unfold on_talk. case_decide; by intros [= <- <- <-].
  - unfold on_file. repeat case_match; intros [= <- <- <-]; try done.
    cbn. rewrite !dom_insert_L. by rewrite Hagree.
  - unfold on_chunk. repeat case_match; intros [= <- <- <-]; try done;
      cbn; rewrite !dom_insert_L; by rewrite Hagree.
  - unfold on_end, end_body.
    repeat case_match; simplify_eq; intros [= <- <- <-]; try done;
      cbn; rewrite !dom_delete_L; by rewrite Hagree.
Qed.

(** So the look-up of [file_chunks] in the CHUNK branch finds the file id of
    a pending transfer: the branch does not raise. *)
Lemma handle_message_no_KeyError now message addr st st' evs :
  tables_agree st ->
  handle_message sha256_hex b64decode now message addr st <> (Raised KeyError, st', evs).
Proof.
  unfold tables_agree. intros Hagree.
  unfold handle_message. destruct addr as [ip port].
  destruct (Py.split message 3) as [|message_type fields]; [done|].
  dispatch_cases; try done.
  - unfold on_heartbeat. by case_match.
  - unfold on_talk. by case_decide.
  - unfold on_file. by repeat case_match.
  - unfold on_chunk.
    destruct (Py.int _); [|done].
    destruct (pending_files st !! s) as [[[[? ?] ?] ?]|] eqn:Hpending; [|done].
    destruct (file_chunks st !! s) eqn:Hchunks; [by repeat case_match|].
    apply (elem_of_dom_2 (pending_files st)) in Hpending.
    apply not_elem_of_dom in Hchunks. by rewrite Hagree in Hpending.
  - unfold on_end. by repeat case_match.
Qed.

(** Which branch a split message takes. *)
Lemma dispatch_talk now message ip port st message_id content rest :
  Py.split message 3 = "TALK" :: message_id :: content :: rest ->
  handle_message sha256_hex b64decode now message (ip, port) st
  = on_talk ip message_id content st.
Proof. intros Hsplit. unfold handle_message. by rewrite Hsplit. Qed.

Lemma dispatch_chunk now message ip port st file_id seq_field data_b64 rest :
  Py.split message 3 = "CHUNK" :: file_id :: seq_field :: data_b64 :: rest ->
  handle_message sha256_hex b64decode now message (ip, port) st
  = on_chunk b64decode ip file_id seq_field data_b64 st.
Proof. intros Hsplit. unfold handle_message. by rewrite Hsplit. Qed.

Lemma dispatch_end now message ip port st file_id received_hash rest :
  Py.split message 3 = "END" :: file_id :: received_hash :: rest ->
  handle_message sha256_hex b64decode now message (ip, port) st
  = on_end sha256_hex ip file_id received_hash st.
Proof. intros Hsplit. unfold handle_message. by rewrite Hsplit. Qed.

(** C7: a CHUNK whose file id has no pending transfer is dropped: the state
    is unchanged (no chunk stored) and nothing is sent, neither ACK nor NACK. *)
Theorem chunk_for_unknown_file_is_dropped now message addr st file_id rest :
  Py.split message 3 = "CHUNK" :: file_id :: rest ->
  pending_files st !! file_id = None ->
  handle_message sha256_hex b64decode now message addr st = (Returned, st, []).
Proof.
  intros Hsplit Hpending. destruct addr as [ip port].
  destruct rest as [|seq_field [|data_b64 rest]].
  - unfold handle_message. by rewrite Hsplit.
  - unfold handle_message. by rewrite Hsplit.
  - rewrite (dispatch_chunk _ _ _ _ _ _ _ _ _ Hsplit). unfold on_chunk.
    destruct (Py.int seq_field); [|reflexivity]. by rewrite Hpending.
Qed.

(** C6: a TALK whose id is in the duplicate filter changes nothing and shows
    nothing, but is acknowledged again; two TALKs with one id in a row give
    one display of the content and two ACKs. *)
Theorem duplicate_talk_is_acked_not_shown now now' message ip port st
    message_id content rest :
  Py.split message 3 = "TALK" :: message_id :: content :: rest ->
  (message_id ∈ received_ids st ->
   handle_message sha256_hex b64decode now message (ip, port) st
   = (Returned, st, [Sendto ip UDP_PORT ("ACK " +:+ message_id)]))
  /\ (message_id ∉ received_ids st ->
      exists st1,
        handle_message sha256_hex b64decode now message (ip, port) st
        = (Returned, st1,
           [NewMessage (sender_of ip (known_devices st)) content;
            Sendto ip UDP_PORT ("ACK " +:+ message_id)])
        /\ handle_message sha256_hex b64decode now' message (ip, port) st1
           = (Returned, st1, [Sendto ip UDP_PORT ("ACK " +:+ message_id)])).
Proof.
  intros Hsplit. rewrite !(dispatch_talk _ _ _ _ _ _ _ _ Hsplit). split.
  - intros Hseen. unfold on_talk. by rewrite decide_True.
  - intros Hnew. eexists. split.
    + unfold on_talk. rewrite decide_False by done. reflexivity.
    + rewrite (dispatch_talk _ _ _ _ _ _ _ _ Hsplit). unfold on_talk.
      rewrite decide_True; [reflexivity|]. simpl. set_solver.
Qed.

(** *** Reassembly *)

Lemma write_keeps_access path data d :
  unwritable (write path data d) = unwritable d
  /\ unreadable (write path data d) = unreadable d.
Proof. done. Qed.

(** Writing a list of chunks appends their concatenation. *)
Lemma foldl_write_files path (chunks : gmap Z (list byte)) (ks : list Z) d :
  files (foldl (fun d seq => write path (chunks !!! seq) d) d ks)
  = <[path := app (files d !!! path)
                  (List.concat ((fun seq => chunks !!! seq) <$> ks))]> (files d)
  \/ (ks = []
      /\ files (foldl (fun d seq => write path (chunks !!! seq) d) d ks) = files d).
Proof.
  revert d. induction ks as [|k ks IH]; intros d; [by right|left].
  simpl. destruct (IH (write path (chunks !!! k) d)) as [->|[-> ->]]; simpl.
  - rewrite lookup_total_insert_eq, insert_insert_eq. by rewrite <- app_assoc.
  - by rewrite app_nil_r.
Qed.

Lemma foldl_write_access path (chunks : gmap Z (list byte)) (ks : list Z) d :
  unwritable (foldl (fun d seq => write path (chunks !!! seq) d) d ks) = unwritable d
  /\ unreadable (foldl (fun d seq => write path (chunks !!! seq) d) d ks) = unreadable d.
Proof.
  revert d. induction ks as [|k ks IH]; intros d; [done|]. simpl.
  by rewrite !(proj1 (IH _)), !(proj2 (IH _)).
Qed.

(** After [open_wb], the reassembly loop leaves exactly [reassemble chunks]
    in the file. *)
Lemma write_chunks_after_open path chunks d :
  write_chunks path chunks (with_files (<[path := []]> (files d)) d)
  = with_files (<[path := reassemble chunks]> (files d)) d.
Proof.
  unfold write_chunks, reassemble.
  set (d0 := with_files _ d).
  pose proof (foldl_write_files path chunks (sorted_keys chunks) d0) as Hfiles.
  pose proof (foldl_write_access path chunks (sorted_keys chunks) d0) as [Hw Hr].
  destruct (foldl _ d0 _) as [f w r]. simpl in *. subst w r. unfold with_files. f_equal.
  destruct Hfiles as [->|[-> ->]]; subst d0; simpl.
  - by rewrite lookup_total_insert_eq, insert_insert_eq.
  - done.
Qed.

(** *** END *)

(** When the output file can be written and read back, the [try] of END does
    not raise, and the comparison of the two hashes alone decides between its
    two ends. *)
Lemma end_body_runs ip file_id received_hash filename file_size sender st chunks :
  file_chunks st !! file_id = Some chunks ->
  "/root/" +:+ filename ∉ unwritable (disk st) ->
  "/root/" +:+ filename ∉ unreadable (disk st) ->
  end_body sha256_hex ip file_id received_hash filename file_size sender st
  = if String.eqb (sha256_hex (reassemble chunks)) received_hash
    then (inr tt,
          closed file_id ("/root/" +:+ filename) (Some (reassemble chunks)) st,
          [FileReceived sender filename file_size ("/root/" +:+ filename);
           Sendto ip UDP_PORT ("ACK " +:+ file_id)])
    else (inr tt,
          closed file_id ("/root/" +:+ filename) None st,
          [Sendto ip UDP_PORT ("NACK " +:+ file_id +:+ " hash_invalido")]).
Proof.
  intros Hchunks Hw Hr. unfold end_body, open_wb.
  rewrite decide_False by done. rewrite Hchunks.
  cbn [disk set_disk]. rewrite write_chunks_after_open.
  unfold calculate_file_hash, read_rb. cbn [unreadable with_files files].
  rewrite decide_False by done. rewrite lookup_insert_eq. cbn [fmap option_fmap option_map].
  destruct (String.eqb _ received_hash); cbn [negb]; [reflexivity|].
  unfold remove. cbn [files with_files]. rewrite lookup_insert_eq.
  unfold closed. cbn. by rewrite delete_insert_eq.
Qed.

(** Whatever makes the [try] of END raise, it raises before any reply and
    before the transfer state is touched. *)
Lemma end_body_raises ip file_id received_hash filename file_size sender st e st' evs :
  end_body sha256_hex ip file_id received_hash filename file_size sender st
  = (inl e, st', evs) ->
  evs = [] /\ pending_files st' = pending_files st
  /\ file_chunks st' = file_chunks st.
Proof.
  unfold end_body. repeat case_match; intros ?; simplify_eq; done.
Qed.

(** C3: at END, when the hash of the reassembled bytes differs from the
    declared one, the output file is removed, the pending entry and the
    stored chunks of the file id are deleted, and NACK <id> hash_invalido
    goes to the source address. *)
Theorem hash_mismatch_discards_transfer now message ip port st file_id received_hash rest
    filename file_size chunks_received sender chunks :
  Py.split message 3 = "END" :: file_id :: received_hash :: rest ->
  pending_files st !! file_id = Some (filename, file_size, chunks_received, sender) ->
  file_chunks st !! file_id = Some chunks ->
  "/root/" +:+ filename ∉ unwritable (disk st) ->
  "/root/" +:+ filename ∉ unreadable (disk st) ->
  sha256_hex (reassemble chunks) <> received_hash ->
  exists st',
    handle_message sha256_hex b64decode now message (ip, port) st
    = (Returned, st', [Sendto ip UDP_PORT ("NACK " +:+ file_id +:+ " hash_invalido")])
    /\ files (disk st') !! ("/root/" +:+ filename) = None
    /\ pending_files st' = delete file_id (pending_files st)
    /\ file_chunks st' = delete file_id (file_chunks st)
    /\ pending_files st' !! file_id = None
    /\ file_chunks st' !! file_id = None.
Proof.
  intros Hsplit Hpending Hchunks Hw Hr Hhash.
  rewrite (dispatch_end _ _ _ _ _ _ _ _ Hsplit). unfold on_end. rewrite Hpending.
  rewrite (end_body_runs _ _ _ _ _ _ _ _ Hchunks Hw Hr).
  apply String.eqb_neq in Hhash. rewrite Hhash.
  eexists. split; [reflexivity|]. cbn.
  by rewrite !lookup_delete_eq.
Qed.

(** C9: END compares no chunk count with the declared size.  Whatever the
    declared size and the number of stored chunks, the transfer is accepted
    when the hash of what was stored equals the declared hash, and rejected
    (hash_invalido) exactly when it differs. *)
Theorem end_accepts_on_hash_alone now message ip port st file_id received_hash rest
    filename file_size chunks_received sender chunks :
  Py.split message 3 = "END" :: file_id :: received_hash :: rest ->
  pending_files st !! file_id = Some (filename, file_size, chunks_received, sender) ->
  file_chunks st !! file_id = Some chunks ->
  "/root/" +:+ filename ∉ unwritable (disk st) ->
  "/root/" +:+ filename ∉ unreadable (disk st) ->
  (sha256_hex (reassemble chunks) = received_hash ->
   exists st',
     handle_message sha256_hex b64decode now message (ip, port) st
     = (Returned, st',
        [FileReceived sender filename file_size ("/root/" +:+ filename);
         Sendto ip UDP_PORT ("ACK " +:+ file_id)])
     /\ files (disk st') !! ("/root/" +:+ filename) = Some (reassemble chunks)
     /\ pending_files st' !! file_id = None)
  /\ (sha256_hex (reassemble chunks) <> received_hash ->
      exists st',
        handle_message sha256_hex b64decode now message (ip, port) st
        = (Returned, st',
           [Sendto ip UDP_PORT ("NACK " +:+ file_id +:+ " hash_invalido")])
        /\ pending_files st' !! file_id = None).
Proof.
  intros Hsplit Hpending Hchunks Hw Hr.
  rewrite (dispatch_end _ _ _ _ _ _ _ _ Hsplit). unfold on_end. rewrite Hpending.
  rewrite (end_body_runs _ _ _ _ _ _ _ _ Hchunks Hw Hr).
  split; intros Hhash.
  - apply String.eqb_eq in Hhash. rewrite Hhash. eexists. split; [reflexivity|].
    cbn. by rewrite lookup_insert_eq, lookup_delete_eq.
  - apply String.eqb_neq in Hhash. rewrite Hhash. eexists. split; [reflexivity|].
    cbn. by rewrite lookup_delete_eq.
Qed.

(** C10: when the [try] of END raises (the output file cannot be opened for
    writing, or cannot be read back for hashing), the receiver answers
    NACK <id> erro_processamento and keeps the pending entry and the stored
    chunks: the file id is still an active transfer. *)
Theorem end_error_keeps_transfer now message ip port st file_id received_hash rest
    filename file_size chunks_received sender e st' evs :
  Py.split message 3 = "END" :: file_id :: received_hash :: rest ->
  pending_files st !! file_id = Some (filename, file_size, chunks_received, sender) ->
  end_body sha256_hex ip file_id received_hash filename file_size sender st
  = (inl e, st', evs) ->
  handle_message sha256_hex b64decode now message (ip, port) st
  = (Returned, st',
     [Sendto ip UDP_PORT ("NACK " +:+ file_id +:+ " erro_processamento")])
  /\ pending_files st' = pending_files st
  /\ file_chunks st' = file_chunks st
  /\ pending_files st' !! file_id = Some (filename, file_size, chunks_received, sender).
Proof.
  intros Hsplit Hpending Hraise.
  rewrite (dispatch_end _ _ _ _ _ _ _ _ Hsplit). unfold on_end. rewrite Hpending, Hraise.
  destruct (end_body_raises _ _ _ _ _ _ _ _ _ _ Hraise) as (-> & Hp & Hc).
  by rewrite Hp.
Qed.

(** The three ways in which the [try] of END raises. *)
Lemma end_body_raise_causes ip file_id received_hash filename file_size sender st :
  "/root/" +:+ filename ∈ unwritable (disk st)
  \/ file_chunks st !! file_id = None
  \/ "/root/" +:+ filename ∈ unreadable (disk st) ->
  exists e st' evs,
    end_body sha256_hex ip file_id received_hash filename file_size sender st
    = (inl e, st', evs).
Proof.
  intros Hcause. unfold end_body, open_wb.
  destruct (decide ("/root/" +:+ filename ∈ unwritable (disk st))); [eauto|].
  destruct (file_chunks st !! file_id) as [chunks|] eqn:Hchunks; [|eauto].
  destruct Hcause as [?|[?|Hr]]; [done..|].
  unfold calculate_file_hash, read_rb. cbn [disk set_disk].
  rewrite write_chunks_after_open. cbn [unreadable with_files].
  rewrite decide_True by done. cbn. eauto.
Qed.

(** *** Chunks in any order *)

Lemma strictly_sorted_NoDup (items : list (Z * list byte)) :
  StronglySorted (fun a b => a.1 < b.1) items -> NoDup items.*1.
Proof.
  induction 1 as [|a items _ IH Hlt]; csimpl; constructor; [|done].
  intros ((seq & data) & Heq & Hin)%list_elem_of_fmap.
  rewrite Forall_forall in Hlt. apply Hlt in Hin. simpl in *. lia.
Qed.

(** The sorted keys of the map of an ascending list are its sequence
    numbers, in the order of the list. *)
Lemma sorted_keys_ascending (items : list (Z * list byte)) :
  StronglySorted (fun a b => a.1 < b.1) items ->
  sorted_keys (list_to_map items) = items.*1.
Proof.
  intros Hsorted. unfold sorted_keys.
  apply (Sorted_unique Z.le).
  - apply Sorted_merge_sort. apply _.
  - apply StronglySorted_Sorted.
    apply (StronglySorted_fmap _ (fun a b : Z * list byte => a.1 < b.1)); [|done].
    intros; lia.
  - rewrite merge_sort_Permutation.
    by rewrite (map_to_list_to_map items (strictly_sorted_NoDup _ Hsorted)).
Qed.

Lemma reassemble_ascending (items : list (Z * list byte)) :
  StronglySorted (fun a b => a.1 < b.1) items ->
  reassemble (list_to_map items) = List.concat items.*2.
Proof.
  intros Hsorted. unfold reassemble. rewrite (sorted_keys_ascending _ Hsorted).
  f_equal. pose proof (strictly_sorted_NoDup _ Hsorted) as Hnodup.
  rewrite <- list_fmap_compose. apply Forall_fmap_ext_1, Forall_forall.
  intros [seq data] Hin. simpl.
  by apply lookup_total_correct, elem_of_list_to_map_1.
Qed.

(** A new chunk of a pending transfer is stored under its sequence number
    and counted. *)
Lemma on_chunk_stores ip file_id seq_field data_b64 st seq data
    filename file_size chunks_received sender chunks :
  Py.int seq_field = Some seq ->
  b64decode data_b64 = Some data ->
  pending_files st !! file_id = Some (filename, file_size, chunks_received, sender) ->
  file_chunks st !! file_id = Some chunks ->
  chunks !! seq = None ->
  exists evs,
    on_chunk b64decode ip file_id seq_field data_b64 st
    = (Returned,
       set_pending_files
         (<[file_id := (filename, file_size, chunks_received + 1, sender)]>
            (pending_files st))
         (set_file_chunks (<[file_id := <[seq := data]> chunks]> (file_chunks st)) st),
       evs).
Proof.
  intros Hseq Hdata Hpending Hchunks Hnew. unfold on_chunk.
  rewrite Hseq, Hpending, Hchunks, Hnew, Hdata.
  destruct (progress_raises _ _ _); eauto.
Qed.

(** The listener, fed the chunks of one transfer in the order [arrival],
    ends with the map of [arrival] added to the chunks it had. *)
Lemma listen_chunks file_id filename file_size sender inbox arrival :
  Forall2 (chunk_datagram b64decode file_id) inbox arrival ->
  forall st chunks_received chunks,
    pending_files st !! file_id = Some (filename, file_size, chunks_received, sender) ->
    file_chunks st !! file_id = Some chunks ->
    NoDup arrival.*1 ->
    (forall item, item ∈ arrival -> chunks !! item.1 = None) ->
    exists st1 evs1,
      listen_for_messages sha256_hex b64decode inbox st = (st1, evs1)
      /\ pending_files st1 !! file_id
         = Some (filename, file_size,
                 chunks_received + Z.of_nat (List.length arrival), sender)
      /\ file_chunks st1 !! file_id = Some (list_to_map arrival ∪ chunks)
      /\ disk st1 = disk st.
Proof.
  induction 1 as [|[[now data] [ip port]] [seq payload] inbox arrival Hdg _ IH];
    intros st n chunks Hpending Hchunks Hnodup Hfresh.
  - exists st, []. simpl. rewrite Z.add_0_r, (left_id_L ∅ (∪)). done.
  - destruct Hdg as (seq_field & data_b64 & rest & Hsplit & Hseq & Hdata).
    simpl in Hsplit, Hseq, Hdata.
    assert (chunks !! seq = None) as Hnew by (apply (Hfresh (seq, payload)); left).
    destruct (on_chunk_stores ip _ _ _ _ _ _ _ _ _ _ _
                Hseq Hdata Hpending Hchunks Hnew) as [evs Hstore].
    rewrite fmap_cons in Hnodup. apply NoDup_cons in Hnodup as [Hnotin Hnodup].
    match type of Hstore with _ = (_, ?st', _) =>
      destruct (IH st' (n + 1) (<[seq := payload]> chunks))
        as (st1 & evs1 & Hrun & Hp & Hc & Hd)
    end.
    { cbn. apply lookup_insert_eq. }
    { cbn. apply lookup_insert_eq. }
    { done. }
    { intros [seq' payload'] Hin. simpl. rewrite lookup_insert_ne.
      - apply (Hfresh (seq', payload')). by right.
      - intros ->. apply Hnotin. apply list_elem_of_fmap. by exists (seq', payload'). }
    exists st1, (app evs evs1). cbn [listen_for_messages].
    rewrite (dispatch_chunk _ _ _ _ _ _ _ _ _ Hsplit), Hstore, Hrun.
    split; [done|]. split; [|split].
    + rewrite Hp. do 3 f_equal. cbn [List.length]. lia.
    + rewrite Hc. f_equal. cbn [list_to_map foldr]. simpl.
      rewrite <- insert_union_l. symmetry. apply insert_union_r.
      by apply not_elem_of_list_to_map_1.
    + by rewrite Hd.
Qed.

Lemma listen_for_messages_app inbox1 inbox2 st :
  listen_for_messages sha256_hex b64decode (app inbox1 inbox2) st
  = let '(st1, evs1) := listen_for_messages sha256_hex b64decode inbox1 st in
    let '(st2, evs2) := listen_for_messages sha256_hex b64decode inbox2 st1 in
    (st2, app evs1 evs2).
Proof.
  revert st. induction inbox1 as [|[[now data] addr] inbox1 IH]; intros st; simpl.
  - by destruct (listen_for_messages _ _ inbox2 st).
  - destruct (handle_message _ _ _ _ _ st) as [[c st1] evs1]. rewrite IH.
    destruct (listen_for_messages _ _ inbox1 st1) as [st2 evs2].
    destruct (listen_for_messages _ _ inbox2 st2) as [st3 evs3].
    by rewrite app_assoc.
Qed.

(** C4: whatever the order in which the chunks of a transfer arrive, the
    reassembly loop of END writes them in ascending order of sequence number:
    the file holds the concatenation of the payloads of the ascending list,
    and this is what an accepted transfer leaves on disk. *)
Theorem reassembly_in_ascending_order file_id filename file_size chunks_received sender
    st items arrival inbox dg received_hash :
  pending_files st !! file_id = Some (filename, file_size, chunks_received, sender) ->
  file_chunks st !! file_id = Some ∅ ->
  "/root/" +:+ filename ∉ unwritable (disk st) ->
  "/root/" +:+ filename ∉ unreadable (disk st) ->
  StronglySorted (fun a b => a.1 < b.1) items ->
  arrival ≡ₚ items ->
  Forall2 (chunk_datagram b64decode file_id) inbox arrival ->
  end_datagram file_id received_hash dg ->
  exists st1 evs1 chunks,
    listen_for_messages sha256_hex b64decode inbox st = (st1, evs1)
    /\ file_chunks st1 !! file_id = Some chunks
    /\ (forall d0, open_wb ("/root/" +:+ filename) (disk st1) = Some d0 ->
        files (write_chunks ("/root/" +:+ filename) chunks d0)
          !! ("/root/" +:+ filename) = Some (List.concat items.*2))
    /\ (sha256_hex (List.concat items.*2) = received_hash ->
        exists st2,
          listen_for_messages sha256_hex b64decode (app inbox [dg]) st
          = (st2, app evs1
                    [FileReceived sender filename file_size ("/root/" +:+ filename);
                     Sendto dg.2.1 UDP_PORT ("ACK " +:+ file_id)])
          /\ files (disk st2) !! ("/root/" +:+ filename) = Some (List.concat items.*2)).
Proof.
  intros Hpending Hfresh Hw Hr Hsorted Hperm Hinbox [rest Hend].
  pose proof (strictly_sorted_NoDup _ Hsorted) as Hnodup.
  assert (NoDup arrival.*1) as Hnodup' by by rewrite Hperm.
  destruct (listen_chunks file_id filename file_size sender inbox arrival Hinbox
              st chunks_received ∅ Hpending Hfresh Hnodup')
    as (st1 & evs1 & Hrun & Hp & Hc & Hd); [done|].
  rewrite (right_id_L ∅ (∪)) in Hc.
  rewrite (list_to_map_proper arrival items Hnodup' Hperm) in Hc.
  exists st1, evs1, (list_to_map items). split; [done|]. split; [done|]. split.
  - intros d0. unfold open_wb. case_decide; [done|]. intros [= <-].
    rewrite write_chunks_after_open. cbn. rewrite lookup_insert_eq.
    by rewrite reassemble_ascending.
  - intros Hhash. destruct dg as [[now data] [ip port]]. simpl in Hend.
    rewrite listen_for_messages_app, Hrun. cbn [listen_for_messages].
    rewrite (dispatch_end _ _ _ _ _ _ _ _ Hend). unfold on_end. rewrite Hp.
    rewrite (end_body_runs _ _ _ _ _ _ _ _ Hc) by (by rewrite Hd).
    rewrite reassemble_ascending by done.
    apply String.eqb_eq in Hhash. rewrite Hhash.
    eexists. split; [reflexivity|]. cbn. by rewrite lookup_insert_eq.
Qed.

End Inbound.

(** ** The delivery tracker *)

Lemma record_all_other (ack_id : string) ws (acks : gmap string bool) :
  ack_id ∉ ws.*1 -> record_all ws acks !! ack_id = acks !! ack_id.
Proof.
  revert acks. induction ws as [|[id outcome] ws IH]; intros acks Hnotin; [done|].
  rewrite fmap_cons, not_elem_of_cons in Hnotin. destruct Hnotin as [Hne Hnotin].
  unfold record_all in *. simpl. rewrite IH by done. by apply lookup_insert_ne.
Qed.

Lemma record_all_keeps (ack_id : string) outcome ws (acks : gmap string bool) :
  acks !! ack_id = Some outcome ->
  (ack_id, negb outcome) ∉ ws ->
  record_all ws acks !! ack_id = Some outcome.
Proof.
  revert acks. induction ws as [|[id o] ws IH]; intros acks Hacks Hnotin; [done|].
  rewrite not_elem_of_cons in Hnotin. destruct Hnotin as [Hne Hnotin].
  unfold record_all in *. simpl. apply IH; [|done].
  destruct (decide (id = ack_id)) as [->|]; [|by rewrite lookup_insert_ne].
  rewrite lookup_insert_eq. f_equal.
  destruct o, outcome; simpl in *; congruence.
Qed.

Lemma record_all_last (ack_id : string) outcome ws (acks : gmap string bool) :
  (ack_id, outcome) ∈ ws ->
  (ack_id, negb outcome) ∉ ws ->
  record_all ws acks !! ack_id = Some outcome.
Proof.
  revert acks. induction ws as [|[id o] ws IH]; intros acks Hin Hnotin.
  - by apply elem_of_nil in Hin.
  - rewrite not_elem_of_cons in Hnotin. destruct Hnotin as [Hne Hnotin].
    apply elem_of_cons in Hin as [[= <- <-]|Hin].
    + change (record_all ((ack_id, outcome) :: ws) acks)
        with (record_all ws (<[ack_id := outcome]> acks)).
      apply record_all_keeps; [apply lookup_insert_eq|done].
    + change (record_all ((id, o) :: ws) acks) with (record_all ws (<[id := o]> acks)).
      by apply IH.
Qed.

Lemma poll_silent (ack_id : string) windows (acks : gmap string bool) :
  Forall (fun ws : list (string * bool) => ack_id ∉ ws.*1) windows ->
  acks !! ack_id = None ->
  exists acks', poll ack_id windows acks = (None, acks') /\ acks' !! ack_id = None.
Proof.
  intros Hquiet. revert acks.
  induction Hquiet as [|ws windows Hws _ IH]; intros acks Hacks; simpl; [eauto|].
  pose proof (record_all_other ack_id ws acks Hws) as Hsame.
  rewrite Hacks in Hsame. rewrite Hsame. by apply IH.
Qed.

Lemma poll_answers (ack_id : string) outcome quiet ws later (acks : gmap string bool) :
  Forall (fun ws : list (string * bool) => ack_id ∉ ws.*1) quiet ->
  (ack_id, outcome) ∈ ws ->
  (ack_id, negb outcome) ∉ ws ->
  acks !! ack_id = None ->
  exists acks', poll ack_id (app quiet (ws :: later)) acks = (Some outcome, acks').
Proof.
  intros Hquiet Hin Hnotin. revert acks.
  induction Hquiet as [|ws0 quiet Hws0 _ IH]; intros acks Hacks; simpl.
  - rewrite (record_all_last ack_id outcome ws acks Hin Hnotin). eauto.
  - pose proof (record_all_other ack_id ws0 acks Hws0) as Hsame.
    rewrite Hacks in Hsame. rewrite Hsame. by apply IH.
Qed.

(** What [poll] returns is what it leaves in the tracker. *)
Lemma poll_outcome_stays (ack_id : string) windows (acks : gmap string bool) outcome acks' :
  poll ack_id windows acks = (Some outcome, acks') -> acks' !! ack_id = Some outcome.
Proof.
  revert acks. induction windows as [|ws windows IH]; intros acks; simpl; [done|].
  destruct (record_all ws acks !! ack_id) as [o|] eqn:Hlookup.
  - by intros [= <- <-].
  - apply IH.
Qed.

Lemma wait_for_ack_silent ack_id env st :
  silent ack_id env ->
  exists st', wait_for_ack ack_id env st = (None, st')
              /\ ack_received st' !! ack_id = None.
Proof.
  intros Hsilent. unfold wait_for_ack.
  destruct (poll_silent ack_id (polls env)
              (delete ack_id (record_all (stale env) (ack_received st))) Hsilent)
    as (acks' & -> & Hnone); [apply lookup_delete_eq|].
  eauto.
Qed.

Lemma wait_for_ack_answers ack_id outcome env st :
  answers ack_id outcome env ->
  exists st', wait_for_ack ack_id env st = (Some outcome, st').
Proof.
  intros (quiet & ws & later & Hpolls & Hquiet & Hin & Hnotin). unfold wait_for_ack.
  rewrite Hpolls.
  destruct (poll_answers ack_id outcome quiet ws later
              (delete ack_id (record_all (stale env) (ack_received st)))
              Hquiet Hin Hnotin) as (acks' & ->); [apply lookup_delete_eq|].
  eauto.
Qed.

(** C2, as the code has it: when [wait_for_ack] returns Positive or Negative
    for an id, the record of that id is still in the tracker and holds the
    outcome returned: the waiter reads the record and does not remove it. *)
Theorem wait_for_ack_leaves_record ack_id env st outcome st' :
  wait_for_ack ack_id env st = (Some outcome, st') ->
  ack_received st' !! ack_id = Some outcome.
Proof.
  unfold wait_for_ack.
  destruct (poll _ _ _) as [result acks'] eqn:Hpoll. intros [= -> <-].
  cbn. by eapply poll_outcome_stays.
Qed.

Lemma wait_for_ack_leaves_record_witness :
  ack_received (wait_for_ack "m1" (waiting (answered "m1" false)) (started "pc1")).2
    !! "m1" = Some false.
Proof.
  apply (wait_for_ack_leaves_record "m1" (waiting (answered "m1" false)) (started "pc1")).
  reflexivity.
Defined.

(** The only removal is the clearing on entry: a record left under the id is
    gone after a wait during which nothing arrives for it. *)
Lemma wait_for_ack_clears_on_entry ack_id env st stored :
  ack_received st !! ack_id = Some stored ->
  silent ack_id env ->
  exists st', wait_for_ack ack_id env st = (None, st')
              /\ ack_received st' !! ack_id = None.
Proof. intros _. apply wait_for_ack_silent. Qed.

(** C2 as stated fails: after an ACK for "m1" is stored during the wait,
    [wait_for_ack] returns Positive and the record is still in the map. *)
Lemma wait_for_ack_removes_record_fails :
  ~ (forall ack_id env st outcome st',
       wait_for_ack ack_id env st = (Some outcome, st') ->
       ack_received st' !! ack_id = None).
Proof.
  intros Hall.
  specialize (Hall "m1" (waiting (answered "m1" true)) (started "pc1") true
                (set_ack_received {["m1" := true]} (started "pc1"))).
  discriminate Hall. reflexivity.
Qed.

(** ** Outbound operations *)

(** C8: talking or sending a file to a name that is not in the registry
    fails at once: the result is failure, nothing is sent, the state is
    untouched (no id is drawn, no record is created) and no transfer thread
    is started. *)
Theorem unknown_target_is_rejected target_device content file_path epoch rnd env st :
  dict_get target_device (known_devices st) = None ->
  talk_to_device target_device content epoch rnd env st = (false, st, [])
  /\ send_file_to_device target_device file_path st = (false, None).
Proof.
  intros Hunknown. unfold talk_to_device, send_file_to_device. rewrite Hunknown.
  split; [done|]. by destruct (files (disk st) !! file_path).
Qed.

(** "pc1" knows "pc2" and has the file: the two calls fail on the registry
    look-up of "pc9". *)
Lemma unknown_target_is_rejected_witness :
  talk_to_device "pc9" "hi" 17 4242 (fun _ => no_answer) pc1 = (false, pc1, [])
  /\ send_file_to_device "pc9" "/tmp/a.txt" pc1 = (false, None).
Proof.
  apply (unknown_target_is_rejected "pc9" "hi" "/tmp/a.txt" 17 4242
           (fun _ => no_answer) pc1).
  reflexivity.
Defined.

Lemma retries_S ip message n :
  n <> O ->
  retries ip message (S n) = Sendto ip UDP_PORT message :: Sleep 1 :: retries ip message n.
Proof. by destruct n. Qed.

(** [retries n] holds [n] sends and [n - 1] sleeps of one second. *)
Lemma retries_count ip message n :
  List.length (filter (fun e => is_send e = true) (retries ip message n)) = n
  /\ List.length (filter (fun e => e = Sleep 1) (retries ip message n)) = pred n.
Proof.
  induction n as [|n [IHsend IHsleep]]; [done|].
  destruct n as [|n]; [done|]. rewrite retries_S by done.
  rewrite !filter_cons. repeat case_decide; simplify_eq/=.
  by rewrite IHsend, IHsleep.
Qed.

(** One turn of a retry loop that does not end it. *)
Lemma retry_loop_goes_on kind ip message ack_id env attempt attempts st :
  fruitless kind ack_id (env attempt) ->
  exists st1,
    retry_loop kind ip message ack_id env (attempt :: attempts) st
    = if (attempt <? MAX_RETRIES)%nat then
        let '(exit, st2, evs2) :=
          retry_loop kind ip message ack_id env attempts st1 in
        (exit, st2, Sendto ip UDP_PORT message :: Sleep 1 :: evs2)
      else
        match kind with
        | TALK =>
            let '(exit, st2, evs2) :=
              retry_loop kind ip message ack_id env attempts st1 in
            (exit, st2, Sendto ip UDP_PORT message :: evs2)
        | _ => (Exhausted, st1, [Sendto ip UDP_PORT message])
        end.
Proof.
  intros Hfruitless. cbn [retry_loop send_message_to_ip].
  destruct (network_ok (env attempt)) eqn:Hsent.
  - destruct Hfruitless as [?|[Hsilent|[-> Hnack]]]; [congruence| |].
    + destruct (wait_for_ack_silent ack_id _ st Hsilent) as (st1 & -> & _).
      exists st1. by destruct kind.
    + destruct (wait_for_ack_answers ack_id false _ st Hnack) as (st1 & ->).
      by exists st1.
  - exists st. by destruct kind.
Qed.

(** One turn of a retry loop that ends it. *)
Lemma retry_loop_ends kind outcome ip message ack_id env attempt attempts st :
  network_ok (env attempt) = true ->
  answers ack_id outcome (waiting (env attempt)) ->
  (outcome = false -> kind <> CHUNK) ->
  exists st1,
    retry_loop kind ip message ack_id env (attempt :: attempts) st
    = (if outcome then Acked else Rejected, st1, [Sendto ip UDP_PORT message]).
Proof.
  intros Hsent Hanswer Hkind. cbn [retry_loop send_message_to_ip]. rewrite Hsent.
  destruct (wait_for_ack_answers ack_id outcome _ st Hanswer) as (st1 & ->).
  exists st1. destruct outcome; [done|]. destruct kind; try done. by destruct Hkind.
Qed.

(** A loop whose attempts are all fruitless uses them all. *)
Lemma retry_loop_exhausts kind ip message ack_id env len :
  forall a st,
    (a + len = S MAX_RETRIES)%nat ->
    (forall attempt, (a <= attempt <= MAX_RETRIES)%nat ->
                     fruitless kind ack_id (env attempt)) ->
    exists st',
      retry_loop kind ip message ack_id env (List.seq a len) st
      = (Exhausted, st', retries ip message len).
Proof.
  induction len as [|len IH]; intros a st Hlen Hall; [by exists st|].
  cbn [List.seq].
  destruct (retry_loop_goes_on kind ip message ack_id env a (List.seq (S a) len) st)
    as [st1 ->]; [apply Hall; lia|].
  destruct (a <? MAX_RETRIES)%nat eqn:Hlast.
  - apply Nat.ltb_lt in Hlast.
    destruct (IH (S a) st1) as [st' ->]; [lia|intros; apply Hall; lia|].
    exists st'. rewrite retries_S by lia. done.
  - apply Nat.ltb_ge in Hlast. assert (len = O) as -> by lia.
    exists st1. by destruct kind.
Qed.

(** A loop answered at its attempt [a + j], after fruitless attempts, stops
    there. *)
Lemma retry_loop_stops kind outcome ip message ack_id env j :
  forall a len st,
    (j < len)%nat ->
    (a + len = S MAX_RETRIES)%nat ->
    (forall attempt, (a <= attempt < a + j)%nat ->
                     fruitless kind ack_id (env attempt)) ->
    network_ok (env (a + j)%nat) = true ->
    answers ack_id outcome (waiting (env (a + j)%nat)) ->
    (outcome = false -> kind <> CHUNK) ->
    exists st',
      retry_loop kind ip message ack_id env (List.seq a len) st
      = (if outcome then Acked else Rejected, st', retries ip message (S j)).
Proof.
  induction j as [|j IH]; intros a len st Hj Hlen Hquiet Hsent Hanswer Hkind;
    (destruct len as [|len]; [lia|]); cbn [List.seq].
  - rewrite Nat.add_0_r in Hsent, Hanswer. by apply retry_loop_ends.
  - destruct (retry_loop_goes_on kind ip message ack_id env a (List.seq (S a) len) st)
      as [st1 ->]; [apply Hquiet; lia|].
    assert ((a <? MAX_RETRIES)%nat = true) as -> by (apply Nat.ltb_lt; lia).
    destruct (IH (S a) len st1) as [st' ->]; try done; try lia.
    + intros; apply Hquiet; lia.
    + by replace (S a + j)%nat with (a + S j)%nat by lia.
    + by replace (S a + j)%nat with (a + S j)%nat by lia.
    + exists st'. by rewrite (retries_S _ _ (S j)).
Qed.

Lemma silent_is_fruitless kind ack_id e :
  silent ack_id (waiting e) -> fruitless kind ack_id e.
Proof. intros ?. right. by left. Qed.

(** C5: an operation for whose acknowledgment id nothing is ever recorded
    makes exactly MAX_RETRIES sends, one second of sleep between two
    consecutive ones, and then fails: the loop of each of the four kinds runs
    out, and [talk_to_device], the FILE phase, the CHUNK phase and the END
    phase of [transfer_file] return failure. *)
Theorem unanswered_operation_uses_all_retries kind ip message ack_id env st :
  (forall attempt, (1 <= attempt <= MAX_RETRIES)%nat ->
                   silent ack_id (waiting (env attempt))) ->
  (exists st',
     retry_loop kind ip message ack_id env (List.seq 1 MAX_RETRIES) st
     = (Exhausted, st', retries ip message MAX_RETRIES))
  /\ (forall target_device content epoch rnd port seen,
        dict_get target_device (known_devices st) = Some (ip, port, seen) ->
        ack_id = generate_message_id (device_name st) epoch rnd ->
        message = "TALK " +:+ ack_id +:+ " " +:+ content ->
        exists st',
          talk_to_device target_device content epoch rnd env st
          = (false, st', retries ip message MAX_RETRIES))
  /\ (exists st',
        announce_file ip message ack_id env st
        = (false, st', retries ip message MAX_RETRIES))
  /\ (forall b64encode file_id chunk_env seq seqs f,
        take (Z.to_nat CHUNK_SIZE) f <> [] ->
        chunk_env seq = env ->
        ack_id = file_id +:+ "-" +:+ Py.str seq ->
        message = "CHUNK " +:+ file_id +:+ " " +:+ Py.str seq +:+ " "
                  +:+ b64encode (take (Z.to_nat CHUNK_SIZE) f) ->
        exists st',
          send_chunks b64encode ip file_id chunk_env (seq :: seqs) f st
          = (false, st', retries ip message MAX_RETRIES))
  /\ (exists st',
        send_end ip message ack_id env st
        = (false, st', retries ip message MAX_RETRIES))
  /\ (forall sha256_hex b64encode target_device file_path tenv content,
        files (disk st) !! file_path = Some content ->
        file_attempts tenv = env ->
        ack_id = generate_message_id (device_name st) (file_epoch tenv) (file_rnd tenv) ->
        message = "FILE " +:+ ack_id +:+ " " +:+ Py.basename file_path +:+ " "
                  +:+ Py.str (Z.of_nat (List.length content)) ->
        exists st',
          transfer_file sha256_hex b64encode target_device ip file_path tenv st
          = (false, st', retries ip message MAX_RETRIES))
  /\ List.length (filter (fun e => is_send e = true) (retries ip message MAX_RETRIES))
     = MAX_RETRIES
  /\ List.length (filter (fun e => e = Sleep 1) (retries ip message MAX_RETRIES))
     = pred MAX_RETRIES.
Proof.
  intros Hsilent.
  assert (forall kind st, exists st',
            retry_loop kind ip message ack_id env (List.seq 1 MAX_RETRIES) st
            = (Exhausted, st', retries ip message MAX_RETRIES)) as Hloop.
  { intros kind0 st0. apply retry_loop_exhausts; [done|].
    intros attempt Hrange. by apply silent_is_fruitless, Hsilent. }
  split; [apply Hloop|].
  split.
  { intros target_device content epoch rnd port seen Hknown -> ->.
    unfold talk_to_device. rewrite Hknown.
    destruct (Hloop TALK st) as [st' ->]. by exists st'. }
  split.
  { unfold announce_file. destruct (Hloop FILE st) as [st' ->]. by exists st'. }
  split.
  { intros b64encode file_id chunk_env seq seqs f Hdata Henv -> ->.
    cbn [send_chunks]. destruct (take (Z.to_nat CHUNK_SIZE) f) eqn:Htake; [done|].
    rewrite Henv. destruct (Hloop CHUNK st) as [st' ->]. by exists st'. }
  split.
  { unfold send_end. destruct (Hloop END st) as [st' ->]. by exists st'. }
  split.
  { intros sha256_hex b64encode target_device file_path tenv content Hfile Henv -> ->.
    unfold transfer_file, announce_file. rewrite Hfile, Henv.
    destruct (Hloop FILE st) as [st' ->]. by exists st'. }
  apply retries_count.
Qed.

(** C1, as the code has it.  Suppose that no outcome is stored under the
    acknowledgment id while the sender polls in the attempts before [k], that
    the send of attempt [k] goes out, and that the first poll of its wait to
    find an outcome under the id follows an interval between two polls in
    which a NACK for the id, and no ACK for it, was stored ([answers]).  Then
    a TALK, FILE or END operation ends there: it fails after exactly [k]
    sends.  A CHUNK operation is not ended by it: its loop sleeps and sends
    again, as after a time-out, until a wait reads an ACK in the same way or
    the attempts are used up. *)
Theorem nack_ends_talk_file_end_but_not_chunk ip message ack_id env st k :
  (1 <= k <= MAX_RETRIES)%nat ->
  (forall attempt, (1 <= attempt < k)%nat -> silent ack_id (waiting (env attempt))) ->
  network_ok (env k) = true ->
  answers ack_id false (waiting (env k)) ->
  (forall kind, kind <> CHUNK ->
     exists st',
       retry_loop kind ip message ack_id env (List.seq 1 MAX_RETRIES) st
       = (Rejected, st', retries ip message k))
  /\ (forall target_device content epoch rnd port seen,
        dict_get target_device (known_devices st) = Some (ip, port, seen) ->
        ack_id = generate_message_id (device_name st) epoch rnd ->
        message = "TALK " +:+ ack_id +:+ " " +:+ content ->
        exists st',
          talk_to_device target_device content epoch rnd env st
          = (false, st', retries ip message k))
  /\ (exists st', announce_file ip message ack_id env st
                  = (false, st', retries ip message k))
  /\ (exists st', send_end ip message ack_id env st
                  = (false, st', retries ip message k))
  /\ (forall k',
        (k < k' <= MAX_RETRIES)%nat ->
        (forall attempt, (k < attempt < k')%nat -> fruitless CHUNK ack_id (env attempt)) ->
        network_ok (env k') = true ->
        answers ack_id true (waiting (env k')) ->
        exists st',
          retry_loop CHUNK ip message ack_id env (List.seq 1 MAX_RETRIES) st
          = (Acked, st', retries ip message k'))
  /\ ((forall attempt, (k < attempt <= MAX_RETRIES)%nat ->
                       fruitless CHUNK ack_id (env attempt)) ->
      exists st',
        retry_loop CHUNK ip message ack_id env (List.seq 1 MAX_RETRIES) st
        = (Exhausted, st', retries ip message MAX_RETRIES)).
Proof.
  intros Hk Hbefore Hsent Hnack.
  assert (forall kind st, kind <> CHUNK -> exists st',
            retry_loop kind ip message ack_id env (List.seq 1 MAX_RETRIES) st
            = (Rejected, st', retries ip message k)) as Hloop.
  { intros kind st0 Hkind.
    pose proof (retry_loop_stops kind false ip message ack_id env (pred k)
                  1%nat MAX_RETRIES st0) as Hstop.
    replace (1 + pred k)%nat with k in Hstop by lia.
    replace (S (pred k)) with k in Hstop by lia.
    apply Hstop; [lia|done| |done..].
    intros attempt Hrange. apply silent_is_fruitless, Hbefore. lia. }
  assert (forall attempt, (1 <= attempt <= k)%nat ->
                          fruitless CHUNK ack_id (env attempt)) as Hchunk.
  { intros attempt Hrange. destruct (decide (attempt = k)) as [->|].
    - right. by right.
    - apply silent_is_fruitless, Hbefore. lia. }
  split; [intros kind; apply Hloop|].
  split.
  { intros target_device content epoch rnd port seen Hknown -> ->.
    unfold talk_to_device. rewrite Hknown.
    destruct (Hloop TALK st) as [st' ->]; [done|]. by exists st'. }
  split.
  { unfold announce_file. destruct (Hloop FILE st) as [st' ->]; [done|]. by exists st'. }
  split.
  { unfold send_end. destruct (Hloop END st) as [st' ->]; [done|]. by exists st'. }
  split.
  - intros k' Hk' Hbetween Hsent' Hack.
    pose proof (retry_loop_stops CHUNK true ip message ack_id env (pred k')
                  1%nat MAX_RETRIES st) as Hstop.
    replace (1 + pred k')%nat with k' in Hstop by lia.
    replace (S (pred k')) with k' in Hstop by lia.
    apply Hstop; [lia|done| |done..].
    intros attempt Hrange. destruct (decide (attempt <= k)%nat).
    + apply Hchunk. lia.
    + apply Hbetween. lia.
  - intros Hafter. apply retry_loop_exhausts; [done|].
    intros attempt Hrange. destruct (decide (attempt <= k)%nat).
    + apply Hchunk. lia.
    + apply Hafter. lia.
Qed.

(** ** Concrete runs *)

Lemma no_answer_silent ack_id : silent ack_id (waiting no_answer).
Proof. repeat constructor. apply not_elem_of_nil. Qed.

Lemma answered_answers ack_id outcome :
  answers ack_id outcome (waiting (answered ack_id outcome)).
Proof.
  exists [[]], [(ack_id, outcome)], []. split; [done|]. split; [|split].
  - repeat constructor. apply not_elem_of_nil.
  - apply list_elem_of_singleton. done.
  - intros [=]%list_elem_of_singleton. by destruct outcome.
Qed.

(** C1 as stated fails for CHUNK: the first attempt is answered by a NACK,
    and the loop sends again and ends acknowledged. *)
Lemma nack_stops_every_operation_fails :
  ~ (forall kind ip message ack_id env st k,
       (1 <= k <= MAX_RETRIES)%nat ->
       (forall attempt, (1 <= attempt < k)%nat -> silent ack_id (waiting (env attempt))) ->
       network_ok (env k) = true ->
       answers ack_id false (waiting (env k)) ->
       exists exit st' evs,
         retry_loop kind ip message ack_id env (List.seq 1 MAX_RETRIES) st
         = (exit, st', evs)
         /\ exit <> Acked
         /\ List.length (filter (fun e => is_send e = true) evs) = k).
Proof.
  intros Hall.
  destruct (Hall CHUNK "10.0.0.2" "CHUNK f1 0 abc" "f1-0" (nack_then_ack "f1-0")
              (started "pc1") 1%nat)
    as (exit & st' & evs & Hrun & Hfails & _).
  - unfold MAX_RETRIES. lia.
  - intros attempt Hrange. lia.
  - reflexivity.
  - apply (answered_answers "f1-0" false).
  - vm_compute in Hrun. by injection Hrun as <- _ _.
Qed.

(** The same in a whole transfer: the chunk is sent twice and the transfer
    succeeds. *)
Example rejected_chunk_is_sent_again :
  let '(ok, _, evs) :=
    transfer_file plain_digest plain_encode "pc2" "10.0.0.2" "/tmp/a.txt"
      one_chunk_rejected_once pc1 in
  (ok, evs)
  = (true,
     [Sendto "10.0.0.2" 5000 "FILE pc1-17-4242 a.txt 3";
      Sendto "10.0.0.2" 5000 "CHUNK pc1-17-4242 0 abc";
      Sleep 1;
      Sendto "10.0.0.2" 5000 "CHUNK pc1-17-4242 0 abc";
      Sendto "10.0.0.2" 5000 "END pc1-17-4242 abc"]).
Proof. vm_compute. reflexivity. Qed.

Lemma nack_ends_talk_file_end_but_not_chunk_witness :
  exists st',
    talk_to_device "pc2" "hi" 17 4242 (rejected_at_third "pc1-17-4242") pc1
    = (false, st', retries "10.0.0.2" "TALK pc1-17-4242 hi" 3).
Proof.
  refine (proj1 (proj2 (nack_ends_talk_file_end_but_not_chunk
            "10.0.0.2" "TALK pc1-17-4242 hi" "pc1-17-4242"
            (rejected_at_third "pc1-17-4242") pc1 3 _ _ _ _))
            "pc2" "hi" 17 4242 5000 0 _ _ _); try reflexivity.
  - unfold MAX_RETRIES. lia.
  - intros [|[|[|attempt]]] Hrange; try lia; apply no_answer_silent.
  - apply (answered_answers "pc1-17-4242" false).
Defined.

Lemma unanswered_operation_uses_all_retries_witness :
  exists st',
    talk_to_device "pc2" "hi" 17 4242 (fun _ => no_answer) pc1
    = (false, st', retries "10.0.0.2" "TALK pc1-17-4242 hi" MAX_RETRIES).
Proof.
  refine (proj1 (proj2 (unanswered_operation_uses_all_retries TALK
            "10.0.0.2" "TALK pc1-17-4242 hi" "pc1-17-4242"
            (fun _ => no_answer) pc1 _))
            "pc2" "hi" 17 4242 5000 0 _ _ _); try reflexivity.
  intros attempt _. apply no_answer_silent.
Defined.

Lemma hash_mismatch_discards_transfer_witness :
  exists st',
    handle_message plain_digest plain_decode 9 "END f1 abcdef" peer
      (receiving 6 {[0 := ["a"; "b"; "c"]%byte]})
    = (Returned, st', [Sendto "10.0.0.2" UDP_PORT "NACK f1 hash_invalido"])
    /\ files (disk st') !! "/root/a.txt" = None
    /\ pending_files st' !! "f1" = None
    /\ file_chunks st' !! "f1" = None.
Proof.
  destruct (hash_mismatch_discards_transfer plain_digest plain_decode
              9 "END f1 abcdef" "10.0.0.2" 5000
              (receiving 6 {[0 := ["a"; "b"; "c"]%byte]}) "f1" "abcdef" []
              "a.txt" 6 1 "pc2" {[0 := ["a"; "b"; "c"]%byte]})
    as (st' & Hrun & Hfile & _ & _ & Hpending & Hchunks);
    [reflexivity|reflexivity|reflexivity|apply not_elem_of_empty
    |apply not_elem_of_empty|by vm_compute|].
  by exists st'.
Defined.

Lemma chunk_for_unknown_file_is_dropped_witness :
  handle_message plain_digest plain_decode 5 "CHUNK X 0 abc" peer (started "pc1")
  = (Returned, started "pc1", []).
Proof.
  apply (chunk_for_unknown_file_is_dropped plain_digest plain_decode
           5 "CHUNK X 0 abc" peer (started "pc1") "X" ["0"; "abc"]);
    reflexivity.
Defined.

Lemma duplicate_talk_is_acked_not_shown_witness :
  exists st1,
    handle_message plain_digest plain_decode 5 "TALK m1 hello" peer pc1
    = (Returned, st1,
       [NewMessage "pc2" "hello"; Sendto "10.0.0.2" UDP_PORT "ACK m1"])
    /\ handle_message plain_digest plain_decode 7 "TALK m1 hello" peer st1
       = (Returned, st1, [Sendto "10.0.0.2" UDP_PORT "ACK m1"]).
Proof.
  refine (proj2 (duplicate_talk_is_acked_not_shown plain_digest plain_decode
            5 7 "TALK m1 hello" "10.0.0.2" 5000 pc1 "m1" "hello" [] _) _).
  - reflexivity.
  - apply not_elem_of_empty.
Defined.

(** Declared size 1000 bytes, that is four chunks, one chunk stored: END
    with the hash of that one chunk is accepted. *)
Lemma end_accepts_on_hash_alone_witness :
  exists st',
    handle_message plain_digest plain_decode 9 "END f1 abc" peer
      (receiving 1000 {[0 := ["a"; "b"; "c"]%byte]})
    = (Returned, st',
       [FileReceived "pc2" "a.txt" 1000 "/root/a.txt";
        Sendto "10.0.0.2" UDP_PORT "ACK f1"])
    /\ files (disk st') !! "/root/a.txt" = Some ["a"; "b"; "c"]%byte
    /\ pending_files st' !! "f1" = None.
Proof.
  refine (proj1 (end_accepts_on_hash_alone plain_digest plain_decode
            9 "END f1 abc" "10.0.0.2" 5000
            (receiving 1000 {[0 := ["a"; "b"; "c"]%byte]}) "f1" "abc" []
            "a.txt" 1000 1 "pc2" {[0 := ["a"; "b"; "c"]%byte]} _ _ _ _ _) _);
    try reflexivity; apply not_elem_of_empty.
Defined.

Lemma end_error_keeps_transfer_witness :
  handle_message plain_digest plain_decode 9 "END f1 abc" peer
    (receiving_read_only 3 {[0 := ["a"; "b"; "c"]%byte]})
  = (Returned, receiving_read_only 3 {[0 := ["a"; "b"; "c"]%byte]},
     [Sendto "10.0.0.2" UDP_PORT "NACK f1 erro_processamento"])
  /\ pending_files (receiving_read_only 3 {[0 := ["a"; "b"; "c"]%byte]}) !! "f1"
     = Some ("a.txt", 3, 1, "pc2").
Proof.
  destruct (end_error_keeps_transfer plain_digest plain_decode
              9 "END f1 abc" "10.0.0.2" 5000
              (receiving_read_only 3 {[0 := ["a"; "b"; "c"]%byte]}) "f1" "abc" []
              "a.txt" 3 1 "pc2" OSError
              (receiving_read_only 3 {[0 := ["a"; "b"; "c"]%byte]}) [])
    as (Hrun & _ & _ & Hpending); [reflexivity..|].
  by split.
Defined.

Lemma reassembly_in_ascending_order_witness :
  exists st2 evs,
    listen_for_messages plain_digest plain_decode
      [(2, "CHUNK f1 1 def", peer); (3, "CHUNK f1 0 abc", peer);
       (4, "END f1 abcdef", peer)]
      (receiving 6 ∅)
    = (st2, evs)
    /\ files (disk st2) !! "/root/a.txt"
       = Some ["a"; "b"; "c"; "d"; "e"; "f"]%byte.
Proof.
  destruct (reassembly_in_ascending_order plain_digest plain_decode
              "f1" "a.txt" 6 0 "pc2" (receiving 6 ∅)
              [(0, ["a"; "b"; "c"]%byte); (1, ["d"; "e"; "f"]%byte)]
              [(1, ["d"; "e"; "f"]%byte); (0, ["a"; "b"; "c"]%byte)]
              [(2, "CHUNK f1 1 def", peer); (3, "CHUNK f1 0 abc", peer)]
              (4, "END f1 abcdef", peer) "abcdef")
    as (st1 & evs1 & chunks & _ & _ & _ & Hend).
  - reflexivity.
  - reflexivity.
  - apply not_elem_of_empty.
  - apply not_elem_of_empty.
  - by repeat constructor.
  - apply Permutation_swap.
  - constructor; [by exists "1", "def", []|].
    constructor; [by exists "0", "abc", []|]. constructor.
  - by exists [].
  - destruct Hend as (st2 & Hrun & Hfile); [reflexivity|].
    eexists st2, _. split; [exact Hrun|exact Hfile].
Defined.

(** * More of the listener *)

(** ** What [int] reads *)

(** The separators U+001C to U+001F end a field for [split] and are
    stripped by [strip], but [int] does not skip them; it skips the Latin-1
    spaces U+0085 and U+00A0. *)
Example int_white_space :
  (Py.int (String (ascii_of_nat 11) "12 "),
   Py.int ("12" +:+ String (ascii_of_nat 160) ""),
   Py.int ("12" +:+ String (ascii_of_nat 133) ""),
   Py.int ("12" +:+ String (ascii_of_nat 28) ""),
   Py.int (String (ascii_of_nat 31) "12"),
   Py.strip ("12" +:+ String (ascii_of_nat 28) ""))
  = (Some 12, Some 12, Some 12, None, None, "12").
Proof. reflexivity. Qed.

(** More than [MAX_STR_DIGITS] digits are not read, leading zeros
    included; underscores are not counted. *)
Example int_digit_limit :
  (Py.int (string_of_list_ascii (replicate 4300 "0"%char)),
   Py.int (string_of_list_ascii (replicate 4301 "0"%char)),
   Py.int ("-" +:+ string_of_list_ascii (replicate 4301 "0"%char)),
   Py.int ("0_" +:+ string_of_list_ascii (replicate 4299 "0"%char)))
  = (Some 0, None, None, Some 0).
Proof. vm_compute. reflexivity. Qed.

Lemma digit_range c d : Py.digit c = Some d -> 0 <= d <= 9.
Proof.
  unfold Py.digit.
  destruct (Z.leb_spec 48 (Z.of_nat (nat_of_ascii c)));
    destruct (Z.leb_spec (Z.of_nat (nat_of_ascii c)) 57); simpl; intros [= <-]; lia.
Qed.

(** The digits read after [acc] shift it by one place each. *)
Lemma digits_bound s :
  forall acc after_digit v,
    0 <= acc ->
    Py.digits acc after_digit s = Some v ->
    acc * 10 ^ Z.of_nat (Py.digit_count s) <= v
    < (acc + 1) * 10 ^ Z.of_nat (Py.digit_count s).
Proof.
  induction s as [|c s IH]; intros acc after_digit v Hacc; cbn [Py.digits Py.digit_count].
  - destruct after_digit; intros [= <-]. change (10 ^ Z.of_nat 0) with 1. lia.
  - destruct (Ascii.eqb c "_") eqn:Hunderscore.
    + apply Ascii.eqb_eq in Hunderscore as ->. change (Py.digit "_") with (@None Z).
      destruct after_digit; [|done]. by apply IH.
    + destruct (Py.digit c) as [d|] eqn:Hdigit; [|done].
      apply digit_range in Hdigit. intros Hv. apply IH in Hv; [|lia].
      rewrite Nat2Z.inj_succ, Z.pow_succ_r by lia.
      assert (0 < 10 ^ Z.of_nat (Py.digit_count s)) by (apply Z.pow_pos_nonneg; lia).
      nia.
Qed.

Lemma number_bound s v : Py.number s = Some v -> 0 <= v < Py.INT_LIMIT.
Proof.
  unfold Py.number, Py.INT_LIMIT.
  destruct (Nat.ltb_spec Py.MAX_STR_DIGITS (Py.digit_count s)) as [|Hcount]; [done|].
  intros Hv%digits_bound; [|done].
  assert (10 ^ Z.of_nat (Py.digit_count s) <= 10 ^ Z.of_nat Py.MAX_STR_DIGITS)
    by (apply Z.pow_le_mono_r; lia).
  lia.
Qed.

(** What [int] returns has at most [MAX_STR_DIGITS] digits: it can be
    written out again. *)
Lemma int_fits s n : Py.int s = Some n -> Z.abs n < Py.INT_LIMIT.
Proof.
  unfold Py.int.
  assert (forall t, Py.number t = Some n -> Z.abs n < Py.INT_LIMIT) as Hplain
    by (intros t Ht%number_bound; lia).
  assert (forall t, Z.opp <$> Py.number t = Some n -> Z.abs n < Py.INT_LIMIT) as Hminus.
  { intros t. destruct (Py.number t) as [v|] eqn:Ht; [|done].
    apply number_bound in Ht. intros [= <-]. lia. }
  destruct (Py.strip_int s) as [|c t]; [apply Hplain|].
  destruct c as [[] [] [] [] [] [] [] []]; first [apply Hplain | apply Hminus].
Qed.

(** Both limits are far above the sizes and counts of a transfer. *)
Lemma INT_LIMIT_large : 2 ^ 64 <= Py.INT_LIMIT.
Proof.
  unfold Py.INT_LIMIT, Py.MAX_STR_DIGITS. transitivity (10 ^ 64).
  - apply Z.pow_le_mono_l. lia.
  - apply Z.pow_le_mono_r; lia.
Qed.

Lemma FLOAT_LIMIT_large : 2 ^ 64 <= Py.FLOAT_LIMIT.
Proof.
  unfold Py.FLOAT_LIMIT.
  assert (2 ^ 970 <= 2 ^ 1023) by (apply Z.pow_le_mono_r; lia).
  assert (2 ^ 64 <= 2 ^ 1023) by (apply Z.pow_le_mono_r; lia).
  change (2 ^ 1024) with (2 ^ Z.succ 1023). rewrite Z.pow_succ_r by lia. lia.
Qed.

Lemma FLOAT_LIMIT_pos : 0 < Py.FLOAT_LIMIT.
Proof. pose proof FLOAT_LIMIT_large. lia. Qed.

(** The progress line of a chunk of a transfer announced by a FILE, the
    count being that of a table of chunks: it fails for one sequence number
    only, the largest that [int] reads. *)
Lemma progress_raises_announced file_size chunks_received seq :
  0 < file_size < Py.INT_LIMIT ->
  Z.abs chunks_received < Py.FLOAT_LIMIT ->
  Z.abs seq < Py.INT_LIMIT ->
  progress_raises file_size chunks_received seq = (seq =? Py.INT_LIMIT - 1).
Proof.
  intros Hsize Hcount Hseq. unfold progress_raises, Py.true_div_overflows, Py.str_fits.
  pose proof FLOAT_LIMIT_pos as Hpos.
  assert (1 <= (file_size + CHUNK_SIZE - 1) / CHUNK_SIZE <= file_size) as Htotal.
  { unfold CHUNK_SIZE. split.
    - apply Z.div_le_lower_bound; lia.
    - apply Z.div_le_upper_bound; lia. }
  set (total_chunks := (file_size + CHUNK_SIZE - 1) / CHUNK_SIZE) in *.
  assert (Py.FLOAT_LIMIT <= Py.FLOAT_LIMIT * Z.abs total_chunks) by nia.
  destruct (Z.eqb_spec total_chunks 0); [lia|].
  destruct (Z.leb_spec (Py.FLOAT_LIMIT * Z.abs total_chunks) (Z.abs chunks_received));
    [lia|].
  destruct (Z.ltb_spec (Z.abs total_chunks) Py.INT_LIMIT); [|lia].
  destruct (Z.ltb_spec (Z.abs (seq + 1)) Py.INT_LIMIT);
    destruct (Z.eqb_spec seq (Py.INT_LIMIT - 1)); simpl; lia.
Qed.

Lemma dict_get_set_eq name v d : dict_get name (dict_set name v d) = Some v.
Proof.
  induction d as [|[name' v'] d IH]; simpl.
  - by rewrite String.eqb_refl.
  - destruct (String.eqb name name') eqn:Heq; simpl; rewrite ?String.eqb_refl, ?Heq; done.
Qed.

Lemma dict_get_set_ne name other v d :
  other <> name -> dict_get other (dict_set name v d) = dict_get other d.
Proof.
  intros Hne. induction d as [|[name' v'] d IH]; simpl.
  - by apply String.eqb_neq in Hne as ->.
  - destruct (String.eqb name name') eqn:Heq; simpl.
    + apply String.eqb_eq in Heq as <-. by apply String.eqb_neq in Hne as ->.
    + by rewrite IH.
Qed.

Lemma dict_set_keys name v d :
  (dict_set name v d).*1 = if decide (name ∈ d.*1) then d.*1 else app d.*1 [name].
Proof.
  induction d as [|[name' v'] d IH]; [done|]. simpl.
  destruct (String.eqb name name') eqn:Heq.
  - apply String.eqb_eq in Heq as <-. rewrite decide_True; [done|]. by left.
  - apply String.eqb_neq in Heq. csimpl. rewrite IH.
    destruct (decide (name ∈ d.*1)).
    + rewrite decide_True; [done|]. by right.
    + rewrite decide_False; [done|]. by intros [?|?]%elem_of_cons.
Qed.

Section Listener.

Variable sha256_hex : list byte -> string.
Variable b64decode : string -> option (list byte).

Lemma dispatch_heartbeat now message ip port st name rest :
  Py.split message 3 = "HEARTBEAT" :: name :: rest ->
  handle_message sha256_hex b64decode now message (ip, port) st
  = on_heartbeat now ip port name st.
Proof. intros Hsplit. unfold handle_message. by rewrite Hsplit. Qed.

Lemma dispatch_file now message ip port st file_id filename size_field rest :
  Py.split message 3 = "FILE" :: file_id :: filename :: size_field :: rest ->
  handle_message sha256_hex b64decode now message (ip, port) st
  = on_file ip file_id filename size_field st.
Proof. intros Hsplit. unfold handle_message. by rewrite Hsplit. Qed.

Lemma dispatch_ack now message ip port st ack_id rest :
  Py.split message 3 = "ACK" :: ack_id :: rest ->
  handle_message sha256_hex b64decode now message (ip, port) st = on_ack ack_id st.
Proof. intros Hsplit. unfold handle_message. by rewrite Hsplit. Qed.

Lemma dispatch_nack now message ip port st nack_id motivo rest :
  Py.split message 3 = "NACK" :: nack_id :: motivo :: rest ->
  handle_message sha256_hex b64decode now message (ip, port) st = on_nack nack_id st.
Proof. intros Hsplit. unfold handle_message. by rewrite Hsplit. Qed.

(** X1: a HEARTBEAT from another name puts (ip, port, now) under that name
    and leaves every other entry of the registry as it was; a HEARTBEAT that
    carries the device's own name changes nothing.  Nothing is sent back. *)
Theorem heartbeat_registers_peer now message ip port st name rest :
  Py.split message 3 = "HEARTBEAT" :: name :: rest ->
  exists st',
    handle_message sha256_hex b64decode now message (ip, port) st = (Returned, st', [])
    /\ (name = device_name st -> st' = st)
    /\ (name <> device_name st ->
        dict_get name (known_devices st') = Some (ip, port, now)
        /\ (forall other, other <> name ->
              dict_get other (known_devices st') = dict_get other (known_devices st))
        /\ (known_devices st').*1
           = (if decide (name ∈ (known_devices st).*1) then (known_devices st).*1
              else app (known_devices st).*1 [name])).
Proof.
  intros Hsplit. rewrite (dispatch_heartbeat _ _ _ _ _ _ _ Hsplit). unfold on_heartbeat.
  destruct (String.eqb name (device_name st)) eqn:Hself.
  - apply String.eqb_eq in Hself. exists st. by repeat split.
  - apply String.eqb_neq in Hself. eexists. split; [reflexivity|]. split; [done|].
    intros _. cbn. split; [apply dict_get_set_eq|]. split.
    + intros other Hother. by apply dict_get_set_ne.
    + apply dict_set_keys.
Qed.

End Listener.

Lemma heartbeat_registers_peer_witness :
  exists st',
    handle_message plain_digest plain_decode 42 "HEARTBEAT pc3" ("10.0.0.3", 40001) pc1
    = (Returned, st', [])
    /\ dict_get "pc3" (known_devices st') = Some ("10.0.0.3", 40001, 42)
    /\ dict_get "pc2" (known_devices st') = Some ("10.0.0.2", 5000, 0)
    /\ (known_devices st').*1 = ["pc2"; "pc3"].
Proof.
  destruct (heartbeat_registers_peer plain_digest plain_decode 42 "HEARTBEAT pc3"
              "10.0.0.3" 40001 pc1 "pc3" []) as (st' & Hrun & _ & Hnew);
    [reflexivity|].
  destruct Hnew as (Hget & Hother & Hkeys); [done|].
  exists st'. split; [done|]. split; [done|]. split.
  - rewrite Hother; done.
  - rewrite Hkeys. reflexivity.
Defined.

Section Listener_returns.

Variable sha256_hex : list byte -> string.
Variable b64decode : string -> option (list byte).

Lemma on_heartbeat_returned now ip port name st :
  (on_heartbeat now ip port name st).1.1 = Returned.
Proof. unfold on_heartbeat. by case_match. Qed.

Lemma on_talk_returned ip message_id content st :
  (on_talk ip message_id content st).1.1 = Returned.
Proof. unfold on_talk. by case_decide. Qed.

Lemma on_file_returned ip file_id filename size_field st :
  (on_file ip file_id filename size_field st).1.1 = Returned.
Proof. unfold on_file. by repeat case_match. Qed.

Lemma on_end_returned ip file_id received_hash st :
  (on_end sha256_hex ip file_id received_hash st).1.1 = Returned.
Proof. unfold on_end. by repeat case_match. Qed.

Lemma on_chunk_returned ip file_id seq_field data_b64 st :
  tables_agree st ->
  (on_chunk b64decode ip file_id seq_field data_b64 st).1.1 = Returned.
Proof.
  unfold tables_agree, on_chunk. intros Hagree.
  destruct (Py.int _); [|done].
  destruct (pending_files st !! file_id) as [[[[? ?] ?] ?]|] eqn:Hpending; [|done].
  destruct (file_chunks st !! file_id) eqn:Hchunks; [by repeat case_match|].
  apply (elem_of_dom_2 (pending_files st)) in Hpending.
  apply not_elem_of_dom in Hchunks. by rewrite Hagree in Hpending.
Qed.

(** X2: with the two transfer tables in step, the only message on which
    [handle_message] raises is a bare ACK, whose missing id is an
    [IndexError]; the state is then untouched and nothing has been sent. *)
Theorem listener_raises_only_on_bare_ack now message addr st e st' evs :
  tables_agree st ->
  handle_message sha256_hex b64decode now message addr st = (Raised e, st', evs) ->
  Py.split message 3 = ["ACK"] /\ e = IndexError /\ st' = st /\ evs = [].
Proof.
  intros Hagree. unfold handle_message. destruct addr as [ip port].
  destruct (Py.split message 3) as [|message_type fields] eqn:Hsplit; [done|].
  pose proof (on_heartbeat_returned now ip port) as Hheartbeat.
  pose proof (on_talk_returned ip) as Htalk.
  pose proof (on_file_returned ip) as Hfile.
  pose proof (on_end_returned ip) as Hend.
  pose proof (fun f s d => on_chunk_returned ip f s d st Hagree) as Hchunk.
  destruct fields as [|f1 [|f2 [|f3 rest]]]; cbn [List.length Nat.leb];
    rewrite ?andb_false_r, ?andb_true_r;
    repeat match goal with
    | |- context [String.eqb message_type ?t] =>
        destruct (String.eqb message_type t) eqn:?
    end;
    intros Hrun; try discriminate Hrun;
    try (by match type of Hrun with
            | on_heartbeat _ _ _ ?n _ = _ =>
                specialize (Hheartbeat n st); rewrite Hrun in Hheartbeat
            | on_talk _ ?a ?b _ = _ => specialize (Htalk a b st); rewrite Hrun in Htalk
            | on_file _ ?a ?b ?c _ = _ =>
                specialize (Hfile a b c st); rewrite Hrun in Hfile
            | on_end _ _ ?a ?b _ = _ => specialize (Hend a b st); rewrite Hrun in Hend
            | on_chunk _ _ ?a ?b ?c _ = _ =>
                specialize (Hchunk a b c); rewrite Hrun in Hchunk
            end).
  match goal with H : String.eqb message_type "ACK" = true |- _ =>
    apply String.eqb_eq in H as ->
  end.
  by injection Hrun as <- <- <-.
Qed.

End Listener_returns.

Lemma listener_raises_only_on_bare_ack_witness :
  Py.split "ACK" 3 = ["ACK"]
  /\ handle_message plain_digest plain_decode 7 "ACK" peer pc1 = (Raised IndexError, pc1, []).
Proof.
  assert (handle_message plain_digest plain_decode 7 "ACK" peer pc1
          = (Raised IndexError, pc1, [])) as Hrun by reflexivity.
  destruct (listener_raises_only_on_bare_ack plain_digest plain_decode
              7 "ACK" peer pc1 IndexError pc1 [] eq_refl Hrun) as (Hsplit & _).
  by split.
Defined.

Section Listener_transfers.

Variable sha256_hex : list byte -> string.
Variable b64decode : string -> option (list byte).

(** X3: a FILE announcement for an id that is not pending opens the transfer
    (count 0, no chunk) and is acknowledged; any further FILE with that id
    and a numeric size, even one that announces another name or size, leaves
    the state as it is and is acknowledged again without a second banner. *)
Theorem file_announcement_is_idempotent now now' message again ip port st
    file_id filename size_field rest file_size filename' size_field' rest' file_size' :
  Py.split message 3 = "FILE" :: file_id :: filename :: size_field :: rest ->
  Py.int size_field = Some file_size ->
  Py.split again 3 = "FILE" :: file_id :: filename' :: size_field' :: rest' ->
  Py.int size_field' = Some file_size' ->
  pending_files st !! file_id = None ->
  exists st1,
    handle_message sha256_hex b64decode now message (ip, port) st
    = (Returned, st1,
       [ReceivingFile (sender_of ip (known_devices st)) filename file_size;
        Sendto ip UDP_PORT ("ACK " +:+ file_id)])
    /\ pending_files st1 !! file_id
       = Some (filename, file_size, 0, sender_of ip (known_devices st))
    /\ file_chunks st1 !! file_id = Some ∅
    /\ handle_message sha256_hex b64decode now' again (ip, port) st1
       = (Returned, st1, [Sendto ip UDP_PORT ("ACK " +:+ file_id)]).
Proof.
  intros Hsplit Hsize Hsplit' Hsize' Hnew.
  rewrite (dispatch_file _ _ _ _ _ _ _ _ _ _ _ Hsplit). unfold on_file at 1.
  rewrite Hsize, Hnew. eexists. split; [reflexivity|].
  split; [cbn; by rewrite lookup_insert_eq|].
  split; [cbn; by rewrite lookup_insert_eq|].
  rewrite (dispatch_file _ _ _ _ _ _ _ _ _ _ _ Hsplit'). unfold on_file.
  rewrite Hsize'. cbn. by rewrite lookup_insert_eq.
Qed.

(** X4: a FILE whose size field or a CHUNK whose sequence field is not an
    integer is dropped: state unchanged, no reply. *)
Theorem malformed_number_is_dropped now message addr st file_id a b rest :
  (Py.split message 3 = "FILE" :: file_id :: a :: b :: rest /\ Py.int b = None)
  \/ (Py.split message 3 = "CHUNK" :: file_id :: a :: b :: rest /\ Py.int a = None) ->
  handle_message sha256_hex b64decode now message addr st = (Returned, st, []).
Proof.
  destruct addr as [ip port]. intros [[Hsplit Hbad]|[Hsplit Hbad]].
  - rewrite (dispatch_file _ _ _ _ _ _ _ _ _ _ _ Hsplit). unfold on_file. by rewrite Hbad.
  - rewrite (dispatch_chunk _ _ _ _ _ _ _ _ _ _ _ Hsplit). unfold on_chunk.
    by rewrite Hbad.
Qed.

(** X5: a CHUNK whose sequence number is already stored changes nothing, not
    even when its payload differs from the stored one or cannot be decoded:
    the first payload stays, and ACK <id>-<seq> is sent again. *)
Theorem duplicate_chunk_keeps_first_payload now message ip port st
    file_id seq_field data_b64 rest seq transfer chunks stored :
  Py.split message 3 = "CHUNK" :: file_id :: seq_field :: data_b64 :: rest ->
  Py.int seq_field = Some seq ->
  pending_files st !! file_id = Some transfer ->
  file_chunks st !! file_id = Some chunks ->
  chunks !! seq = Some stored ->
  handle_message sha256_hex b64decode now message (ip, port) st
  = (Returned, st, [Sendto ip UDP_PORT ("ACK " +:+ file_id +:+ "-" +:+ Py.str seq)]).
Proof.
  intros Hsplit Hseq Hpending Hchunks Hstored.
  rewrite (dispatch_chunk _ _ _ _ _ _ _ _ _ _ _ Hsplit). unfold on_chunk.
  rewrite Hseq, Hpending. destruct transfer as [[[? ?] ?] ?].
  by rewrite Hchunks, Hstored.
Qed.

(** X6: a new CHUNK of a pending transfer whose payload cannot be decoded is
    dropped: nothing is stored, the count stays, and no reply is sent, so
    the sender sees a time-out. *)
Theorem undecodable_chunk_is_dropped now message ip port st
    file_id seq_field data_b64 rest seq transfer chunks :
  Py.split message 3 = "CHUNK" :: file_id :: seq_field :: data_b64 :: rest ->
  Py.int seq_field = Some seq ->
  pending_files st !! file_id = Some transfer ->
  file_chunks st !! file_id = Some chunks ->
  chunks !! seq = None ->
  b64decode data_b64 = None ->
  handle_message sha256_hex b64decode now message (ip, port) st = (Returned, st, []).
Proof.
  intros Hsplit Hseq Hpending Hchunks Hnew Hbad.
  rewrite (dispatch_chunk _ _ _ _ _ _ _ _ _ _ _ Hsplit). unfold on_chunk.
  rewrite Hseq, Hpending. destruct transfer as [[[? ?] ?] ?].
  by rewrite Hchunks, Hnew, Hbad.
Qed.

(** X7: a new CHUNK of a pending transfer, its payload decoded, is stored
    under its sequence number and counted, whatever the sequence number: it
    is not compared with the number of chunks that the announced size
    allows, and may be negative.  For a size that a FILE announces, from 1
    to INT_LIMIT - 1, and a count below FLOAT_LIMIT, the chunk is
    acknowledged, with one exception: the sequence number INT_LIMIT - 1, the
    largest that [int] reads, has a successor that the progress line cannot
    show, and that chunk is stored and counted without a reply. *)
Theorem new_chunk_is_stored_and_acked now message ip port st
    file_id seq_field data_b64 rest seq data filename file_size chunks_received
    sender chunks :
  Py.split message 3 = "CHUNK" :: file_id :: seq_field :: data_b64 :: rest ->
  Py.int seq_field = Some seq ->
  b64decode data_b64 = Some data ->
  pending_files st !! file_id = Some (filename, file_size, chunks_received, sender) ->
  file_chunks st !! file_id = Some chunks ->
  chunks !! seq = None ->
  exists st1 evs,
    handle_message sha256_hex b64decode now message (ip, port) st = (Returned, st1, evs)
    /\ file_chunks st1 !! file_id = Some (<[seq := data]> chunks)
    /\ pending_files st1 !! file_id
       = Some (filename, file_size, chunks_received + 1, sender)
    /\ disk st1 = disk st
    /\ (0 < file_size < Py.INT_LIMIT ->
        Z.abs (chunks_received + 1) < Py.FLOAT_LIMIT ->
        evs = if seq =? Py.INT_LIMIT - 1 then []
              else [Sendto ip UDP_PORT ("ACK " +:+ file_id +:+ "-" +:+ Py.str seq)]).
Proof.
  intros Hsplit Hseq Hdata Hpending Hchunks Hnew.
  rewrite (dispatch_chunk _ _ _ _ _ _ _ _ _ _ _ Hsplit). unfold on_chunk.
  rewrite Hseq, Hpending, Hchunks, Hnew, Hdata.
  pose proof (progress_raises_announced file_size (chunks_received + 1) seq) as Hprogress.
  apply int_fits in Hseq.
  destruct (progress_raises file_size (chunks_received + 1) seq) eqn:Hraises;
    (eexists _, _; split; [reflexivity|];
     split; [cbn; by rewrite !lookup_insert_eq|];
     split; [cbn; by rewrite !lookup_insert_eq|];
     split; [done|];
     intros Hsize Hcount; by rewrite <- Hprogress).
Qed.

(** X8: when the announced size is between -249 and 0, so that it allows no
    chunk, a new CHUNK is stored and counted but not acknowledged (the
    progress computation divides by zero inside the [try]); the same CHUNK
    sent again finds its sequence number stored and is acknowledged. *)
Theorem chunk_of_empty_announcement_not_acked now now' message ip port st
    file_id seq_field data_b64 rest seq data filename file_size chunks_received
    sender chunks :
  Py.split message 3 = "CHUNK" :: file_id :: seq_field :: data_b64 :: rest ->
  Py.int seq_field = Some seq ->
  b64decode data_b64 = Some data ->
  pending_files st !! file_id = Some (filename, file_size, chunks_received, sender) ->
  file_chunks st !! file_id = Some chunks ->
  chunks !! seq = None ->
  -249 <= file_size <= 0 ->
  exists st1,
    handle_message sha256_hex b64decode now message (ip, port) st = (Returned, st1, [])
    /\ file_chunks st1 !! file_id = Some (<[seq := data]> chunks)
    /\ pending_files st1 !! file_id
       = Some (filename, file_size, chunks_received + 1, sender)
    /\ handle_message sha256_hex b64decode now' message (ip, port) st1
       = (Returned, st1,
          [Sendto ip UDP_PORT ("ACK " +:+ file_id +:+ "-" +:+ Py.str seq)]).
Proof.
  intros Hsplit Hseq Hdata Hpending Hchunks Hnew Hsize.
  rewrite (dispatch_chunk _ _ _ _ _ _ _ _ _ _ _ Hsplit). unfold on_chunk at 1.
  rewrite Hseq, Hpending, Hchunks, Hnew, Hdata.
  assert (progress_raises file_size (chunks_received + 1) seq = true) as ->.
  { unfold progress_raises, CHUNK_SIZE. by rewrite Z.div_small by lia. }
  eexists. split; [reflexivity|].
  split; [cbn; by rewrite lookup_insert_eq|].
  split; [cbn; by rewrite lookup_insert_eq|].
  rewrite (dispatch_chunk _ _ _ _ _ _ _ _ _ _ _ Hsplit).
  unfold on_chunk. rewrite Hseq. cbn. by rewrite !lookup_insert_eq.
Qed.

(** X9: END is not acknowledged twice.  Once an END has closed a transfer,
    by accepting the file or by rejecting its hash, the same END delivered
    again finds no pending transfer and gets no reply at all. *)
Theorem repeated_end_gets_no_reply now now' message ip port st file_id received_hash rest
    filename file_size chunks_received sender chunks :
  Py.split message 3 = "END" :: file_id :: received_hash :: rest ->
  pending_files st !! file_id = Some (filename, file_size, chunks_received, sender) ->
  file_chunks st !! file_id = Some chunks ->
  "/root/" +:+ filename ∉ unwritable (disk st) ->
  "/root/" +:+ filename ∉ unreadable (disk st) ->
  exists st1 reply1,
    handle_message sha256_hex b64decode now message (ip, port) st = (Returned, st1, reply1)
    /\ last reply1
       = Some (Sendto ip UDP_PORT
                 (if String.eqb (sha256_hex (reassemble chunks)) received_hash
                  then "ACK " +:+ file_id
                  else "NACK " +:+ file_id +:+ " hash_invalido"))
    /\ handle_message sha256_hex b64decode now' message (ip, port) st1
       = (Returned, st1, []).
Proof.
  intros Hsplit Hpending Hchunks Hw Hr.
  rewrite (dispatch_end _ _ _ _ _ _ _ _ _ _ Hsplit). unfold on_end at 1.
  rewrite Hpending, (end_body_runs _ _ _ _ _ _ _ _ _ Hchunks Hw Hr).
  destruct (String.eqb _ received_hash); eexists _, _;
    (split; [reflexivity|]); (split; [reflexivity|]);
    rewrite (dispatch_end _ _ _ _ _ _ _ _ _ _ Hsplit);
    unfold on_end; cbn; by rewrite lookup_delete_eq.
Qed.

End Listener_transfers.

Section Listener_invariants.

Variable sha256_hex : list byte -> string.
Variable b64decode : string -> option (list byte).

Lemma handle_message_counts_agree now message addr st c st' evs :
  counts_agree st ->
  handle_message sha256_hex b64decode now message addr st = (c, st', evs) ->
  counts_agree st'.
Proof.
  intros Hcounts. unfold handle_message. destruct addr as [ip port].
  destruct (Py.split message 3) as [|message_type fields]; [by intros [= <- <- <-]|].
  dispatch_cases; try (by intros [= <- <- <-]).
  - unfold on_heartbeat. case_match; by intros [= <- <- <-].
  - unfold on_talk. case_decide; by intros [= <- <- <-].
  - unfold on_file. repeat case_match; intros [= <- <- <-]; try done.
    intros file_id ? ? ? ? chunks. cbn.
    destruct (decide (file_id = s)) as [->|].
    + rewrite !lookup_insert_eq. intros [= <- <- <- <-] [= <-].
      by rewrite map_size_empty.
    + rewrite !lookup_insert_ne by done. apply Hcounts.
  - unfold on_chunk. repeat case_match; intros [= <- <- <-]; try done;
      intros file_id ? ? ? ? chunks; cbn;
      (destruct (decide (file_id = s)) as [->|];
       [|rewrite !lookup_insert_ne by done; apply Hcounts]);
      rewrite !lookup_insert_eq; intros [= <- <- <- <-] [= <-];
      rewrite map_size_insert_None by done;
      match goal with
      | Hp : pending_files st !! s = Some _, Hc : file_chunks st !! s = Some _ |- _ =>
          pose proof (Hcounts _ _ _ _ _ _ Hp Hc)
      end; lia.
  - unfold on_end, end_body.
    repeat case_match; simplify_eq; intros [= <- <- <-]; try done;
      intros file_id ? ? ? ? chunks; cbn;
      try apply Hcounts;
      (destruct (decide (file_id = s)) as [->|];
       [by rewrite lookup_delete_eq
       |rewrite !lookup_delete_ne by done; apply Hcounts]).
Qed.

Lemma handle_message_keeps_ids now message addr st c st' evs :
  handle_message sha256_hex b64decode now message addr st = (c, st', evs) ->
  received_ids st ⊆ received_ids st'.
Proof.
  unfold handle_message. destruct addr as [ip port].
  destruct (Py.split message 3) as [|message_type fields]; [by intros [= <- <- <-]|].
  dispatch_cases; try (by intros [= <- <- <-]).
  - unfold on_heartbeat. case_match; by intros [= <- <- <-].
  - unfold on_talk. case_decide; intros [= <- <- <-]; [done|]. cbn. set_solver.
  - unfold on_file. repeat case_match; by intros [= <- <- <-].
  - unfold on_chunk. repeat case_match; by intros [= <- <- <-].
  - unfold on_end, end_body. repeat case_match; simplify_eq; by intros [= <- <- <-].
Qed.

(** X10: the listener keeps the count of every pending transfer equal to the
    number of chunks it has stored for it, and keeps the two transfer tables
    on the same file ids, whatever datagrams it is fed. *)
Theorem listener_keeps_transfer_tables inbox st st' evs :
  counts_agree st ->
  tables_agree st ->
  listen_for_messages sha256_hex b64decode inbox st = (st', evs) ->
  counts_agree st' /\ tables_agree st'.
Proof.
  revert st evs. induction inbox as [|[[now data] addr] inbox IH];
    intros st evs Hcounts Htables; simpl.
  - by intros [= <- <-].
  - destruct (handle_message _ _ _ _ _ st) as [[c st1] evs1] eqn:Hstep.
    destruct (listen_for_messages _ _ inbox st1) as [st2 evs2] eqn:Hrest.
    intros [= <- <-]. eapply IH; [| |done].
    + by eapply handle_message_counts_agree.
    + by eapply handle_message_tables_agree.
Qed.

(** X11: the duplicate filter never forgets.  Once a TALK id has been seen,
    whatever datagrams come in afterwards, a TALK with that id is
    acknowledged and not shown. *)
Theorem seen_talk_id_stays_seen inbox now message ip port st st' evs
    message_id content rest :
  message_id ∈ received_ids st ->
  listen_for_messages sha256_hex b64decode inbox st = (st', evs) ->
  Py.split message 3 = "TALK" :: message_id :: content :: rest ->
  handle_message sha256_hex b64decode now message (ip, port) st'
  = (Returned, st', [Sendto ip UDP_PORT ("ACK " +:+ message_id)]).
Proof.
  intros Hseen Hrun Hsplit.
  assert (message_id ∈ received_ids st') as Hstill.
  { revert st evs Hseen Hrun. induction inbox as [|[[now0 data] addr] inbox IH];
      intros st evs Hseen; simpl.
    - by intros [= <- <-].
    - destruct (handle_message _ _ _ _ _ st) as [[c st1] evs1] eqn:Hstep.
      destruct (listen_for_messages _ _ inbox st1) as [st2 evs2] eqn:Hrest.
      intros [= <- <-]. eapply IH; [|done].
      by eapply handle_message_keeps_ids. }
  rewrite (dispatch_talk _ _ _ _ _ _ _ _ _ _ Hsplit). unfold on_talk.
  by rewrite decide_True.
Qed.

(** X12: a message with fewer fields than its type asks for, or of a type
    that is none of the seven, is ignored: state unchanged, nothing sent.
    So TALK without text, END without hash and NACK without reason do
    nothing; the exception is ACK, which is tested without a length. *)
Theorem short_or_unknown_message_is_ignored now message addr st message_type fields :
  Py.split message 3 = message_type :: fields ->
  message_type <> "ACK" ->
  match fields_needed message_type with
  | Some n => (List.length (message_type :: fields) < n)%nat
  | None => True
  end ->
  handle_message sha256_hex b64decode now message addr st = (Returned, st, []).
Proof.
  intros Hsplit Hack Hshort. unfold handle_message. rewrite Hsplit.
  destruct addr as [ip port]. unfold fields_needed in Hshort.
  repeat match type of Hshort with
  | context [String.eqb message_type ?t] =>
      let Heq := fresh "Heq" in
      destruct (String.eqb message_type t) eqn:Heq;
        [apply String.eqb_eq in Heq; subst message_type; try done;
         simpl in Hshort; apply Nat.leb_gt in Hshort;
         cbn [List.length]; by rewrite Hshort|]
  end.
  done.
Qed.

End Listener_invariants.

(** ** The listener on concrete datagrams *)

Lemma started_counts_agree name : counts_agree (started name).
Proof.
  intros ? ? ? ? ? ? Hpending. cbn [started pending_files] in Hpending.
  by rewrite lookup_empty in Hpending.
Qed.

Lemma file_announcement_is_idempotent_witness :
  exists st1,
    handle_message plain_digest plain_decode 1 "FILE f1 a.txt 6" peer pc1
    = (Returned, st1,
       [ReceivingFile "pc2" "a.txt" 6; Sendto "10.0.0.2" UDP_PORT "ACK f1"])
    /\ pending_files st1 !! "f1" = Some ("a.txt", 6, 0, "pc2")
    /\ file_chunks st1 !! "f1" = Some ∅
    /\ handle_message plain_digest plain_decode 2 "FILE f1 b.bin 9" peer st1
       = (Returned, st1, [Sendto "10.0.0.2" UDP_PORT "ACK f1"]).
Proof.
  apply (file_announcement_is_idempotent plain_digest plain_decode 1 2
           "FILE f1 a.txt 6" "FILE f1 b.bin 9" "10.0.0.2" 5000 pc1
           "f1" "a.txt" "6" [] 6 "b.bin" "9" [] 9); reflexivity.
Defined.

Lemma malformed_number_is_dropped_witness :
  handle_message plain_digest plain_decode 1 "FILE f1 a.txt 12kb" peer pc1
  = (Returned, pc1, []).
Proof.
  apply (malformed_number_is_dropped plain_digest plain_decode 1
           "FILE f1 a.txt 12kb" peer pc1 "f1" "a.txt" "12kb" []).
  left. by split.
Defined.

Lemma duplicate_chunk_keeps_first_payload_witness :
  handle_message plain_digest plain_decode 1 "CHUNK f1 0 xyz" peer
    (receiving 6 {[0 := ["a"; "b"; "c"]%byte]})
  = (Returned, receiving 6 {[0 := ["a"; "b"; "c"]%byte]},
     [Sendto "10.0.0.2" UDP_PORT "ACK f1-0"]).
Proof.
  apply (duplicate_chunk_keeps_first_payload plain_digest plain_decode 1
           "CHUNK f1 0 xyz" "10.0.0.2" 5000
           (receiving 6 {[0 := ["a"; "b"; "c"]%byte]})
           "f1" "0" "xyz" [] 0 ("a.txt", 6, 1, "pc2")
           {[0 := ["a"; "b"; "c"]%byte]} ["a"; "b"; "c"]%byte); reflexivity.
Defined.

Lemma undecodable_chunk_is_dropped_witness :
  handle_message plain_digest checked_decode 1 "CHUNK f1 0 ab!c" peer (receiving 6 ∅)
  = (Returned, receiving 6 ∅, []).
Proof.
  apply (undecodable_chunk_is_dropped plain_digest checked_decode 1
           "CHUNK f1 0 ab!c" "10.0.0.2" 5000 (receiving 6 ∅)
           "f1" "0" "ab!c" [] 0 ("a.txt", 6, 0, "pc2") ∅); reflexivity.
Defined.

Lemma chunk_of_empty_announcement_not_acked_witness :
  exists st1,
    handle_message plain_digest plain_decode 1 "CHUNK f1 0 abc" peer (receiving 0 ∅)
    = (Returned, st1, [])
    /\ file_chunks st1 !! "f1" = Some {[0 := ["a"; "b"; "c"]%byte]}
    /\ handle_message plain_digest plain_decode 2 "CHUNK f1 0 abc" peer st1
       = (Returned, st1, [Sendto "10.0.0.2" UDP_PORT "ACK f1-0"]).
Proof.
  destruct (chunk_of_empty_announcement_not_acked plain_digest plain_decode 1 2
              "CHUNK f1 0 abc" "10.0.0.2" 5000 (receiving 0 ∅)
              "f1" "0" "abc" [] 0 ["a"; "b"; "c"]%byte "a.txt" 0 0 "pc2" ∅)
    as (st1 & Hrun & Hchunks & _ & Hagain); try reflexivity; [lia|].
  by exists st1.
Defined.

Lemma repeated_end_gets_no_reply_witness :
  exists st1 reply1,
    handle_message plain_digest plain_decode 1 "END f1 abc" ("10.0.0.2", 5000)
      (receiving 3 {[0 := ["a"; "b"; "c"]%byte]})
    = (Returned, st1, reply1)
    /\ last reply1 = Some (Sendto "10.0.0.2" UDP_PORT "ACK f1")
    /\ handle_message plain_digest plain_decode 2 "END f1 abc" ("10.0.0.2", 5000) st1
       = (Returned, st1, []).
Proof.
  destruct (repeated_end_gets_no_reply plain_digest plain_decode 1 2
              "END f1 abc" "10.0.0.2" 5000
              (receiving 3 {[0 := ["a"; "b"; "c"]%byte]}) "f1" "abc" []
              "a.txt" 3 1 "pc2" {[0 := ["a"; "b"; "c"]%byte]})
    as (st1 & reply1 & Hrun & Hlast & Hagain);
    [reflexivity|reflexivity|reflexivity|apply not_elem_of_empty
    |apply not_elem_of_empty|].
  exists st1, reply1. split; [done|]. split; [|done].
  rewrite Hlast. vm_compute. reflexivity.
Defined.

Lemma listener_keeps_transfer_tables_witness :
  counts_agree
    (listen_for_messages plain_digest plain_decode
       [(1, "FILE f1 a.txt 6", peer); (2, "CHUNK f1 1 def", peer);
        (3, "CHUNK f1 1 def", peer); (4, "CHUNK f1 0 abc", peer)]
       (started "pc1")).1
  /\ tables_agree
       (listen_for_messages plain_digest plain_decode
          [(1, "FILE f1 a.txt 6", peer); (2, "CHUNK f1 1 def", peer);
           (3, "CHUNK f1 1 def", peer); (4, "CHUNK f1 0 abc", peer)]
          (started "pc1")).1.
Proof.
  eapply (listener_keeps_transfer_tables plain_digest plain_decode _ (started "pc1")).
  - apply started_counts_agree.
  - reflexivity.
  - apply surjective_pairing.
Defined.

Lemma seen_talk_id_stays_seen_witness :
  let st' :=
    (listen_for_messages plain_digest plain_decode
       [(2, "HEARTBEAT pc3", peer); (3, "TALK m2 bye", peer)]
       (set_received_ids {["m1"]} pc1)).1 in
  handle_message plain_digest plain_decode 4 "TALK m1 hello" ("10.0.0.2", 5000) st'
  = (Returned, st', [Sendto "10.0.0.2" UDP_PORT "ACK m1"]).
Proof.
  intros st'.
  apply (seen_talk_id_stays_seen plain_digest plain_decode
           [(2, "HEARTBEAT pc3", peer); (3, "TALK m2 bye", peer)] 4
           "TALK m1 hello" "10.0.0.2" 5000 (set_received_ids {["m1"]} pc1)
           st'
           (listen_for_messages plain_digest plain_decode
              [(2, "HEARTBEAT pc3", peer); (3, "TALK m2 bye", peer)]
              (set_received_ids {["m1"]} pc1)).2
           "m1" "hello" []).
  - cbn [received_ids set_received_ids]. by apply elem_of_singleton_2.
  - apply surjective_pairing.
  - reflexivity.
Defined.

Lemma short_or_unknown_message_is_ignored_witness :
  handle_message plain_digest plain_decode 1 "NACK pc1-17-4242" peer pc1
  = (Returned, pc1, []).
Proof.
  apply (short_or_unknown_message_is_ignored plain_digest plain_decode 1
           "NACK pc1-17-4242" peer pc1 "NACK" ["pc1-17-4242"]).
  - reflexivity.
  - done.
  - simpl. lia.
Defined.

(** * More of the sender *)

Lemma wait_for_ack_frame ack_id env st result st' :
  wait_for_ack ack_id env st = (result, st') ->
  st' = set_ack_received (ack_received st') st.
Proof.
  unfold wait_for_ack. destruct (poll _ _ _) as [r acks]. by intros [= <- <-].
Qed.

Lemma same_but_tracker_refl st : st = set_ack_received (ack_received st) st.
Proof. by destruct st. Qed.

Lemma same_but_tracker_trans st st1 st2 :
  st1 = set_ack_received (ack_received st1) st ->
  st2 = set_ack_received (ack_received st2) st1 ->
  st2 = set_ack_received (ack_received st2) st.
Proof. intros -> ->. done. Qed.

Lemma retry_loop_frame kind ip message ack_id env attempts st exit st' evs :
  retry_loop kind ip message ack_id env attempts st = (exit, st', evs) ->
  st' = set_ack_received (ack_received st') st.
Proof.
  revert st exit st' evs.
  induction attempts as [|attempt attempts IH]; intros st exit st' evs.
  - intros [= <- <- <-]. apply same_but_tracker_refl.
  - cbn [retry_loop send_message_to_ip].
    destruct (if network_ok (env attempt)
              then wait_for_ack ack_id (waiting (env attempt)) st
              else (None, st)) as [result st1] eqn:Hwait.
    assert (st1 = set_ack_received (ack_received st1) st) as Hst1.
    { destruct (network_ok (env attempt)).
      - by eapply wait_for_ack_frame.
      - injection Hwait as <- <-. apply same_but_tracker_refl. }
    destruct (retry_loop kind ip message ack_id env attempts st1)
      as [[exit2 st2] evs2] eqn:Hrest.
    pose proof (same_but_tracker_trans _ _ _ Hst1 (IH _ _ _ _ Hrest)) as Hst2.
    destruct result as [[|]|], kind, (attempt <? MAX_RETRIES)%nat;
      intros [= <- <- <-]; done.
Qed.

(** X13: an outcome that is already in the tracker when [wait_for_ack] takes
    the lock for the first time, for instance an ACK that came in right after
    the send, is thrown away by the clearing step: if nothing more arrives
    for the id, the wait times out and leaves no record. *)
Theorem early_ack_is_discarded ack_id env st outcome :
  record_all (stale env) (ack_received st) !! ack_id = Some outcome ->
  silent ack_id env ->
  exists st',
    wait_for_ack ack_id env st = (None, st')
    /\ ack_received st' !! ack_id = None.
Proof. intros _. apply wait_for_ack_silent. Qed.

(** X14: suppose that each attempt before [k] fails to send or has nothing
    stored under the message id while the sender polls, that the send of
    attempt [k] goes out, and that the first poll of its wait to find an
    outcome under the id follows an interval between two polls in which an
    ACK for the id, and no NACK for it, was stored ([answers]).  Then
    [talk_to_device] reports success after exactly [k] sends, with the
    back-off sleep between them, and changes nothing but the tracker. *)
Theorem talk_succeeds_at_first_ack target_device content epoch rnd env st ip port seen k :
  dict_get target_device (known_devices st) = Some (ip, port, seen) ->
  (1 <= k <= MAX_RETRIES)%nat ->
  (forall attempt, (1 <= attempt < k)%nat ->
     network_ok (env attempt) = false
     \/ silent (generate_message_id (device_name st) epoch rnd) (waiting (env attempt))) ->
  network_ok (env k) = true ->
  answers (generate_message_id (device_name st) epoch rnd) true (waiting (env k)) ->
  exists st',
    talk_to_device target_device content epoch rnd env st
    = (true, st',
       retries ip ("TALK " +:+ generate_message_id (device_name st) epoch rnd
                   +:+ " " +:+ content) k)
    /\ st' = set_ack_received (ack_received st') st.
Proof.
  intros Hknown Hk Hbefore Hsent Hack. unfold talk_to_device. rewrite Hknown.
  pose proof (retry_loop_stops TALK true ip
                ("TALK " +:+ generate_message_id (device_name st) epoch rnd
                 +:+ " " +:+ content)
                (generate_message_id (device_name st) epoch rnd) env (pred k)
                1%nat MAX_RETRIES st) as Hstop.
  replace (1 + pred k)%nat with k in Hstop by lia.
  replace (S (pred k)) with k in Hstop by lia.
  destruct Hstop as [st' Hrun]; [lia|done| |done..|].
  { intros attempt Hrange. destruct (Hbefore attempt) as [?|?]; [lia|by left|].
    right. by left. }
  rewrite Hrun. exists st'. split; [done|]. by eapply retry_loop_frame.
Qed.

(** A loop none of whose sends goes out never waits: the state is untouched. *)
Lemma retry_loop_network_down kind ip message ack_id env len :
  forall a st,
    (a + len = S MAX_RETRIES)%nat ->
    (forall attempt, (a <= attempt <= MAX_RETRIES)%nat ->
                     network_ok (env attempt) = false) ->
    retry_loop kind ip message ack_id env (List.seq a len) st
    = (Exhausted, st, retries ip message len).
Proof.
  induction len as [|len IH]; intros a st Hlen Hdown; [done|].
  cbn [List.seq retry_loop send_message_to_ip]. rewrite Hdown by lia.
  destruct (a <? MAX_RETRIES)%nat eqn:Hlast.
  - apply Nat.ltb_lt in Hlast. rewrite IH by (try lia; intros; apply Hdown; lia).
    rewrite retries_S by lia. by destruct kind.
  - apply Nat.ltb_ge in Hlast. assert (len = O) as -> by lia. by destruct kind.
Qed.

(** X15: when every send fails (no bytes sent, or [sendto] raises),
    [talk_to_device] still makes its MAX_RETRIES attempts with the sleeps
    between them and reports failure; it never waits for an acknowledgment,
    so the state, tracker included, is exactly as before. *)
Theorem talk_with_network_down target_device content epoch rnd env st ip port seen :
  dict_get target_device (known_devices st) = Some (ip, port, seen) ->
  (forall attempt, (1 <= attempt <= MAX_RETRIES)%nat -> network_ok (env attempt) = false) ->
  talk_to_device target_device content epoch rnd env st
  = (false, st,
     retries ip ("TALK " +:+ generate_message_id (device_name st) epoch rnd
                 +:+ " " +:+ content) MAX_RETRIES).
Proof.
  intros Hknown Hdown. unfold talk_to_device. rewrite Hknown.
  by rewrite (retry_loop_network_down TALK _ _ _ env MAX_RETRIES 1%nat st).
Qed.

(** ** The phases of a transfer *)

Lemma retry_loop_acked_at_once kind ip message ack_id env st :
  acked ack_id (env 1%nat) ->
  exists st',
    retry_loop kind ip message ack_id env (List.seq 1 MAX_RETRIES) st
    = (Acked, st', [Sendto ip UDP_PORT message]).
Proof.
  intros [Hsent Hack].
  by apply (retry_loop_ends kind true ip message ack_id env 1%nat
              (List.seq 2 (pred MAX_RETRIES)) st).
Qed.

Lemma chunk_count_bounds content :
  (List.length content <= Z.to_nat CHUNK_SIZE * chunk_count content)%nat
  /\ (chunk_count content <> O ->
      Z.to_nat CHUNK_SIZE * pred (chunk_count content) < List.length content)%nat.
Proof.
  unfold chunk_count, CHUNK_SIZE. set (len := List.length content).
  pose proof (Z.div_mod (Z.of_nat len + 250 - 1) 250) as Hdiv.
  pose proof (Z.mod_pos_bound (Z.of_nat len + 250 - 1) 250) as Hmod.
  assert (0 <= (Z.of_nat len + 250 - 1) / 250) by (apply Z.div_pos; lia).
  lia.
Qed.

Lemma slice_nonempty content i :
  (Z.to_nat CHUNK_SIZE * i < List.length content)%nat -> slice content i <> [].
Proof.
  intros Hlt Hnil. apply (f_equal List.length) in Hnil. unfold slice in Hnil.
  rewrite length_take, length_drop in Hnil. cbn [List.length] in Hnil.
  change (Z.to_nat CHUNK_SIZE) with 250%nat in *. lia.
Qed.

(** The chunks of a file, put together in order, are the file. *)
Lemma concat_slices content k m :
  List.concat (slice content <$> List.seq k m)
  = take (Z.to_nat CHUNK_SIZE * m) (drop (Z.to_nat CHUNK_SIZE * k) content).
Proof.
  revert k. induction m as [|m IH]; intros k.
  - by rewrite Nat.mul_0_r.
  - cbn [List.seq fmap list_fmap List.concat]. rewrite IH. unfold slice.
    replace (Z.to_nat CHUNK_SIZE * S k)%nat
      with (Z.to_nat CHUNK_SIZE * k + Z.to_nat CHUNK_SIZE)%nat by lia.
    rewrite <- drop_drop, take_take_drop. f_equal. lia.
Qed.

Section Transfer.

Variable sha256_hex : list byte -> string.
Variable b64encode : list byte -> string.

Lemma send_chunks_frame ip file_id env seqs f st ok st' evs :
  send_chunks b64encode ip file_id env seqs f st = (ok, st', evs) ->
  st' = set_ack_received (ack_received st') st.
Proof.
  revert f st ok st' evs. induction seqs as [|seq seqs IH]; intros f st ok st' evs.
  - intros [= <- <- <-]. apply same_but_tracker_refl.
  - cbn [send_chunks]. destruct (take (Z.to_nat CHUNK_SIZE) f) eqn:Htake.
    { intros [= <- <- <-]. apply same_but_tracker_refl. }
    destruct (retry_loop _ _ _ _ _ _ st) as [[exit st1] evs1] eqn:Hloop.
    pose proof (retry_loop_frame _ _ _ _ _ _ _ _ _ _ Hloop) as Hst1.
    destruct (send_chunks _ _ _ _ seqs _ st1) as [[ok2 st2] evs2] eqn:Hrest.
    pose proof (same_but_tracker_trans _ _ _ Hst1 (IH _ _ _ _ _ Hrest)).
    destruct exit; by intros [= <- <- <-].
Qed.

(** The chunks [k], ..., [k + j - 1], each acknowledged at its first attempt,
    are sent once each; the loop goes on with the rest of the file. *)
Lemma send_chunks_acked_prefix ip file_id env content more j :
  forall k st,
    (forall i, (k <= i < k + j)%nat ->
       acked (file_id +:+ "-" +:+ Py.str (Z.of_nat i)) (env (Z.of_nat i) 1%nat)) ->
    (j <> O -> Z.to_nat CHUNK_SIZE * pred (k + j) < List.length content)%nat ->
    exists st1,
      st1 = set_ack_received (ack_received st1) st
      /\ send_chunks b64encode ip file_id env
           (app (Z.of_nat <$> List.seq k j) more)
           (drop (Z.to_nat CHUNK_SIZE * k) content) st
         = let '(ok, st2, evs2) :=
             send_chunks b64encode ip file_id env more
               (drop (Z.to_nat CHUNK_SIZE * (k + j)) content) st1 in
           (ok, st2,
            app (chunk_datagram_of b64encode ip file_id content <$> List.seq k j) evs2).
Proof.
  induction j as [|j IH]; intros k st Hacked Hlen.
  - exists st. split; [apply same_but_tracker_refl|]. rewrite Nat.add_0_r. simpl.
    by destruct (send_chunks _ _ _ _ more _ st) as [[? ?] ?].
  - cbn [List.seq fmap list_fmap app send_chunks].
    change (take (Z.to_nat CHUNK_SIZE) (drop (Z.to_nat CHUNK_SIZE * k) content))
      with (slice content k).
    pose proof (slice_nonempty content k) as Hnonempty.
    destruct (slice content k) as [|b data] eqn:Hslice; [exfalso; apply Hnonempty; [|done]|].
    { specialize (Hlen ltac:(done)).
      change (Z.to_nat CHUNK_SIZE) with 250%nat in *. lia. }
    destruct (retry_loop_acked_at_once CHUNK ip
                ("CHUNK " +:+ file_id +:+ " " +:+ Py.str (Z.of_nat k) +:+ " "
                 +:+ b64encode (b :: data))
                (file_id +:+ "-" +:+ Py.str (Z.of_nat k)) (env (Z.of_nat k)) st)
      as [st0 Hloop]; [apply Hacked; lia|].
    rewrite Hloop. pose proof (retry_loop_frame _ _ _ _ _ _ _ _ _ _ Hloop) as Hst0.
    rewrite drop_drop.
    replace (Z.to_nat CHUNK_SIZE * k + Z.to_nat CHUNK_SIZE)%nat
      with (Z.to_nat CHUNK_SIZE * S k)%nat by lia.
    destruct (IH (S k) st0) as (st1 & Hst1 & ->).
    { intros i Hrange. apply Hacked. lia. }
    { intros Hj. replace (pred (S k + j)) with (pred (k + S j)) by lia.
      by apply Hlen. }
    exists st1. split; [by eapply same_but_tracker_trans|].
    replace (S k + j)%nat with (k + S j)%nat by lia.
    destruct (send_chunks _ _ _ _ more _ st1) as [[ok st2] evs2].
    unfold chunk_datagram_of at 2, chunk_text. by rewrite Hslice.
Qed.

(** The run of a transfer all of whose operations are acknowledged at once. *)
Lemma transfer_file_all_acked target_device ip file_path env st content :
  files (disk st) !! file_path = Some content ->
  file_path ∉ unreadable (disk st) ->
  acked (generate_message_id (device_name st) (file_epoch env) (file_rnd env))
    (file_attempts env 1%nat) ->
  (forall i, (i < chunk_count content)%nat ->
     acked (generate_message_id (device_name st) (file_epoch env) (file_rnd env)
            +:+ "-" +:+ Py.str (Z.of_nat i))
       (chunk_attempts env (Z.of_nat i) 1%nat)) ->
  acked (generate_message_id (device_name st) (file_epoch env) (file_rnd env))
    (end_attempts env 1%nat) ->
  exists st',
    transfer_file sha256_hex b64encode target_device ip file_path env st
    = (true, st',
       Sendto ip UDP_PORT
         ("FILE " +:+ generate_message_id (device_name st) (file_epoch env) (file_rnd env)
          +:+ " " +:+ Py.basename file_path +:+ " "
          +:+ Py.str (Z.of_nat (List.length content)))
       :: app (chunk_datagram_of b64encode ip
                 (generate_message_id (device_name st) (file_epoch env) (file_rnd env))
                 content <$> List.seq 0 (chunk_count content))
            [Sendto ip UDP_PORT
               ("END " +:+ generate_message_id (device_name st) (file_epoch env)
                             (file_rnd env)
                +:+ " " +:+ sha256_hex content)])
    /\ List.concat (slice content <$> List.seq 0 (chunk_count content)) = content
    /\ st' = set_ack_received (ack_received st') st.
Proof.
  intros Hfile Hreadable Hfile_ack Hchunk_acks Hend_ack.
  set (file_id := generate_message_id _ _ _) in *.
  unfold transfer_file, announce_file. rewrite Hfile. fold file_id.
  destruct (retry_loop_acked_at_once FILE ip
              ("FILE " +:+ file_id +:+ " " +:+ Py.basename file_path +:+ " "
               +:+ Py.str (Z.of_nat (List.length content)))
              file_id (file_attempts env) st Hfile_ack) as [st1 Hloop].
  rewrite Hloop. pose proof (retry_loop_frame _ _ _ _ _ _ _ _ _ _ Hloop) as Hst1.
  assert (disk st1 = disk st) as Hdisk1 by (by rewrite Hst1).
  unfold read_rb. rewrite Hdisk1, decide_False, Hfile by done.
  destruct (chunk_count_bounds content) as [Hupper Hlower].
  destruct (send_chunks_acked_prefix ip file_id (chunk_attempts env) content []
              (chunk_count content) 0%nat st1) as (st2 & Hst2 & Hchunks).
  { intros i Hrange. apply Hchunk_acks. lia. }
  { intros Hcount. by apply Hlower. }
  rewrite Nat.mul_0_r, drop_0, app_nil_r in Hchunks.
  fold (chunk_count content). rewrite Hchunks. cbn [send_chunks].
  assert (disk st2 = disk st) as Hdisk2 by (by rewrite Hst2, <- Hdisk1).
  unfold calculate_file_hash, read_rb. rewrite Hdisk2, decide_False, Hfile by done.
  cbn [fmap option_fmap option_map]. unfold send_end.
  destruct (retry_loop_acked_at_once END ip
              ("END " +:+ file_id +:+ " " +:+ sha256_hex content)
              file_id (end_attempts env) st2 Hend_ack) as [st3 Hend].
  rewrite Hend. pose proof (retry_loop_frame _ _ _ _ _ _ _ _ _ _ Hend) as Hst3.
  exists st3. split; [by rewrite app_nil_r|]. split.
  - rewrite concat_slices, Nat.mul_0_r, drop_0. by apply take_ge.
  - eauto using same_but_tracker_trans.
Qed.

(** X16: when the FILE announcement, every chunk and END are acknowledged at
    their first attempt, [transfer_file] succeeds after sending FILE once,
    then one CHUNK datagram per chunk in ascending order, with sequence
    numbers 0 to ceil(size / CHUNK_SIZE) - 1, then END with the hash of the
    file; the payloads of the chunks, put end to end, are the file.  An
    empty file is sent as FILE and END alone. *)
Theorem transfer_succeeds_when_all_acked target_device ip file_path env st content :
  files (disk st) !! file_path = Some content ->
  file_path ∉ unreadable (disk st) ->
  acked (generate_message_id (device_name st) (file_epoch env) (file_rnd env))
    (file_attempts env 1%nat) ->
  (forall i, (i < chunk_count content)%nat ->
     acked (generate_message_id (device_name st) (file_epoch env) (file_rnd env)
            +:+ "-" +:+ Py.str (Z.of_nat i))
       (chunk_attempts env (Z.of_nat i) 1%nat)) ->
  acked (generate_message_id (device_name st) (file_epoch env) (file_rnd env))
    (end_attempts env 1%nat) ->
  exists st',
    transfer_file sha256_hex b64encode target_device ip file_path env st
    = (true, st',
       Sendto ip UDP_PORT
         ("FILE " +:+ generate_message_id (device_name st) (file_epoch env) (file_rnd env)
          +:+ " " +:+ Py.basename file_path +:+ " "
          +:+ Py.str (Z.of_nat (List.length content)))
       :: app (chunk_datagram_of b64encode ip
                 (generate_message_id (device_name st) (file_epoch env) (file_rnd env))
                 content <$> List.seq 0 (chunk_count content))
            [Sendto ip UDP_PORT
               ("END " +:+ generate_message_id (device_name st) (file_epoch env)
                             (file_rnd env)
                +:+ " " +:+ sha256_hex content)])
    /\ List.concat (slice content <$> List.seq 0 (chunk_count content)) = content
    /\ st' = set_ack_received (ack_received st') st.
Proof. apply transfer_file_all_acked. Qed.

(** X17: when chunk [j] gets no ACK in any of its attempts (its sends fail,
    its waits time out, or NACKs come back), the chunks before it having
    been acknowledged at once, [transfer_file] gives up after the
    MAX_RETRIES sends of that chunk: it reports failure and sends neither a
    later chunk nor END, nor anything that tells the receiver to drop the
    transfer. *)
Theorem transfer_stops_at_unanswered_chunk target_device ip file_path env st content j :
  files (disk st) !! file_path = Some content ->
  file_path ∉ unreadable (disk st) ->
  (j < chunk_count content)%nat ->
  acked (generate_message_id (device_name st) (file_epoch env) (file_rnd env))
    (file_attempts env 1%nat) ->
  (forall i, (i < j)%nat ->
     acked (generate_message_id (device_name st) (file_epoch env) (file_rnd env)
            +:+ "-" +:+ Py.str (Z.of_nat i))
       (chunk_attempts env (Z.of_nat i) 1%nat)) ->
  (forall attempt, (1 <= attempt <= MAX_RETRIES)%nat ->
     fruitless CHUNK
       (generate_message_id (device_name st) (file_epoch env) (file_rnd env)
        +:+ "-" +:+ Py.str (Z.of_nat j))
       (chunk_attempts env (Z.of_nat j) attempt)) ->
  exists st',
    transfer_file sha256_hex b64encode target_device ip file_path env st
    = (false, st',
       Sendto ip UDP_PORT
         ("FILE " +:+ generate_message_id (device_name st) (file_epoch env) (file_rnd env)
          +:+ " " +:+ Py.basename file_path +:+ " "
          +:+ Py.str (Z.of_nat (List.length content)))
       :: app (chunk_datagram_of b64encode ip
                 (generate_message_id (device_name st) (file_epoch env) (file_rnd env))
                 content <$> List.seq 0 j)
            (retries ip
               (chunk_text b64encode
                  (generate_message_id (device_name st) (file_epoch env) (file_rnd env))
                  content j)
               MAX_RETRIES)).
Proof.
  intros Hfile Hreadable Hj Hfile_ack Hchunk_acks Hfruitless.
  set (file_id := generate_message_id _ _ _) in *.
  unfold transfer_file, announce_file. rewrite Hfile. fold file_id.
  destruct (retry_loop_acked_at_once FILE ip
              ("FILE " +:+ file_id +:+ " " +:+ Py.basename file_path +:+ " "
               +:+ Py.str (Z.of_nat (List.length content)))
              file_id (file_attempts env) st Hfile_ack) as [st1 Hloop].
  rewrite Hloop. pose proof (retry_loop_frame _ _ _ _ _ _ _ _ _ _ Hloop) as Hst1.
  assert (disk st1 = disk st) as Hdisk1 by (by rewrite Hst1).
  unfold read_rb. rewrite Hdisk1, decide_False, Hfile by done.
  destruct (chunk_count_bounds content) as [Hupper Hlower].
  assert (Z.to_nat CHUNK_SIZE * j < List.length content)%nat as Hin.
  { specialize (Hlower ltac:(lia)).
    change (Z.to_nat CHUNK_SIZE) with 250%nat in *. lia. }
  fold (chunk_count content).
  replace (chunk_count content) with (j + S (chunk_count content - S j))%nat by lia.
  rewrite seq_app, fmap_app. change (0 + j)%nat with j.
  cbn [List.seq fmap list_fmap].
  destruct (send_chunks_acked_prefix ip file_id (chunk_attempts env) content
              (Z.of_nat j :: (Z.of_nat <$> List.seq (S j) (chunk_count content - S j)))
              j 0%nat st1) as (st2 & Hst2 & Hchunks).
  { intros i Hrange. apply Hchunk_acks. lia. }
  { intros Hcount. change (Z.to_nat CHUNK_SIZE) with 250%nat in *. lia. }
  rewrite Nat.mul_0_r, drop_0 in Hchunks. rewrite Hchunks.
  cbn [send_chunks Nat.add].
  change (take (Z.to_nat CHUNK_SIZE) (drop (Z.to_nat CHUNK_SIZE * j) content))
    with (slice content j).
  pose proof (slice_nonempty content j Hin) as Hnonempty.
  destruct (slice content j) as [|b data] eqn:Hslice; [done|].
  destruct (retry_loop_exhausts CHUNK ip
              ("CHUNK " +:+ file_id +:+ " " +:+ Py.str (Z.of_nat j) +:+ " "
               +:+ b64encode (b :: data))
              (file_id +:+ "-" +:+ Py.str (Z.of_nat j))
              (chunk_attempts env (Z.of_nat j)) MAX_RETRIES 1%nat st2)
    as [st3 Hexhausted]; [done|done|].
  rewrite Hexhausted. exists st3. unfold chunk_text. by rewrite Hslice.
Qed.

(** X18: the sending side writes nothing but the tracker: whatever the
    environment does, the state after [talk_to_device] or [transfer_file]
    differs from the state before in [ack_received] at most. *)
Theorem sender_changes_only_tracker st st' ok evs :
  (exists target_device content epoch rnd env,
     talk_to_device target_device content epoch rnd env st = (ok, st', evs))
  \/ (exists target_device ip file_path env,
        transfer_file sha256_hex b64encode target_device ip file_path env st
        = (ok, st', evs)) ->
  st' = set_ack_received (ack_received st') st.
Proof.
  intros [(target_device & content & epoch & rnd & env & Hrun)
         |(target_device & ip & file_path & env & Hrun)].
  - unfold talk_to_device in Hrun.
    destruct (dict_get _ _) as [[[ip ?] ?]|];
      [|injection Hrun as <- <- <-; apply same_but_tracker_refl].
    destruct (retry_loop _ _ _ _ _ _ st) as [[exit st1] evs1] eqn:Hloop.
    pose proof (retry_loop_frame _ _ _ _ _ _ _ _ _ _ Hloop).
    by destruct exit; injection Hrun as <- <- <-.
  - unfold transfer_file, announce_file, send_end in Hrun.
    destruct (files (disk st) !! file_path);
      [|injection Hrun as <- <- <-; apply same_but_tracker_refl].
    destruct (retry_loop FILE _ _ _ _ _ st) as [[exit1 st1] evs1] eqn:Hloop1.
    pose proof (retry_loop_frame _ _ _ _ _ _ _ _ _ _ Hloop1) as Hst1.
    destruct exit1; try (by injection Hrun as <- <- <-).
    destruct (read_rb _ _); [|by injection Hrun as <- <- <-].
    destruct (send_chunks _ _ _ _ _ _ st1) as [[ok2 st2] evs2] eqn:Hchunks.
    pose proof (same_but_tracker_trans _ _ _ Hst1
                  (send_chunks_frame _ _ _ _ _ _ _ _ _ Hchunks)) as Hst2.
    destruct ok2; [|by injection Hrun as <- <- <-].
    destruct (calculate_file_hash _ _); [|by injection Hrun as <- <- <-].
    destruct (retry_loop END _ _ _ _ _ st2) as [[exit3 st3] evs3] eqn:Hloop3.
    pose proof (same_but_tracker_trans _ _ _ Hst2
                  (retry_loop_frame _ _ _ _ _ _ _ _ _ _ Hloop3)) as Hst3.
    by destruct exit3; injection Hrun as <- <- <-.
Qed.

End Transfer.

(** * The sweeper *)

Lemma dict_get_Some_elem name v d : dict_get name d = Some v -> (name, v) ∈ d.
Proof.
  induction d as [|[name' v'] d IH]; [done|]. simpl.
  destruct (String.eqb name name') eqn:Heq.
  - apply String.eqb_eq in Heq as <-. intros [= ->]. by left.
  - intros ?. right. by apply IH.
Qed.

Lemma dict_get_None_keys name d : dict_get name d = None <-> name ∉ d.*1.
Proof.
  induction d as [|[name' v'] d IH]; csimpl.
  - split; [intros _; apply not_elem_of_nil|done].
  - rewrite not_elem_of_cons. destruct (String.eqb name name') eqn:Heq.
    + apply String.eqb_eq in Heq as <-. split; [done|]. by intros [? _].
    + apply String.eqb_neq in Heq. rewrite IH. by split; [|intros [_ ?]].
Qed.

Lemma dict_del_keys name d : (dict_del name d).*1 ⊆ d.*1.
Proof.
  induction d as [|[name' v'] d IH]; [done|]. csimpl.
  destruct (String.eqb name name'); csimpl; set_solver.
Qed.

Lemma dict_del_NoDup name d : NoDup d.*1 -> NoDup (dict_del name d).*1.
Proof.
  induction d as [|[name' v'] d IH]; [done|]. csimpl. intros [Hnotin Hnodup]%NoDup_cons.
  destruct (String.eqb name name'); [done|]. csimpl. apply NoDup_cons. split; [|auto].
  intros Hin. apply Hnotin. by apply (dict_del_keys name d).
Qed.

Lemma dict_get_del_eq name d : NoDup d.*1 -> dict_get name (dict_del name d) = None.
Proof.
  induction d as [|[name' v'] d IH]; [done|]. csimpl. intros [Hnotin Hnodup]%NoDup_cons.
  destruct (String.eqb name name') eqn:Heq; simpl.
  - apply String.eqb_eq in Heq as <-. by apply dict_get_None_keys.
  - rewrite Heq. auto.
Qed.

Lemma dict_get_del_ne name other d :
  other <> name -> dict_get other (dict_del name d) = dict_get other d.
Proof.
  intros Hne. induction d as [|[name' v'] d IH]; [done|]. simpl.
  destruct (String.eqb name name') eqn:Heq; simpl.
  - apply String.eqb_eq in Heq as <-. by apply String.eqb_neq in Hne as ->.
  - by rewrite IH.
Qed.

Lemma dict_set_NoDup name v d : NoDup d.*1 -> NoDup (dict_set name v d).*1.
Proof.
  intros Hnodup. rewrite dict_set_keys. case_decide; [done|].
  apply NoDup_app. split; [done|]. split; [|apply NoDup_singleton].
  intros x Hx ->%list_elem_of_singleton. done.
Qed.

Lemma evict_NoDup current_time devices_copy devices :
  NoDup devices.*1 -> NoDup (evict current_time devices_copy devices).*1.
Proof.
  unfold evict. revert devices.
  induction devices_copy as [|[name [[ip port] last_seen]] devices_copy IH];
    intros devices Hnodup; [done|].
  cbn [foldl]. case_match; auto using dict_del_NoDup.
Qed.

(** What the loop over the copy leaves of a registry with distinct names. *)
Lemma dict_get_evict current_time devices_copy :
  forall devices name,
    NoDup devices.*1 ->
    dict_get name (evict current_time devices_copy devices)
    = if decide (name ∈ expired_names current_time devices_copy) then None
      else dict_get name devices.
Proof.
  unfold evict, expired_names.
  induction devices_copy as [|[name' [[ip port] last_seen]] devices_copy IH];
    intros devices name Hnodup.
  - rewrite decide_False; [done|]. apply not_elem_of_nil.
  - cbn [foldl]. rewrite filter_cons. cbn beta. cbn [fst snd].
    destruct (Z.ltb_spec DEVICE_TIMEOUT (current_time - last_seen)) as [Hold|Hfresh].
    + rewrite (decide_True (P := DEVICE_TIMEOUT < _)) by done.
      rewrite IH by by apply dict_del_NoDup. csimpl.
      destruct (decide (name = name')) as [->|Hne].
      * rewrite (decide_True (P := name' ∈ name' :: _)) by by left.
        case_decide; [done|]. by apply dict_get_del_eq.
      * rewrite dict_get_del_ne by done.
        repeat case_decide; try done; set_solver.
    + rewrite (decide_False (P := DEVICE_TIMEOUT < _)) by lia. by apply IH.
Qed.

Lemma expired_names_elem current_time devices name ip port last_seen :
  dict_get name devices = Some (ip, port, last_seen) ->
  DEVICE_TIMEOUT < current_time - last_seen ->
  name ∈ expired_names current_time devices.
Proof.
  intros Hget%dict_get_Some_elem Hold. unfold expired_names.
  apply list_elem_of_fmap. exists (name, (ip, port, last_seen)). split; [done|].
  by apply list_elem_of_filter.
Qed.

Lemma expired_names_inv current_time devices name :
  NoDup devices.*1 ->
  name ∈ expired_names current_time devices ->
  exists ip port last_seen,
    dict_get name devices = Some (ip, port, last_seen)
    /\ DEVICE_TIMEOUT < current_time - last_seen.
Proof.
  unfold expired_names.
  intros Hnodup
    ([name' [[ip port] last_seen]] & -> & [Hold Hin]%list_elem_of_filter)%list_elem_of_fmap.
  exists ip, port, last_seen. split; [|done]. simpl in *. clear Hold.
  induction devices as [|[n v] devices IH]; [by apply elem_of_nil in Hin|].
  revert Hnodup. csimpl. intros [Hnotin Hnodup]%NoDup_cons.
  apply elem_of_cons in Hin as [[= <- <-]|Hin]; simpl.
  - by rewrite String.eqb_refl.
  - destruct (String.eqb name' n) eqn:Heq; [|auto].
    apply String.eqb_eq in Heq as <-. destruct Hnotin.
    apply list_elem_of_fmap. by exists (name', (ip, port, last_seen)).
Qed.

Section Sweeper_facts.

Variable sha256_hex : list byte -> string.
Variable b64decode : string -> option (list byte).

Lemma handle_message_registry_NoDup now message addr st c st' evs :
  NoDup (known_devices st).*1 ->
  handle_message sha256_hex b64decode now message addr st = (c, st', evs) ->
  NoDup (known_devices st').*1.
Proof.
  intros Hnodup. unfold handle_message. destruct addr as [ip port].
  destruct (Py.split message 3) as [|message_type fields]; [by intros [= <- <- <-]|].
  dispatch_cases; try (by intros [= <- <- <-]).
  - unfold on_heartbeat. case_match; intros [= <- <- <-]; [done|].
    by apply dict_set_NoDup.
  - unfold on_talk. case_decide; by intros [= <- <- <-].
  - unfold on_file. repeat case_match; by intros [= <- <- <-].
  - unfold on_chunk. repeat case_match; by intros [= <- <- <-].
  - unfold on_end, end_body. repeat case_match; simplify_eq; by intros [= <- <- <-].
Qed.

Lemma listen_registry_NoDup inbox st st' evs :
  NoDup (known_devices st).*1 ->
  listen_for_messages sha256_hex b64decode inbox st = (st', evs) ->
  NoDup (known_devices st').*1.
Proof.
  revert st evs. induction inbox as [|[[now data] addr] inbox IH];
    intros st evs Hnodup; simpl.
  - by intros [= <- <-].
  - destruct (handle_message _ _ _ _ _ st) as [[c st1] evs1] eqn:Hstep.
    destruct (listen_for_messages _ _ inbox st1) as [st2 evs2] eqn:Hrest.
    intros [= <- <-]. eapply IH; [|done]. by eapply handle_message_registry_NoDup.
Qed.

(** X19: a turn of the sweeper during which no datagram comes in removes
    from the registry exactly the devices last seen more than DEVICE_TIMEOUT
    before the clock reading; a device seen exactly DEVICE_TIMEOUT before
    stays.  Every other entry, and the rest of the state, is as before. *)
Theorem sweeper_removes_the_silent_devices current_time st :
  NoDup (known_devices st).*1 ->
  exists devices',
    clean_inactive_devices sha256_hex b64decode current_time [] st
    = (set_known_devices devices' st, [Sleep 1])
    /\ NoDup devices'.*1
    /\ forall name,
         dict_get name devices'
         = match dict_get name (known_devices st) with
           | Some (ip, port, last_seen) =>
               if DEVICE_TIMEOUT <? current_time - last_seen then None
               else Some (ip, port, last_seen)
           | None => None
           end.
Proof.
  intros Hnodup. eexists. split; [reflexivity|]. split.
  - by apply evict_NoDup.
  - intros name. rewrite dict_get_evict by done.
    destruct (dict_get name (known_devices st)) as [[[ip port] last_seen]|] eqn:Hget.
    + destruct (Z.ltb_spec DEVICE_TIMEOUT (current_time - last_seen)) as [Hold|Hfresh].
      * rewrite decide_True; [done|]. by eapply expired_names_elem.
      * rewrite decide_False; [done|].
        intros (ip' & port' & seen' & Hget' & Hold)%expired_names_inv; [|done].
        rewrite Hget in Hget'. injection Hget' as <- <- <-. lia.
    + by case_decide.
Qed.

(** X20: the sweeper judges the copy it took, not the registry.  A device
    that the copy shows as silent for too long is removed even when one of
    its HEARTBEATs is handled between the copy and the deletion: the fresh
    entry is deleted by name. *)
Theorem refreshed_device_is_still_removed current_time now data addr st
    name rest ip port last_seen :
  NoDup (known_devices st).*1 ->
  dict_get name (known_devices st) = Some (ip, port, last_seen) ->
  DEVICE_TIMEOUT < current_time - last_seen ->
  Py.split (Py.strip data) 3 = "HEARTBEAT" :: name :: rest ->
  name <> device_name st ->
  dict_get name
    (known_devices
       (listen_for_messages sha256_hex b64decode [(now, data, addr)] st).1)
  = Some (addr.1, addr.2, now)
  /\ dict_get name
       (known_devices
          (clean_inactive_devices sha256_hex b64decode current_time
             [(now, data, addr)] st).1)
     = None.
Proof.
  intros Hnodup Hget Hold Hsplit Hself. unfold clean_inactive_devices.
  destruct addr as [ip' port'].
  destruct (listen_for_messages _ _ _ st) as [st1 evs1] eqn:Hlisten.
  pose proof (listen_registry_NoDup _ _ _ _ Hnodup Hlisten) as Hnodup1.
  cbn [fst known_devices set_known_devices]. split.
  - cbn [listen_for_messages] in Hlisten.
    rewrite (dispatch_heartbeat _ _ _ _ _ _ _ _ _ Hsplit) in Hlisten.
    unfold on_heartbeat in Hlisten. apply String.eqb_neq in Hself.
    rewrite Hself in Hlisten. injection Hlisten as <- _. cbn.
    apply dict_get_set_eq.
  - rewrite dict_get_evict by done. rewrite decide_True; [done|].
    by eapply expired_names_elem.
Qed.

End Sweeper_facts.

(** * Text on the wire *)

Lemma no_space_cons c w :
  no_space (String c w) = true <-> Py.isspace c = false /\ no_space w = true.
Proof.
  unfold no_space. simpl. rewrite andb_true_iff, negb_true_iff. done.
Qed.

Lemma is_word_no_space w : is_word w = true -> no_space w = true.
Proof. by destruct w. Qed.

Lemma in_word_field n w sp rest :
  no_space w = true ->
  Py.isspace sp = true ->
  Py.in_word n (w +:+ String sp rest) = (w, Py.split_from n rest).
Proof.
  intros Hw Hsp. induction w as [|c w IH]; simpl.
  - by rewrite Hsp.
  - apply no_space_cons in Hw as [-> Hw]. by rewrite IH.
Qed.

Lemma in_word_last n w : no_space w = true -> Py.in_word n w = (w, []).
Proof.
  intros Hw. induction w as [|c w IH]; simpl; [done|].
  apply no_space_cons in Hw as [-> Hw]. by rewrite IH.
Qed.

(** A word followed by white space is the next field. *)
Lemma split_from_field n w sp rest :
  is_word w = true ->
  Py.isspace sp = true ->
  Py.split_from (S n) (w +:+ String sp rest) = w :: Py.split_from n rest.
Proof.
  destruct w as [|c w]; [done|]. intros [Hc Hw]%no_space_cons Hsp. simpl.
  by rewrite Hc, in_word_field.
Qed.

(** A word at the end of the text is the last field. *)
Lemma split_from_last n w : is_word w = true -> Py.split_from (S n) w = [w].
Proof.
  destruct w as [|c w]; [done|]. intros [Hc Hw]%no_space_cons. simpl.
  by rewrite Hc, in_word_last.
Qed.

(** Once the splits are used up, what is left is one field. *)
Lemma split_from_rest s : s <> "" -> Py.lstrip s = s -> Py.split_from 0 s = [s].
Proof.
  destruct s as [|c s]; [done|]. intros _. simpl.
  destruct (Py.isspace c) eqn:Hc; [|done].
  intros Hstrip. exfalso. apply (f_equal String.length) in Hstrip. simpl in Hstrip.
  assert (forall t, String.length (Py.lstrip t) <= String.length t)%nat as Hle.
  { clear. induction t as [|a t IH]; simpl; [done|]. destruct (Py.isspace a); simpl; lia. }
  specialize (Hle s). lia.
Qed.

Lemma rev_app_rev_app s1 s2 s3 :
  String.rev_app (String.rev_app s1 s2) s3 = String.rev_app s2 (s1 +:+ s3).
Proof.
  revert s2 s3. induction s1 as [|a s1 IH]; intros s2 s3; simpl; [done|].
  by rewrite IH.
Qed.

Lemma append_nil_r s : s +:+ "" = s.
Proof. induction s as [|a s IH]; [done|]. rewrite <- IH at 2. reflexivity. Qed.

Lemma rev_rev s : String.rev (String.rev s) = s.
Proof. unfold String.rev. by rewrite rev_app_rev_app, append_nil_r. Qed.

Lemma rev_app_append s1 s2 s3 :
  String.rev_app (s1 +:+ s2) s3 = String.rev_app s2 (String.rev_app s1 s3).
Proof. revert s3. induction s1 as [|a s1 IH]; intros s3; simpl; [done|]. by rewrite IH. Qed.

Lemma append_assoc s t u : (s +:+ t) +:+ u = s +:+ (t +:+ u).
Proof.
  induction s as [|a s IH]; [done|].
  change (String a ((s +:+ t) +:+ u) = String a (s +:+ (t +:+ u))). by rewrite IH.
Qed.

Lemma rev_app_as_append s1 s2 : String.rev_app s1 s2 = String.rev s1 +:+ s2.
Proof.
  unfold String.rev. revert s2. induction s1 as [|a s1 IH]; intros s2; simpl; [done|].
  by rewrite IH, (IH (String a "")), append_assoc.
Qed.

Lemma lstrip_append s t : s <> "" -> Py.lstrip s = s -> Py.lstrip (s +:+ t) = s +:+ t.
Proof.
  destruct s as [|c s]; [done|]. intros _. simpl.
  destruct (Py.isspace c) eqn:Hc; [|done].
  intros Hstrip. exfalso. apply (f_equal String.length) in Hstrip. simpl in Hstrip.
  assert (forall t, String.length (Py.lstrip t) <= String.length t)%nat as Hle.
  { clear. induction t as [|a t IH]; simpl; [done|]. destruct (Py.isspace a); simpl; lia. }
  specialize (Hle s). lia.
Qed.

Lemma rev_nonempty s : s <> "" -> String.rev s <> "".
Proof. intros Hs Hrev. apply Hs. by rewrite <- (rev_rev s), Hrev. Qed.

(** [strip] leaves a trimmed text alone. *)
Lemma strip_trimmed s : trimmed s -> Py.strip s = s.
Proof. intros (_ & Hl & Hr). unfold Py.strip. by rewrite Hl, Hr, rev_rev. Qed.

(** A text that starts like a trimmed text and ends with one is trimmed. *)
Lemma trimmed_append s t :
  s <> "" -> Py.lstrip s = s -> trimmed t -> trimmed (s +:+ t).
Proof.
  intros Hs Hl (Ht & _ & Hr). split; [by destruct s|]. split; [by apply lstrip_append|].
  unfold String.rev. rewrite rev_app_append, rev_app_as_append.
  apply lstrip_append; [by apply rev_nonempty|done].
Qed.

Lemma no_space_rev_app s1 s2 :
  no_space s1 = true -> no_space s2 = true -> no_space (String.rev_app s1 s2) = true.
Proof.
  revert s2. induction s1 as [|a s1 IH]; intros s2 H1 H2; simpl; [done|].
  apply no_space_cons in H1 as [Ha H1]. apply IH; [done|]. by apply no_space_cons.
Qed.

Lemma lstrip_no_space s : no_space s = true -> Py.lstrip s = s.
Proof. destruct s as [|c s]; [done|]. intros [Hc _]%no_space_cons. simpl. by rewrite Hc. Qed.

Lemma word_trimmed w : is_word w = true -> trimmed w.
Proof.
  intros Hw. pose proof (is_word_no_space w Hw) as Hns.
  split; [by destruct w|]. split; [by apply lstrip_no_space|].
  apply lstrip_no_space. by apply no_space_rev_app.
Qed.

(** ** Numbers on the wire *)

Lemma pretty_N_char_digit d :
  (d < 10)%N ->
  Py.digit (pretty_N_char d) = Some (Z.of_N d)
  /\ Ascii.eqb (pretty_N_char d) "_" = false
  /\ Py.isspace (pretty_N_char d) = false
  /\ pretty_N_char d <> "-"%char
  /\ pretty_N_char d <> "+"%char.
Proof.
  intros Hd.
  assert (d = 0 \/ d = 1 \/ d = 2 \/ d = 3 \/ d = 4 \/ d = 5 \/ d = 6 \/ d = 7
          \/ d = 8 \/ d = 9)%N as Hcases by lia.
  repeat (destruct Hcases as [->|Hcases]; [done|]). by subst.
Qed.

(** Reading the decimal digits of [x] from the left shifts the accumulator
    and adds [x]. *)
Lemma digits_pretty_N_go x :
  (0 < x)%N ->
  forall s, exists k : nat, forall acc after_digit,
    Py.digits acc after_digit (pretty_N_go x s)
    = Py.digits (acc * 10 ^ Z.of_nat k + Z.of_N x) true s.
Proof.
  induction (N.lt_wf_0 x) as [x _ IH]. intros Hx s.
  rewrite pretty_N_go_step by done.
  destruct (pretty_N_char_digit (x `mod` 10)%N) as (Hdigit & Hunder & _);
    [by apply N.mod_lt|].
  destruct (decide (x `div` 10 = 0)%N) as [Hsmall|Hbig].
  - exists 1%nat. intros acc after_digit. rewrite Hsmall, pretty_N_go_0.
    cbn [Py.digits]. rewrite Hunder, Hdigit. f_equal.
    rewrite N.mod_small by (by apply N.div_small_iff).
    change (10 ^ Z.of_nat 1) with 10. ring.
  - destruct (IH (x `div` 10)%N) with (s := String (pretty_N_char (x `mod` 10)) s)
      as [k Hk]; [apply N.div_lt; lia|by apply N.neq_0_lt_0|].
    exists (S k). intros acc after_digit. rewrite Hk.
    cbn [Py.digits]. rewrite Hunder, Hdigit. f_equal.
    rewrite Nat2Z.inj_succ, Z.pow_succ_r by lia.
    rewrite (N.div_mod x 10) at 3 by done. rewrite N2Z.inj_add, N2Z.inj_mul.
    change (Z.of_N 10) with 10.
    ring.
Qed.

(** The decimal text of a positive number starts with a digit and holds no
    white space. *)
Lemma pretty_N_go_shape x :
  (0 < x)%N ->
  forall s, no_space s = true ->
    no_space (pretty_N_go x s) = true
    /\ exists d rest, (d < 10)%N /\ pretty_N_go x s = String (pretty_N_char d) rest.
Proof.
  induction (N.lt_wf_0 x) as [x _ IH]. intros Hx s Hs.
  rewrite pretty_N_go_step by done.
  destruct (pretty_N_char_digit (x `mod` 10)%N) as (_ & _ & Hspace & _);
    [by apply N.mod_lt|].
  assert (no_space (String (pretty_N_char (x `mod` 10)) s) = true) as Hs'
    by by apply no_space_cons.
  destruct (decide (x `div` 10 = 0)%N) as [Hsmall|Hbig].
  - rewrite Hsmall, pretty_N_go_0. split; [done|].
    exists (x `mod` 10)%N, s. split; [by apply N.mod_lt|done].
  - apply IH; [apply N.div_lt; lia|by apply N.neq_0_lt_0|done].
Qed.

Lemma int_space_isspace c : Py.isspace c = false -> Py.int_space c = false.
Proof. destruct c as [[] [] [] [] [] [] [] []]; vm_compute; intros; by try discriminate. Qed.

(** [int] takes nothing off a text that [strip] leaves alone. *)
Lemma lstrip_int_trimmed s : s <> "" -> Py.lstrip s = s -> Py.lstrip_int s = s.
Proof.
  destruct s as [|c s]; [done|]. intros _. simpl.
  destruct (Py.isspace c) eqn:Hc; [|by rewrite (int_space_isspace c Hc)].
  intros Hstrip. exfalso. apply (f_equal String.length) in Hstrip. simpl in Hstrip.
  assert (forall t, String.length (Py.lstrip t) <= String.length t)%nat as Hle.
  { clear. induction t as [|a t IH]; simpl; [done|]. destruct (Py.isspace a); simpl; lia. }
  specialize (Hle s). lia.
Qed.

Lemma strip_int_trimmed s : trimmed s -> Py.strip_int s = s.
Proof.
  intros (Hs & Hl & Hr). unfold Py.strip_int.
  rewrite (lstrip_int_trimmed s Hs Hl).
  rewrite (lstrip_int_trimmed _ (rev_nonempty s Hs) Hr). apply rev_rev.
Qed.

Lemma int_unsigned t c rest :
  t = String c rest ->
  no_space t = true ->
  c <> "-"%char -> c <> "+"%char ->
  Py.int t = Py.number t.
Proof.
  intros -> Hns Hminus Hplus. unfold Py.int.
  rewrite (strip_int_trimmed (String c rest)) by by apply word_trimmed.
  destruct c as [[] [] [] [] [] [] [] []]; done.
Qed.

(** A number below a power of ten has no more digits than the exponent. *)
Lemma digit_count_pretty_N_go k :
  forall x s,
    Z.of_N x < 10 ^ Z.of_nat k ->
    (Py.digit_count (pretty_N_go x s) <= k + Py.digit_count s)%nat.
Proof.
  induction k as [|k IH]; intros x s Hx.
  - change (10 ^ Z.of_nat 0) with 1 in Hx. assert (x = 0%N) as -> by lia.
    by rewrite pretty_N_go_0.
  - destruct (decide (x = 0)%N) as [->|Hpos]; [rewrite pretty_N_go_0; lia|].
    rewrite pretty_N_go_step by lia.
    destruct (pretty_N_char_digit (x `mod` 10)%N) as (Hdigit & _); [by apply N.mod_lt|].
    etrans; [apply IH|].
    + rewrite N2Z.inj_div. change (Z.of_N 10) with 10.
      apply Z.div_lt_upper_bound; [lia|].
      rewrite Nat2Z.inj_succ, Z.pow_succ_r in Hx by lia. lia.
    + cbn [Py.digit_count]. rewrite Hdigit. lia.
Qed.

Lemma str_pos_no_space p : no_space (Py.str (Z.pos p)) = true.
Proof.
  unfold Py.str, pretty, pretty_Z, pretty, pretty_positive, pretty, pretty_N.
  rewrite decide_False by done.
  by destruct (pretty_N_go_shape (N.pos p) ltac:(done) "" eq_refl) as [Hns _].
Qed.

Lemma str_pos p :
  Z.pos p < Py.INT_LIMIT -> Py.int (Py.str (Z.pos p)) = Some (Z.pos p).
Proof.
  intros Hfits. pose proof (str_pos_no_space p) as Hns. revert Hns.
  unfold Py.str, pretty, pretty_Z, pretty, pretty_positive, pretty, pretty_N.
  rewrite decide_False by done. intros Hns.
  destruct (pretty_N_go_shape (N.pos p) ltac:(done) "" eq_refl)
    as (_ & d & rest & Hd & Hshape).
  destruct (pretty_N_char_digit d Hd) as (_ & _ & _ & Hminus & Hplus).
  rewrite (int_unsigned _ _ _ Hshape Hns Hminus Hplus). unfold Py.number.
  pose proof (digit_count_pretty_N_go Py.MAX_STR_DIGITS (N.pos p) "" Hfits) as Hcount.
  cbn [Py.digit_count] in Hcount. rewrite Nat.add_0_r in Hcount.
  apply Nat.ltb_ge in Hcount. rewrite Hcount.
  destruct (digits_pretty_N_go (N.pos p) ltac:(done) "") as [k ->]. done.
Qed.

(** [str(n)] is a single word. *)
Lemma str_is_word n : is_word (Py.str n) = true.
Proof.
  destruct n as [|p|p].
  - done.
  - pose proof (str_pos_no_space p) as Hns. revert Hns.
    unfold Py.str, pretty, pretty_Z, pretty, pretty_positive, pretty, pretty_N.
    rewrite decide_False by done. intros Hns.
    destruct (pretty_N_go_shape (N.pos p) ltac:(done) "" eq_refl)
      as (_ & d & rest & _ & Hshape).
    rewrite Hshape in *. done.
  - pose proof (str_pos_no_space p) as Hns.
    unfold Py.str, pretty, pretty_Z in *.
    change ("-" +:+ pretty p) with (String "-" (pretty p)).
    by apply no_space_cons.
Qed.

(** [int(str(n))] is [n] for every integer that [str] writes, negative ones
    included: the sizes and sequence numbers that the sender writes are
    read back as they were. *)
Lemma str_read_back n : Z.abs n < Py.INT_LIMIT -> Py.int (Py.str n) = Some n.
Proof.
  destruct n as [|p|p]; intros Hfits.
  - done.
  - by apply str_pos.
  - pose proof (str_pos p ltac:(lia)) as Hint. clear Hfits.
    pose proof (str_pos_no_space p) as Hns.
    unfold Py.str, pretty, pretty_Z in *.
    change ("-" +:+ pretty p) with (String "-" (pretty p)).
    unfold Py.int.
    rewrite (strip_int_trimmed (String "-" (pretty p)))
      by (apply word_trimmed; by apply no_space_cons).
    destruct (pretty_N_go_shape (N.pos p) ltac:(done) "" eq_refl)
      as (_ & d & rest & Hd & Hshape).
    destruct (pretty_N_char_digit d Hd) as (_ & _ & _ & Hminus & Hplus).
    unfold pretty, pretty_positive, pretty, pretty_N in *.
    rewrite decide_False in * by done.
    rewrite <- (int_unsigned _ _ _ Hshape Hns Hminus Hplus), Hint. done.
Qed.

(** The text of [k] nines is read as [10 ^ k - 1], up to [MAX_STR_DIGITS]
    nines. *)
Lemma digits_nines k :
  forall acc, Py.digits acc true (nines k) = Some ((acc + 1) * 10 ^ Z.of_nat k - 1).
Proof.
  induction k as [|k IH]; intros acc.
  - cbn. f_equal. lia.
  - change (nines (S k)) with (String "9" (nines k)). cbn [Py.digits].
    change (Ascii.eqb "9" "_") with false. change (Py.digit "9") with (Some 9).
    cbn iota. rewrite IH. f_equal. rewrite Nat2Z.inj_succ, Z.pow_succ_r by lia. ring.
Qed.

Lemma nines_shape k : Py.digit_count (nines k) = k /\ no_space (nines k) = true.
Proof.
  induction k as [|k [IHcount IHspace]]; [done|].
  change (nines (S k)) with (String "9" (nines k)). split.
  - cbn [Py.digit_count]. change (Py.digit "9") with (Some 9). by rewrite IHcount.
  - by apply no_space_cons.
Qed.

Lemma int_nines_upto k :
  (0 < k <= Py.MAX_STR_DIGITS)%nat -> Py.int (nines k) = Some (10 ^ Z.of_nat k - 1).
Proof.
  intros [Hpos Hk]. destruct (nines_shape k) as [Hcount Hspace].
  destruct k as [|k]; [lia|].
  change (nines (S k)) with (String "9" (nines k)) in *.
  rewrite (int_unsigned _ "9" (nines k)) by done. unfold Py.number.
  rewrite Hcount. apply Nat.ltb_ge in Hk. rewrite Hk.
  change (Py.digits 0 false (String "9" (nines k))) with (Py.digits 9 true (nines k)).
  rewrite digits_nines. f_equal. rewrite Nat2Z.inj_succ, Z.pow_succ_r by lia. ring.
Qed.

Lemma int_nines : Py.int (nines Py.MAX_STR_DIGITS) = Some (Py.INT_LIMIT - 1).
Proof.
  apply int_nines_upto. split; [apply Nat.lt_0_succ|apply Nat.le_refl].
Qed.

Lemma no_space_append s t : no_space (s +:+ t) = no_space s && no_space t.
Proof.
  induction s as [|c s IH]; [done|].
  change (String c s +:+ t) with (String c (s +:+ t)).
  unfold no_space in *. simpl. by rewrite IH, andb_assoc.
Qed.

Lemma is_word_append s t : is_word s = true -> no_space t = true -> is_word (s +:+ t) = true.
Proof.
  destruct s as [|c s]; [done|]. intros Hs Ht.
  change (no_space (String c s +:+ t) = true). rewrite no_space_append.
  by rewrite (is_word_no_space _ Hs), Ht.
Qed.

(** The id drawn by a device whose name is one word is one word. *)
Lemma message_id_word name epoch rnd :
  is_word name = true -> is_word (generate_message_id name epoch rnd) = true.
Proof.
  intros Hname. unfold generate_message_id.
  apply is_word_append; [done|].
  change ("-" +:+ Py.str epoch +:+ "-" +:+ Py.str rnd)
    with (String "-" (Py.str epoch +:+ String "-" (Py.str rnd))).
  apply no_space_cons. split; [done|]. rewrite no_space_append.
  rewrite (is_word_no_space _ (str_is_word epoch)).
  apply no_space_cons. split; [done|].
  apply is_word_no_space, str_is_word.
Qed.

(** The fields of the datagrams that carry one-word ids. *)
Lemma split_heartbeat name :
  is_word name = true -> Py.split ("HEARTBEAT " +:+ name) 3 = ["HEARTBEAT"; name].
Proof.
  intros Hname. unfold Py.split.
  change ("HEARTBEAT " +:+ name) with ("HEARTBEAT" +:+ String " " name).
  rewrite split_from_field by done. by rewrite split_from_last.
Qed.

Lemma split_ack ack_id :
  is_word ack_id = true -> Py.split ("ACK " +:+ ack_id) 3 = ["ACK"; ack_id].
Proof.
  intros Hid. unfold Py.split.
  change ("ACK " +:+ ack_id) with ("ACK" +:+ String " " ack_id).
  rewrite split_from_field by done. by rewrite split_from_last.
Qed.

Lemma split_talk_text message_id content :
  is_word message_id = true ->
  Py.split ("TALK " +:+ message_id +:+ " " +:+ content) 3
  = "TALK" :: message_id :: Py.split content 1.
Proof.
  intros Hid. unfold Py.split.
  change ("TALK " +:+ message_id +:+ " " +:+ content)
    with ("TALK" +:+ String " " (message_id +:+ String " " content)).
  rewrite split_from_field by done. by rewrite split_from_field.
Qed.

(** Every retry loop starts by sending its datagram. *)
Lemma retry_loop_first_send kind ip message ack_id env attempt attempts st :
  exists evs,
    (retry_loop kind ip message ack_id env (attempt :: attempts) st).2
    = Sendto ip UDP_PORT message :: evs.
Proof.
  cbn [retry_loop send_message_to_ip].
  destruct (if network_ok (env attempt) then _ else _) as [result st1].
  destruct (retry_loop kind ip message ack_id env attempts st1) as [[exit st2] evs2].
  destruct result as [[|]|], kind, (attempt <? MAX_RETRIES)%nat; simpl; eauto.
Qed.

Lemma rev_append s t : String.rev (s +:+ t) = String.rev t +:+ String.rev s.
Proof. unfold String.rev. by rewrite rev_app_append, rev_app_as_append. Qed.

(** White space at the end of a text is a matter of its last part only. *)
Lemma rtrimmed_append s t :
  t <> "" ->
  Py.lstrip (String.rev t) = String.rev t ->
  Py.lstrip (String.rev (s +:+ t)) = String.rev (s +:+ t).
Proof.
  intros Ht Hr. rewrite rev_append. apply lstrip_append; [by apply rev_nonempty|done].
Qed.

Lemma word_nonempty w : is_word w = true -> w <> "".
Proof. by destruct w. Qed.

Lemma word_rtrimmed w : is_word w = true -> Py.lstrip (String.rev w) = String.rev w.
Proof. intros Hw. by destruct (word_trimmed w Hw) as (_ & _ & ?). Qed.

Lemma append_nonempty_r s t : t <> "" -> s +:+ t <> "".
Proof. destruct s; [done|]. by intros _. Qed.

Lemma rtrimmed_cons c s :
  s <> "" ->
  Py.lstrip (String.rev s) = String.rev s ->
  Py.lstrip (String.rev (String c s)) = String.rev (String c s).
Proof. change (String c s) with (String c "" +:+ s). apply rtrimmed_append. Qed.

(** A text put together from parts is not empty when its last part is not,
    and ends as its last part ends. *)
Ltac nonempty :=
  repeat (apply append_nonempty_r); first [done | by apply word_nonempty].

Ltac ends_trimmed :=
  repeat first [apply rtrimmed_cons; [nonempty|] | apply rtrimmed_append; [nonempty|]];
  first [done | by apply word_rtrimmed].

Section Round_trips.

Variable sha256_hex : list byte -> string.
Variable b64decode : string -> option (list byte).

(** X21: the round trip of a TALK between two devices, the sender's name
    being one word and the text not ending in white space (the command loop
    hands over a part of a stripped line).  [talk_to_device] first sends
    TALK <id> <text>; the receiver's listener, which has not seen the id,
    shows the first word of the text only (the split stops after three
    fields and the text is the third), and answers ACK <id>; that ACK,
    handled by the sender's listener, puts Positive under the very id the
    sender waits for. *)
Theorem talk_round_trip target_device content epoch rnd env sender
    ip_to port_to seen now ip_from port_from receiver shown more now' addr' :
  is_word (device_name sender) = true ->
  dict_get target_device (known_devices sender) = Some (ip_to, port_to, seen) ->
  Py.split content 1 = shown :: more ->
  Py.lstrip (String.rev content) = String.rev content ->
  generate_message_id (device_name sender) epoch rnd ∉ received_ids receiver ->
  exists datagram evs receiver' sender',
    (talk_to_device target_device content epoch rnd env sender).2
    = Sendto ip_to UDP_PORT datagram :: evs
    /\ listen_for_messages sha256_hex b64decode
         [(now, datagram, (ip_from, port_from))] receiver
       = (receiver',
          [NewMessage (sender_of ip_from (known_devices receiver)) shown;
           Sendto ip_from UDP_PORT
             ("ACK " +:+ generate_message_id (device_name sender) epoch rnd)])
    /\ listen_for_messages sha256_hex b64decode
         [(now', "ACK " +:+ generate_message_id (device_name sender) epoch rnd, addr')]
         sender
       = (sender', [])
    /\ ack_received sender' !! generate_message_id (device_name sender) epoch rnd
       = Some true.
Proof.
  intros Hname Hknown Hcontent Hend Hnew.
  pose proof (message_id_word _ epoch rnd Hname) as Hid.
  set (message_id := generate_message_id (device_name sender) epoch rnd) in *.
  assert (content <> "") as Hnonempty by (by intros ->).
  assert (Py.strip ("TALK " +:+ message_id +:+ " " +:+ content)
          = "TALK " +:+ message_id +:+ " " +:+ content) as Htalk.
  { apply strip_trimmed. split; [done|]. split; [done|].
    repeat (apply rtrimmed_append; [by auto using append_nonempty_r|]). done. }
  assert (Py.strip ("ACK " +:+ message_id) = "ACK " +:+ message_id) as Hack.
  { apply strip_trimmed, trimmed_append; [done|done|by apply word_trimmed]. }
  exists ("TALK " +:+ message_id +:+ " " +:+ content).
  destruct (retry_loop_first_send TALK ip_to
              ("TALK " +:+ message_id +:+ " " +:+ content) message_id env
              1%nat (List.seq 2 (pred MAX_RETRIES)) sender) as [evs Hevs].
  exists evs. eexists. eexists. split; [|split; [|split]].
  - unfold talk_to_device. rewrite Hknown. fold message_id.
    change (List.seq 1 MAX_RETRIES) with (1%nat :: List.seq 2 (pred MAX_RETRIES)).
    destruct (retry_loop _ _ _ _ _ _ sender) as [[[] st'] evs']; exact Hevs.
  - cbn [listen_for_messages]. rewrite Htalk.
    rewrite (dispatch_talk sha256_hex b64decode now _ ip_from port_from receiver
               message_id shown more)
      by (by rewrite split_talk_text, Hcontent).
    unfold on_talk. rewrite decide_False by done. reflexivity.
  - destruct addr' as [ip' port']. cbn [listen_for_messages]. rewrite Hack.
    rewrite (dispatch_ack sha256_hex b64decode now' _ ip' port' sender message_id [])
      by (by apply split_ack).
    reflexivity.
  - cbn. apply lookup_insert_eq.
Qed.

(** X22: the round trip of a HEARTBEAT, the sender's name being one word.
    Each turn of [send_heartbeat] broadcasts HEARTBEAT <name> and sleeps
    HEARTBEAT_INTERVAL, or one second when the send raised; a device of
    another name that receives the datagram registers the sender under its
    name with the source address and the time of arrival; the sender, which
    receives its own broadcast too, ignores it. *)
Theorem heartbeat_round_trip ok sender receiver now ip port :
  is_word (device_name sender) = true ->
  device_name receiver <> device_name sender ->
  exists datagram receiver',
    send_heartbeat [ok] sender
    = [Sendto BROADCAST_ADDR UDP_PORT datagram;
       Sleep (if ok then HEARTBEAT_INTERVAL else 1)]
    /\ listen_for_messages sha256_hex b64decode [(now, datagram, (ip, port))] receiver
       = (receiver', [])
    /\ dict_get (device_name sender) (known_devices receiver') = Some (ip, port, now)
    /\ listen_for_messages sha256_hex b64decode [(now, datagram, (ip, port))] sender
       = (sender, []).
Proof.
  intros Hname Hother.
  exists ("HEARTBEAT " +:+ device_name sender). eexists.
  assert (Py.strip ("HEARTBEAT " +:+ device_name sender)
          = "HEARTBEAT " +:+ device_name sender) as Hstrip.
  { apply strip_trimmed, trimmed_append; [done|done|by apply word_trimmed]. }
  split; [reflexivity|]. cbn [listen_for_messages]. rewrite Hstrip.
  rewrite !(dispatch_heartbeat sha256_hex b64decode now _ ip port _
              (device_name sender) []) by (by apply split_heartbeat).
  unfold on_heartbeat. rewrite String.eqb_refl.
  assert (String.eqb (device_name sender) (device_name receiver) = false) as ->
    by (by apply String.eqb_neq).
  split; [reflexivity|]. split; [|done]. cbn. apply dict_get_set_eq.
Qed.

End Round_trips.

(** ** The texts of a transfer *)

Lemma file_text_fields file_id file_name size :
  is_word file_id = true ->
  is_word file_name = true ->
  Py.split (Py.strip ("FILE " +:+ file_id +:+ " " +:+ file_name +:+ " " +:+ Py.str size)) 3
  = ["FILE"; file_id; file_name; Py.str size].
Proof.
  intros Hid Hname. pose proof (str_is_word size) as Hsize.
  rewrite strip_trimmed.
  - unfold Py.split.
    change ("FILE " +:+ file_id +:+ " " +:+ file_name +:+ " " +:+ Py.str size)
      with ("FILE" +:+ String " " (file_id +:+ String " "
              (file_name +:+ String " " (Py.str size)))).
    rewrite !split_from_field by done.
    rewrite split_from_rest; [done|by apply word_nonempty|].
    by apply lstrip_no_space, is_word_no_space.
  - split; [done|]. split; [done|].
    repeat (apply rtrimmed_append; [by auto using append_nonempty_r, word_nonempty|]).
    by apply word_rtrimmed.
Qed.

Lemma chunk_text_fields file_id seq payload :
  is_word file_id = true ->
  is_word payload = true ->
  Py.split (Py.strip ("CHUNK " +:+ file_id +:+ " " +:+ Py.str seq +:+ " " +:+ payload)) 3
  = ["CHUNK"; file_id; Py.str seq; payload].
Proof.
  intros Hid Hpayload. pose proof (str_is_word seq) as Hseq.
  rewrite strip_trimmed.
  - unfold Py.split.
    change ("CHUNK " +:+ file_id +:+ " " +:+ Py.str seq +:+ " " +:+ payload)
      with ("CHUNK" +:+ String " " (file_id +:+ String " "
              (Py.str seq +:+ String " " payload))).
    rewrite !split_from_field by done.
    rewrite split_from_rest; [done|by apply word_nonempty|].
    by apply lstrip_no_space, is_word_no_space.
  - split; [done|]. split; [done|].
    repeat (apply rtrimmed_append; [by auto using append_nonempty_r, word_nonempty|]).
    by apply word_rtrimmed.
Qed.

Lemma end_text_fields file_id hash :
  is_word file_id = true ->
  is_word hash = true ->
  Py.split (Py.strip ("END " +:+ file_id +:+ " " +:+ hash)) 3 = ["END"; file_id; hash].
Proof.
  intros Hid Hhash.
  rewrite strip_trimmed.
  - unfold Py.split.
    change ("END " +:+ file_id +:+ " " +:+ hash)
      with ("END" +:+ String " " (file_id +:+ String " " hash)).
    rewrite !split_from_field by done. by rewrite split_from_last.
  - split; [done|]. split; [done|].
    repeat (apply rtrimmed_append; [by auto using append_nonempty_r, word_nonempty|]).
    by apply word_rtrimmed.
Qed.

(** ** A whole transfer, from the sender's disk to the receiver's *)

Lemma delivered_chunks now from b64encode ip file_id content l :
  delivered now from (chunk_datagram_of b64encode ip file_id content <$> l)
  = (fun i => (now, chunk_text b64encode file_id content i, from)) <$> l.
Proof. induction l as [|i l IH]; [done|]. csimpl. by rewrite IH. Qed.

Lemma ascending_seq {A} (f : nat -> A) k n :
  StronglySorted (fun a b : Z * A => a.1 < b.1)
    ((fun i => (Z.of_nat i, f i)) <$> List.seq k n).
Proof.
  revert k. induction n as [|n IH]; intros k; csimpl; constructor; [apply IH|].
  apply Forall_fmap, Forall_seq. intros j Hj. simpl. lia.
Qed.

Section Whole_transfer.

Variable sha256_hex : list byte -> string.
Variable b64decode : string -> option (list byte).
Variable b64encode : list byte -> string.

(** What a receiver makes of the datagrams of a transfer, delivered once
    each and in the order in which they were sent. *)
Lemma receiver_rebuilds_file now ip port ip_to file_id file_name content receiver :
  Z.of_nat (List.length content) < Py.INT_LIMIT ->
  is_word file_id = true ->
  is_word file_name = true ->
  is_word (sha256_hex content) = true ->
  (forall data, data <> [] ->
     is_word (b64encode data) = true /\ b64decode (b64encode data) = Some data) ->
  pending_files receiver !! file_id = None ->
  "/root/" +:+ file_name ∉ unwritable (disk receiver) ->
  "/root/" +:+ file_name ∉ unreadable (disk receiver) ->
  exists receiver' replies,
    listen_for_messages sha256_hex b64decode
      (delivered now (ip, port)
         (Sendto ip_to UDP_PORT
            ("FILE " +:+ file_id +:+ " " +:+ file_name +:+ " "
             +:+ Py.str (Z.of_nat (List.length content)))
          :: app (chunk_datagram_of b64encode ip_to file_id content
                    <$> List.seq 0 (chunk_count content))
               [Sendto ip_to UDP_PORT
                  ("END " +:+ file_id +:+ " " +:+ sha256_hex content)]))
      receiver
    = (receiver', replies)
    /\ files (disk receiver') !! ("/root/" +:+ file_name) = Some content
    /\ pending_files receiver' !! file_id = None
    /\ file_chunks receiver' !! file_id = None
    /\ last replies = Some (Sendto ip UDP_PORT ("ACK " +:+ file_id)).
Proof.
  intros Hsize Hid Hname Hhash Hcodec Hnew Hw Hr.
  set (n := chunk_count content).
  set (arrival := (fun i => (Z.of_nat i, slice content i)) <$> List.seq 0 n).
  cbn [delivered flat_map]. unfold delivered. rewrite flat_map_app.
  fold (delivered now (ip, port)
          (chunk_datagram_of b64encode ip_to file_id content <$> List.seq 0 n)).
  rewrite delivered_chunks. cbn [flat_map app].
  (* FILE *)
  cbn [listen_for_messages]. rewrite (dispatch_file sha256_hex b64decode now _ ip port
    receiver file_id file_name (Py.str (Z.of_nat (List.length content))) [])
    by (by apply file_text_fields).
  unfold on_file. rewrite str_read_back, Hnew by lia.
  match goal with
  | |- context [listen_for_messages _ _ (app ?chunks ?rest) ?st] =>
      set (st1 := st); set (chunk_inbox := chunks)
  end.
  (* the chunks *)
  assert (Forall2 (chunk_datagram b64decode file_id) chunk_inbox arrival) as Hchunks.
  { unfold chunk_inbox, arrival. apply Forall2_fmap, Forall_Forall2_diag, Forall_seq.
    intros i Hi. unfold chunk_datagram, chunk_text. cbn [fst snd].
    assert (Z.to_nat CHUNK_SIZE * i < List.length content)%nat as Hin.
    { destruct (chunk_count_bounds content) as [_ Hlower].
      fold n in Hlower. specialize (Hlower ltac:(lia)).
      change (Z.to_nat CHUNK_SIZE) with 250%nat in *. lia. }
    destruct (Hcodec (slice content i)) as [Hword Hback]; [by apply slice_nonempty|].
    exists (Py.str (Z.of_nat i)), (b64encode (slice content i)), [].
    split; [by apply chunk_text_fields|]. split; [|done].
    apply str_read_back. change (Z.to_nat CHUNK_SIZE) with 250%nat in Hin. lia. }
  pose proof (ascending_seq (slice content) 0 n) as Hsorted. fold arrival in Hsorted.
  destruct (listen_chunks sha256_hex b64decode file_id file_name
              (Z.of_nat (List.length content)) (sender_of ip (known_devices receiver))
              chunk_inbox arrival Hchunks st1 0 ∅)
    as (st2 & evs2 & Hrun2 & Hp2 & Hc2 & Hd2).
  { cbn. apply lookup_insert_eq. }
  { cbn. apply lookup_insert_eq. }
  { by apply strictly_sorted_NoDup. }
  { intros. apply lookup_empty. }
  rewrite (right_id_L ∅ (∪)) in Hc2.
  rewrite listen_for_messages_app, Hrun2.
  (* END *)
  cbn [listen_for_messages]. rewrite (dispatch_end sha256_hex b64decode now _ ip port
    st2 file_id (sha256_hex content) []) by (by apply end_text_fields).
  unfold on_end. rewrite Hp2.
  rewrite (end_body_runs sha256_hex ip file_id _ _ _ _ st2 _ Hc2)
    by (by rewrite Hd2).
  rewrite (reassemble_ascending arrival Hsorted).
  assert (List.concat arrival.*2 = content) as ->.
  { unfold arrival. rewrite <- list_fmap_compose.
    change (snd ∘ _) with (slice content).
    rewrite concat_slices, Nat.mul_0_r, drop_0. apply take_ge.
    apply (chunk_count_bounds content). }
  rewrite String.eqb_refl. eexists _, _. split; [reflexivity|].
  split; [cbn; by rewrite lookup_insert_eq|].
  split; [cbn; by rewrite lookup_delete_eq|].
  split; [cbn; by rewrite lookup_delete_eq|].
  cbn [app]. rewrite last_cons, !last_app. done.
Qed.

(** X23: a whole transfer.  If every operation of [transfer_file] is
    acknowledged at its first attempt, and the datagrams it sends reach, once
    each and in order, a receiver for which the file id is new and that can
    write and read the output file, then the receiver ends with a file
    /root/<basename> whose bytes are those of the sender's file, closes the
    transfer, and answers END with ACK <file id>.  The names involved are
    single words, the payload encoding decodes back, and the sender's file
    is readable; its size is one that [int] reads back, as the size of
    every file is ([os.path.getsize] returns less than 2^63). *)
Theorem transfer_delivers_the_file target_device ip_to file_path env sender content
    now ip port receiver :
  files (disk sender) !! file_path = Some content ->
  Z.of_nat (List.length content) < Py.INT_LIMIT ->
  file_path ∉ unreadable (disk sender) ->
  acked (generate_message_id (device_name sender) (file_epoch env) (file_rnd env))
    (file_attempts env 1%nat) ->
  (forall i, (i < chunk_count content)%nat ->
     acked (generate_message_id (device_name sender) (file_epoch env) (file_rnd env)
            +:+ "-" +:+ Py.str (Z.of_nat i))
       (chunk_attempts env (Z.of_nat i) 1%nat)) ->
  acked (generate_message_id (device_name sender) (file_epoch env) (file_rnd env))
    (end_attempts env 1%nat) ->
  is_word (device_name sender) = true ->
  is_word (Py.basename file_path) = true ->
  is_word (sha256_hex content) = true ->
  (forall data, data <> [] ->
     is_word (b64encode data) = true /\ b64decode (b64encode data) = Some data) ->
  pending_files receiver
    !! generate_message_id (device_name sender) (file_epoch env) (file_rnd env) = None ->
  "/root/" +:+ Py.basename file_path ∉ unwritable (disk receiver) ->
  "/root/" +:+ Py.basename file_path ∉ unreadable (disk receiver) ->
  exists sender' sent receiver' replies,
    transfer_file sha256_hex b64encode target_device ip_to file_path env sender
    = (true, sender', sent)
    /\ listen_for_messages sha256_hex b64decode (delivered now (ip, port) sent) receiver
       = (receiver', replies)
    /\ files (disk receiver') !! ("/root/" +:+ Py.basename file_path) = Some content
    /\ pending_files receiver'
         !! generate_message_id (device_name sender) (file_epoch env) (file_rnd env)
       = None
    /\ last replies
       = Some (Sendto ip UDP_PORT
                 ("ACK " +:+ generate_message_id (device_name sender) (file_epoch env)
                               (file_rnd env))).
Proof.
  intros Hfile Hsize Hreadable Hack1 Hack2 Hack3 Hsender Hname Hhash Hcodec Hnew Hw Hr.
  destruct (transfer_file_all_acked sha256_hex b64encode target_device ip_to file_path
              env sender content Hfile Hreadable Hack1 Hack2 Hack3)
    as (sender' & Hrun & _ & _).
  destruct (receiver_rebuilds_file now ip port ip_to
              (generate_message_id (device_name sender) (file_epoch env) (file_rnd env))
              (Py.basename file_path) content receiver)
    as (receiver' & replies & Hlisten & Hdisk & Hpending & _ & Hlast);
    try done; [by apply message_id_word|].
  eauto 10.
Qed.

End Whole_transfer.


(** * Names with white space *)

Lemma space_is_no_digit c :
  Py.isspace c = true -> Ascii.eqb c "_" = false /\ Py.digit c = None.
Proof. destruct c as [[] [] [] [] [] [] [] []]; vm_compute; intros; by try discriminate. Qed.

(** White space inside a numeral makes it unreadable. *)
Lemma digits_space a sp b :
  Py.isspace sp = true ->
  forall acc after_digit, Py.digits acc after_digit (a +:+ String sp b) = None.
Proof.
  intros [Hunderscore Hdigit]%space_is_no_digit. induction a as [|c a IH]; intros acc after.
  - change ("" +:+ String sp b) with (String sp b). cbn [Py.digits].
    by rewrite Hunderscore, Hdigit.
  - change (String c a +:+ String sp b) with (String c (a +:+ String sp b)).
    cbn [Py.digits]. destruct (Ascii.eqb c "_"); [destruct after; [apply IH|done]|].
    destruct (Py.digit c); [apply IH|done].
Qed.

Lemma int_inner_space a sp b :
  a <> "" ->
  Py.isspace sp = true ->
  trimmed (a +:+ String sp b) ->
  Py.int (a +:+ String sp b) = None.
Proof.
  intros Ha Hsp Htrimmed. unfold Py.int. rewrite strip_int_trimmed by done.
  destruct a as [|c a]; [done|].
  change (String c a +:+ String sp b) with (String c (a +:+ String sp b)).
  assert (forall t, Py.number (t +:+ String sp b) = None) as Hnumber.
  { intros t. unfold Py.number. destruct (_ <? _)%nat; [done|]. by apply digits_space. }
  pose proof (Hnumber a) as Htail. pose proof (Hnumber (String c a)) as Hall.
  change (String c a +:+ String sp b) with (String c (a +:+ String sp b)) in Hall.
  destruct c as [[] [] [] [] [] [] [] []]; first [exact Hall | exact Htail | by rewrite Htail].
Qed.

Lemma lstrip_lstrip s : Py.lstrip (Py.lstrip s) = Py.lstrip s.
Proof.
  induction s as [|c s IH]; [done|]. simpl.
  destruct (Py.isspace c) eqn:Hc; [done|]. simpl. by rewrite Hc.
Qed.

Lemma lstrip_append_nonempty s t :
  Py.lstrip s <> "" -> Py.lstrip (s +:+ t) = Py.lstrip s +:+ t.
Proof.
  induction s as [|c s IH]; [done|].
  change (String c s +:+ t) with (String c (s +:+ t)). simpl.
  destruct (Py.isspace c); [done|]. by intros _.
Qed.

Lemma split_from_lstrip n s : Py.split_from n (Py.lstrip s) = Py.split_from n s.
Proof.
  induction s as [|c s IH]; [done|]. simpl.
  destruct (Py.isspace c) eqn:Hc; [done|]. simpl. by rewrite Hc.
Qed.

(** Once the splits are used up, a text with something other than white
    space in it gives one field: the text without its leading white space. *)
Lemma split_from_0_rest s t :
  Py.lstrip s <> "" -> Py.split_from 0 (s +:+ t) = [Py.lstrip s +:+ t].
Proof.
  intros Hs. rewrite <- split_from_lstrip, lstrip_append_nonempty by done.
  apply split_from_rest; [by destruct (Py.lstrip s)|].
  apply lstrip_append; [done|apply lstrip_lstrip].
Qed.

Lemma eqb_longer w sp rest : String.eqb w (w +:+ String sp rest) = false.
Proof.
  induction w as [|c w IH]; [done|].
  change (String c w +:+ String sp rest) with (String c (w +:+ String sp rest)).
  simpl. by rewrite Ascii.eqb_refl.
Qed.

Section Names_with_space.

Variable sha256_hex : list byte -> string.
Variable b64decode : string -> option (list byte).
Variable b64encode : list byte -> string.

(** What [transfer_file] sends first is the FILE announcement. *)
Lemma transfer_file_first_send target_device ip file_path env st content :
  files (disk st) !! file_path = Some content ->
  exists evs,
    (transfer_file sha256_hex b64encode target_device ip file_path env st).2
    = Sendto ip UDP_PORT
        ("FILE " +:+ generate_message_id (device_name st) (file_epoch env) (file_rnd env)
         +:+ " " +:+ Py.basename file_path +:+ " "
         +:+ Py.str (Z.of_nat (List.length content)))
      :: evs.
Proof.
  intros Hfile. unfold transfer_file, announce_file, send_end. rewrite Hfile.
  change (List.seq 1 MAX_RETRIES) with (1%nat :: List.seq 2 (pred MAX_RETRIES)).
  match goal with
  | |- context [retry_loop FILE ?ip ?m ?id ?e ?l st] =>
      destruct (retry_loop_first_send FILE ip m id e 1%nat (List.seq 2 (pred MAX_RETRIES)) st)
        as [evs Hevs];
      destruct (retry_loop FILE ip m id e l st) as [[exit1 st1] evs1]
  end.
  cbn [snd] in Hevs. subst evs1.
  destruct exit1; try (by eexists).
  destruct (read_rb _ _); [|by eexists].
  destruct (send_chunks _ _ _ _ _ _ st1) as [[[] st2] evs2]; [|by eexists].
  destruct (calculate_file_hash _ _); [|by eexists].
  destruct (retry_loop END _ _ _ _ _ st2) as [[[] st3] evs3]; by eexists.
Qed.

(** X24: a file whose base name has white space inside cannot be announced.
    The FILE datagram that [transfer_file] sends for it has one field too
    many; the listener of the receiver takes the end of the name together
    with the size as the size, fails to read a number there, and drops the
    datagram: no reply, nothing changed.  The sender's name is one word. *)
Theorem file_name_with_space_is_not_announced target_device ip_to file_path env sender
    content w sp rest now addr receiver :
  files (disk sender) !! file_path = Some content ->
  Py.basename file_path = w +:+ String sp rest ->
  is_word w = true ->
  Py.isspace sp = true ->
  Py.lstrip rest <> "" ->
  is_word (device_name sender) = true ->
  exists datagram evs,
    (transfer_file sha256_hex b64encode target_device ip_to file_path env sender).2
    = Sendto ip_to UDP_PORT datagram :: evs
    /\ listen_for_messages sha256_hex b64decode [(now, datagram, addr)] receiver
       = (receiver, []).
Proof.
  intros Hfile Hbase Hw Hsp Hrest Hname.
  destruct (transfer_file_first_send target_device ip_to file_path env sender content Hfile)
    as [evs Hevs].
  pose proof (message_id_word _ (file_epoch env) (file_rnd env) Hname) as Hid.
  set (file_id := generate_message_id _ _ _) in *.
  set (size := Py.str (Z.of_nat (List.length content))) in *.
  assert (is_word size = true) as Hsize by apply str_is_word.
  eexists _, evs. split; [exact Hevs|]. rewrite Hbase.
  assert ("FILE " +:+ file_id +:+ " " +:+ (w +:+ String sp rest) +:+ " " +:+ size
          = "FILE" +:+ String " " (file_id +:+ String " "
              (w +:+ String sp (rest +:+ String " " size)))) as ->.
  { change ("FILE " +:+ ?x) with ("FILE" +:+ String " " x).
    do 2 f_equal. change (" " +:+ ?x) with (String " " x). f_equal.
    by rewrite append_assoc. }
  assert (Py.lstrip rest +:+ String " " size <> "") as Hfield
    by (by destruct (Py.lstrip rest)).
  destruct addr as [ip port]. cbn [listen_for_messages].
  rewrite strip_trimmed.
  - rewrite (dispatch_file sha256_hex b64decode now _ ip port receiver file_id w
               (Py.lstrip rest +:+ String " " size) []).
    + unfold on_file. rewrite int_inner_space; [done|done|done|].
      split; [done|]. split.
      * apply lstrip_append; [done|apply lstrip_lstrip].
      * apply rtrimmed_append; [done|].
        change (String " " size) with (" " +:+ size).
        apply rtrimmed_append; [by apply word_nonempty|by apply word_rtrimmed].
    + unfold Py.split. rewrite !split_from_field by done.
      by rewrite split_from_0_rest.
  - split; [done|]. split; [done|]. ends_trimmed.
Qed.

(** X25: a device whose name has white space inside does not recognise its
    own heartbeat.  The HEARTBEAT it broadcasts carries the whole name, a
    listener reads the first word of it as the name; the device's own
    listener finds that word different from its name and registers the
    device in its own registry, under the first word. *)
Theorem name_with_space_registers_itself ok st w sp rest now ip port :
  device_name st = w +:+ String sp rest ->
  is_word w = true ->
  Py.isspace sp = true ->
  rest <> "" ->
  Py.lstrip (String.rev rest) = String.rev rest ->
  exists datagram st',
    send_heartbeat [ok] st
    = [Sendto BROADCAST_ADDR UDP_PORT datagram;
       Sleep (if ok then HEARTBEAT_INTERVAL else 1)]
    /\ listen_for_messages sha256_hex b64decode [(now, datagram, (ip, port))] st
       = (st', [])
    /\ dict_get w (known_devices st') = Some (ip, port, now).
Proof.
  intros Hname Hw Hsp Hrest Hend.
  exists ("HEARTBEAT " +:+ device_name st). eexists.
  split; [reflexivity|]. cbn [listen_for_messages].
  rewrite strip_trimmed.
  - rewrite (dispatch_heartbeat sha256_hex b64decode now _ ip port st w
               (Py.split_from 1 rest)).
    + unfold on_heartbeat. rewrite Hname, eqb_longer. split; [reflexivity|].
      cbn. apply dict_get_set_eq.
    + rewrite Hname. unfold Py.split.
      change ("HEARTBEAT " +:+ ?x) with ("HEARTBEAT" +:+ String " " x).
      by rewrite !split_from_field.
  - rewrite Hname. split; [done|]. split; [done|].
    change (String sp rest) with (String sp "" +:+ rest).
    by repeat (apply rtrimmed_append; [by auto using append_nonempty_r|]).
Qed.

End Names_with_space.

(** * The command loop *)

Lemma tail_field_cons c s fields : tail_field s fields -> tail_field (String c s) fields.
Proof.
  intros [->|(pre & m & -> & -> & Hm & Hl)]; [by left|].
  right. by exists (String c pre), m.
Qed.

Lemma split_from_0_tail s : tail_field s (Py.split_from 0 s).
Proof.
  induction s as [|c s IH]; [by left|]. simpl.
  destruct (Py.isspace c) eqn:Hc; [by apply tail_field_cons|].
  right. exists "", (String c s). simpl. by rewrite Hc.
Qed.

Lemma in_word_0_tail s :
  no_space (Py.in_word 0 s).1 = true /\ tail_field s (Py.in_word 0 s).2.
Proof.
  induction s as [|c s [IHw IHf]]; [by split; [|left]|]. simpl.
  destruct (Py.isspace c) eqn:Hc.
  - split; [done|]. apply tail_field_cons, split_from_0_tail.
  - destruct (Py.in_word 0 s) as [w fields]. split.
    + by apply no_space_cons.
    + by apply tail_field_cons.
Qed.

(** The two fields of a text split once: a word, and the rest of the text
    from the next character that is not white space. *)
Lemma split_from_1_fields s target text more :
  Py.split_from 1 s = target :: text :: more ->
  is_word target = true
  /\ exists pre, s = pre +:+ text /\ text <> "" /\ Py.lstrip text = text.
Proof.
  induction s as [|c s IH]; [done|]. simpl.
  destruct (Py.isspace c) eqn:Hc.
  - intros (Htarget & pre & -> & Htext)%IH. split; [done|]. by exists (String c pre).
  - destruct (in_word_0_tail s) as [Hw Hfields].
    destruct (Py.in_word 0 s) as [w fields]. intros [= <- ->].
    split; [by apply no_space_cons|].
    destruct Hfields as [[=]|(pre & m & [= -> ->] & -> & Hm & Hl)].
    by exists (String c pre).
Qed.

Lemma prefix_nil s : String.prefix "" s = true.
Proof. by destruct s. Qed.

Lemma prefix_append p s : String.prefix p s = true -> exists r, s = p +:+ r.
Proof.
  revert s. induction p as [|a p IH]; intros s; [by exists s|].
  destruct s as [|b s]; [done|]. simpl.
  destruct (ascii_dec a b) as [<-|]; [|done].
  intros [r ->]%IH. by exists r.
Qed.

(** What [strip] returns has no white space at its end. *)
Lemma strip_rtrimmed s : Py.lstrip (String.rev (Py.strip s)) = String.rev (Py.strip s).
Proof. unfold Py.strip. by rewrite rev_rev, lstrip_lstrip. Qed.

Lemma lstrip_prefix s t : s <> "" -> Py.lstrip (s +:+ t) = s +:+ t -> Py.lstrip s = s.
Proof.
  destruct s as [|c s]; [done|]. intros _.
  change (String c s +:+ t) with (String c (s +:+ t)). simpl.
  destruct (Py.isspace c) eqn:Hc; [|done].
  intros Hstrip. exfalso. apply (f_equal String.length) in Hstrip. simpl in Hstrip.
  assert (forall u, String.length (Py.lstrip u) <= String.length u)%nat as Hle.
  { clear. induction u as [|a u IH]; simpl; [done|]. destruct (Py.isspace a); simpl; lia. }
  specialize (Hle (s +:+ t)). lia.
Qed.

(** The fields of a command line that starts with a command word and a
    space. *)
Lemma command_fields line command r first target text more :
  Py.strip line = command +:+ String " " r ->
  is_word command = true ->
  Py.split (Py.strip line) 2 = first :: target :: text :: more ->
  is_word target = true /\ trimmed text.
Proof.
  intros Hcmd Hcommand. pose proof (strip_rtrimmed line) as Hend. rewrite Hcmd in *.
  unfold Py.split. rewrite split_from_field by done.
  intros [= _ (Htarget & pre & -> & Htext & Hl)%split_from_1_fields].
  split; [done|]. split; [done|]. split; [done|].
  change (command +:+ String " " (pre +:+ text))
    with (command +:+ (String " " pre +:+ text)) in Hend.
  rewrite <- append_assoc, rev_append in Hend.
  eapply lstrip_prefix; [|exact Hend]. by apply rev_nonempty.
Qed.

Lemma read_command_clean line : clean_arguments (read_command line).
Proof.
  unfold read_command. destruct (String.eqb (Py.strip line) "devices"); [done|].
  destruct (String.prefix "talk " (Py.strip line)) eqn:Htalk.
  { apply prefix_append in Htalk as [r Hcmd].
    destruct (Py.split (Py.strip line) 2) as [|first [|target [|text more]]] eqn:Hsplit;
      try done.
    by apply (command_fields line "talk" r first target text more). }
  destruct (String.prefix "sendfile " (Py.strip line)) eqn:Hsendfile.
  { apply prefix_append in Hsendfile as [r Hcmd].
    destruct (Py.split (Py.strip line) 2) as [|first [|target [|text more]]] eqn:Hsplit;
      try done.
    by apply (command_fields line "sendfile" r first target text more). }
  by destruct (String.eqb (Py.strip line) "exit").
Qed.

(** X26: whatever is typed at the prompt, every call of [talk_to_device]
    and of [send_file_to_device] that [command_loop] makes has for target a
    name without white space, and for text or path a text that is not empty
    and has no white space at either end. *)
Theorem command_arguments_are_clean lines : Forall clean_arguments (command_loop lines).
Proof.
  induction lines as [|line lines IH]; [constructor|]. cbn [command_loop].
  pose proof (read_command_clean line) as Hclean.
  destruct (read_command line); constructor; done.
Qed.

(** X27: the command loop hands over the text of a talk command and the
    path of a sendfile command whole, inner white space included: the line
    is split twice only.  The target is one word, the text has no white
    space at its ends. *)
Theorem command_keeps_text_whole target text :
  is_word target = true ->
  trimmed text ->
  read_command ("talk " +:+ target +:+ " " +:+ text) = TalkTo target text
  /\ read_command ("sendfile " +:+ target +:+ " " +:+ text) = SendFileTo target text.
Proof.
  intros Htarget (Htext & Hl & Hr).
  assert (forall command,
            is_word command = true ->
            Py.strip (command +:+ " " +:+ target +:+ " " +:+ text)
            = command +:+ " " +:+ target +:+ " " +:+ text
            /\ Py.split (command +:+ " " +:+ target +:+ " " +:+ text) 2
               = [command; target; text]) as Hfields.
  { intros command Hcommand. split.
    - apply strip_trimmed. split; [by apply append_nonempty_r|]. split.
      + apply lstrip_append; [by apply word_nonempty|].
        by apply lstrip_no_space, is_word_no_space.
      + by repeat (apply rtrimmed_append; [by auto using append_nonempty_r|]).
    - unfold Py.split.
      change (command +:+ " " +:+ target +:+ " " +:+ text)
        with (command +:+ String " " (target +:+ String " " text)).
      rewrite !split_from_field by done. by rewrite split_from_rest. }
  unfold read_command. split.
  - destruct (Hfields "talk" eq_refl) as [Hstrip Hsplit].
    change ("talk" +:+ " " +:+ ?x) with ("talk " +:+ x) in *.
    rewrite Hstrip, Hsplit. simpl. by rewrite prefix_nil.
  - destruct (Hfields "sendfile" eq_refl) as [Hstrip Hsplit].
    change ("sendfile" +:+ " " +:+ ?x) with ("sendfile " +:+ x) in *.
    rewrite Hstrip, Hsplit. simpl. by rewrite prefix_nil.
Qed.


(** * Concrete runs of the sender, the sweeper and the command loop *)

Lemma early_ack_is_discarded_witness :
  exists st',
    wait_for_ack "m1" early_ack (started "pc1") = (None, st')
    /\ ack_received st' !! "m1" = None.
Proof.
  apply (early_ack_is_discarded "m1" early_ack (started "pc1") true).
  - reflexivity.
  - repeat (constructor; [apply not_elem_of_nil|]). constructor.
Defined.

Lemma talk_succeeds_at_first_ack_witness :
  exists st',
    talk_to_device "pc2" "hi" 17 4242 (accepted_at_third "pc1-17-4242") pc1
    = (true, st', retries "10.0.0.2" "TALK pc1-17-4242 hi" 3)
    /\ st' = set_ack_received (ack_received st') pc1.
Proof.
  apply (talk_succeeds_at_first_ack "pc2" "hi" 17 4242
           (accepted_at_third "pc1-17-4242") pc1 "10.0.0.2" 5000 0 3).
  - reflexivity.
  - unfold MAX_RETRIES. lia.
  - intros [|[|[|attempt]]] Hrange; try lia; [by left|right; apply no_answer_silent].
  - reflexivity.
  - apply (answered_answers "pc1-17-4242" true).
Defined.

Lemma talk_with_network_down_witness :
  talk_to_device "pc2" "hi" 17 4242 (fun _ => network_down) pc1
  = (false, pc1, retries "10.0.0.2" "TALK pc1-17-4242 hi" MAX_RETRIES).
Proof.
  apply (talk_with_network_down "pc2" "hi" 17 4242 (fun _ => network_down) pc1
           "10.0.0.2" 5000 0); [reflexivity|]. intros attempt _. reflexivity.
Defined.

Lemma transfer_succeeds_when_all_acked_witness :
  exists st',
    transfer_file plain_digest plain_encode "pc2" "10.0.0.2" "/tmp/a.txt" all_accepted pc1
    = (true, st',
       [Sendto "10.0.0.2" 5000 "FILE pc1-17-4242 a.txt 3";
        Sendto "10.0.0.2" 5000 "CHUNK pc1-17-4242 0 abc";
        Sendto "10.0.0.2" 5000 "END pc1-17-4242 abc"]).
Proof.
  destruct (transfer_succeeds_when_all_acked plain_digest plain_encode
              "pc2" "10.0.0.2" "/tmp/a.txt" all_accepted pc1 ["a"; "b"; "c"]%byte)
    as (st' & Hrun & _ & _).
  - reflexivity.
  - apply not_elem_of_empty.
  - split; [reflexivity|apply (answered_answers "pc1-17-4242" true)].
  - intros i Hi. change (chunk_count _) with 1%nat in Hi.
    assert (i = 0%nat) as -> by lia.
    split; [reflexivity|apply (answered_answers "pc1-17-4242-0" true)].
  - split; [reflexivity|apply (answered_answers "pc1-17-4242" true)].
  - exists st'. exact Hrun.
Defined.

Lemma transfer_stops_at_unanswered_chunk_witness :
  exists st',
    transfer_file plain_digest plain_encode "pc2" "10.0.0.2" "/tmp/b.bin"
      second_chunk_lost pc1_two_chunks
    = (false, st',
       Sendto "10.0.0.2" 5000 "FILE pc1-17-4242 b.bin 300"
       :: Sendto "10.0.0.2" 5000
            (chunk_text plain_encode "pc1-17-4242" (replicate 300 "x"%byte) 0)
       :: retries "10.0.0.2"
            (chunk_text plain_encode "pc1-17-4242" (replicate 300 "x"%byte) 1)
            MAX_RETRIES).
Proof.
  apply (transfer_stops_at_unanswered_chunk plain_digest plain_encode
           "pc2" "10.0.0.2" "/tmp/b.bin" second_chunk_lost pc1_two_chunks
           (replicate 300 "x"%byte) 1).
  - reflexivity.
  - apply not_elem_of_empty.
  - change (chunk_count _) with 2%nat. lia.
  - split; [reflexivity|apply (answered_answers "pc1-17-4242" true)].
  - intros i Hi. assert (i = 0%nat) as -> by lia.
    split; [reflexivity|apply (answered_answers "pc1-17-4242-0" true)].
  - intros [|[|[|attempt]]] Hrange; try lia.
    + by left.
    + right. right. split; [done|apply (answered_answers "pc1-17-4242-1" false)].
    + right. left. apply no_answer_silent.
Defined.

Lemma sender_changes_only_tracker_witness :
  let '(ok, st', evs) :=
    talk_to_device "pc2" "hi" 17 4242 (accepted_at_third "pc1-17-4242") pc1 in
  st' = set_ack_received (ack_received st') pc1.
Proof.
  destruct (talk_to_device "pc2" "hi" 17 4242 (accepted_at_third "pc1-17-4242") pc1)
    as [[ok st'] evs] eqn:Hrun.
  apply (sender_changes_only_tracker plain_digest plain_encode pc1 st' ok evs).
  left. by exists "pc2", "hi", 17, 4242, (accepted_at_third "pc1-17-4242").
Defined.

Lemma two_peers_NoDup : NoDup (known_devices two_peers).*1.
Proof.
  cbn. apply NoDup_cons. split; [|apply NoDup_singleton].
  by intros [=]%list_elem_of_singleton.
Qed.

(** At time 121 "pc2", last heard of at time 0, goes; "pc3", at time 1,
    stays. *)
Lemma sweeper_removes_the_silent_devices_witness :
  exists devices',
    clean_inactive_devices plain_digest plain_decode 121 [] two_peers
    = (set_known_devices devices' two_peers, [Sleep 1])
    /\ dict_get "pc2" devices' = None
    /\ dict_get "pc3" devices' = Some ("10.0.0.3", 5000, 1).
Proof.
  destruct (sweeper_removes_the_silent_devices plain_digest plain_decode 121 two_peers
              two_peers_NoDup) as (devices' & Hrun & _ & Hget).
  exists devices'. split; [exact Hrun|]. split; [exact (Hget "pc2")|exact (Hget "pc3")].
Defined.

Lemma refreshed_device_is_still_removed_witness :
  dict_get "pc2"
    (known_devices
       (listen_for_messages plain_digest plain_decode
          [(121, "HEARTBEAT pc2", ("10.0.0.2", 5000))] two_peers).1)
  = Some ("10.0.0.2", 5000, 121)
  /\ dict_get "pc2"
       (known_devices
          (clean_inactive_devices plain_digest plain_decode 121
             [(121, "HEARTBEAT pc2", ("10.0.0.2", 5000))] two_peers).1)
     = None.
Proof.
  apply (refreshed_device_is_still_removed plain_digest plain_decode 121 121
           "HEARTBEAT pc2" ("10.0.0.2", 5000) two_peers "pc2" [] "10.0.0.2" 5000 0).
  - apply two_peers_NoDup.
  - reflexivity.
  - unfold DEVICE_TIMEOUT. lia.
  - reflexivity.
  - done.
Defined.

(** "talk pc2 hello world" typed on "pc1": "pc2" shows "hello". *)
Lemma talk_round_trip_witness :
  exists datagram evs receiver' sender',
    (talk_to_device "pc2" "hello world" 17 4242 (fun _ => no_answer) pc1).2
    = Sendto "10.0.0.2" UDP_PORT datagram :: evs
    /\ listen_for_messages plain_digest plain_decode
         [(5, datagram, ("10.0.0.1", 5000))] (started "pc2")
       = (receiver',
          [NewMessage "Dispositivo desconhecido" "hello";
           Sendto "10.0.0.1" UDP_PORT "ACK pc1-17-4242"])
    /\ listen_for_messages plain_digest plain_decode
         [(6, "ACK pc1-17-4242", peer)] pc1
       = (sender', [])
    /\ ack_received sender' !! "pc1-17-4242" = Some true.
Proof.
  apply (talk_round_trip plain_digest plain_decode "pc2" "hello world" 17 4242
           (fun _ => no_answer) pc1 "10.0.0.2" 5000 0 5 "10.0.0.1" 5000
           (started "pc2") "hello" ["world"] 6 peer).
  - reflexivity.
  - reflexivity.
  - reflexivity.
  - reflexivity.
  - apply not_elem_of_empty.
Defined.

Lemma heartbeat_round_trip_witness :
  exists datagram receiver',
    send_heartbeat [true] pc1
    = [Sendto BROADCAST_ADDR UDP_PORT datagram; Sleep HEARTBEAT_INTERVAL]
    /\ listen_for_messages plain_digest plain_decode
         [(5, datagram, ("10.0.0.1", 5000))] (started "pc2")
       = (receiver', [])
    /\ dict_get "pc1" (known_devices receiver') = Some ("10.0.0.1", 5000, 5)
    /\ listen_for_messages plain_digest plain_decode
         [(5, datagram, ("10.0.0.1", 5000))] pc1
       = (pc1, []).
Proof.
  apply (heartbeat_round_trip plain_digest plain_decode true pc1 (started "pc2")
           5 "10.0.0.1" 5000); [reflexivity|done].
Defined.

Lemma hex_byte b :
  Py.isspace (hex_digit (Byte.to_N b / 16)) = false
  /\ Py.isspace (hex_digit (Byte.to_N b mod 16)) = false
  /\ hex_value (hex_digit (Byte.to_N b / 16)) = Some (Byte.to_N b / 16)%N
  /\ hex_value (hex_digit (Byte.to_N b mod 16)) = Some (Byte.to_N b mod 16)%N
  /\ Byte.of_N (16 * (Byte.to_N b / 16) + Byte.to_N b mod 16) = Some b.
Proof. by destruct b; vm_compute. Qed.

(** The hexadecimal encoding has what the transfer asks of Base64. *)
Lemma hex_codec data :
  data <> [] ->
  is_word (hex_encode data) = true /\ hex_decode (hex_encode data) = Some data.
Proof.
  intros Hdata.
  assert (no_space (hex_encode data) = true
          /\ hex_decode (hex_encode data) = Some data) as [Hns Hback].
  { clear. induction data as [|b data [IHns IHback]]; [done|].
    destruct (hex_byte b) as (H1 & H2 & H3 & H4 & H5). split.
    - cbn [hex_encode]. apply no_space_cons. split; [done|]. by apply no_space_cons.
    - cbn [hex_encode hex_decode]. by rewrite H3, H4, IHback, H5. }
  split; [|done]. by destruct data.
Qed.

(** The file a.txt of "pc1" reaches "pc2" as /root/a.txt. *)
Lemma transfer_delivers_the_file_witness :
  exists sender' sent receiver' replies,
    transfer_file plain_digest hex_encode "pc2" "10.0.0.2" "/tmp/a.txt" all_accepted pc1
    = (true, sender', sent)
    /\ listen_for_messages plain_digest hex_decode
         (delivered 5 ("10.0.0.1", 5000) sent) (started "pc2")
       = (receiver', replies)
    /\ files (disk receiver') !! "/root/a.txt" = Some ["a"; "b"; "c"]%byte
    /\ pending_files receiver' !! "pc1-17-4242" = None
    /\ last replies = Some (Sendto "10.0.0.1" UDP_PORT "ACK pc1-17-4242").
Proof.
  apply (transfer_delivers_the_file plain_digest hex_decode hex_encode
           "pc2" "10.0.0.2" "/tmp/a.txt" all_accepted pc1 ["a"; "b"; "c"]%byte
           5 "10.0.0.1" 5000 (started "pc2")).
  - reflexivity.
  - pose proof INT_LIMIT_large. simpl. lia.
  - apply not_elem_of_empty.
  - split; [reflexivity|apply (answered_answers "pc1-17-4242" true)].
  - intros i Hi. change (chunk_count _) with 1%nat in Hi.
    assert (i = 0%nat) as -> by lia.
    split; [reflexivity|apply (answered_answers "pc1-17-4242-0" true)].
  - split; [reflexivity|apply (answered_answers "pc1-17-4242" true)].
  - reflexivity.
  - reflexivity.
  - reflexivity.
  - apply hex_codec.
  - reflexivity.
  - apply not_elem_of_empty.
  - apply not_elem_of_empty.
Defined.

(** "my notes.txt" cannot be sent. *)
Lemma file_name_with_space_is_not_announced_witness :
  exists datagram evs,
    (transfer_file plain_digest plain_encode "pc2" "10.0.0.2" "/tmp/my notes.txt"
       all_accepted pc1_spaced_file).2
    = Sendto "10.0.0.2" UDP_PORT datagram :: evs
    /\ listen_for_messages plain_digest plain_decode [(5, datagram, ("10.0.0.1", 5000))]
         (started "pc2")
       = (started "pc2", []).
Proof.
  apply (file_name_with_space_is_not_announced plain_digest plain_decode plain_encode
           "pc2" "10.0.0.2" "/tmp/my notes.txt" all_accepted pc1_spaced_file
           ["a"; "b"; "c"]%byte "my" " "%char "notes.txt" 5 ("10.0.0.1", 5000)
           (started "pc2")); try reflexivity. done.
Defined.

(** A device started as "my pc" lists itself as "my". *)
Lemma name_with_space_registers_itself_witness :
  exists datagram st',
    send_heartbeat [true] (started "my pc")
    = [Sendto BROADCAST_ADDR UDP_PORT datagram; Sleep HEARTBEAT_INTERVAL]
    /\ listen_for_messages plain_digest plain_decode
         [(5, datagram, ("10.0.0.1", 5000))] (started "my pc")
       = (st', [])
    /\ dict_get "my" (known_devices st') = Some ("10.0.0.1", 5000, 5).
Proof.
  apply (name_with_space_registers_itself plain_digest plain_decode true
           (started "my pc") "my" " "%char "pc" 5 "10.0.0.1" 5000);
    try reflexivity. done.
Defined.

Lemma command_keeps_text_whole_witness :
  read_command "talk pc2 hello world" = TalkTo "pc2" "hello world"
  /\ read_command "sendfile pc2 /tmp/my notes.txt" = SendFileTo "pc2" "/tmp/my notes.txt".
Proof.
  split.
  - apply (command_keeps_text_whole "pc2" "hello world"); [reflexivity|by split].
  - apply (command_keeps_text_whole "pc2" "/tmp/my notes.txt"); [reflexivity|by split].
Defined.

(** What is typed after "exit" is not read; a command word alone, or with
    its target only, is not a call. *)
Example command_loop_run :
  command_loop ["devices"; "  talk pc2   hello  world "; "talk pc2"; "talk";
                "sendfile pc2 /tmp/a.txt"; "exit"; "talk pc2 late"]
  = [ShowDevices; TalkTo "pc2" "hello  world"; Usage "talk"; UnknownCommand;
     SendFileTo "pc2" "/tmp/a.txt"; Stop].
Proof. reflexivity. Qed.

(** A chunk numbered -3 is stored and acknowledged; one numbered with
    MAX_STR_DIGITS nines is stored and counted without a reply. *)
Lemma new_chunk_is_stored_and_acked_witness :
  (exists st1,
     handle_message plain_digest plain_decode 1 "CHUNK f1 -3 abc" peer (receiving 6 ∅)
     = (Returned, st1, [Sendto "10.0.0.2" UDP_PORT "ACK f1--3"])
     /\ file_chunks st1 !! "f1" = Some {[-3 := ["a"; "b"; "c"]%byte]}
     /\ pending_files st1 !! "f1" = Some ("a.txt", 6, 1, "pc2"))
  /\ (exists st1,
        handle_message plain_digest plain_decode 1
          ("CHUNK f1 " +:+ nines Py.MAX_STR_DIGITS +:+ " abc") ("10.0.0.2", 5000)
          (receiving 6 ∅)
        = (Returned, st1, [])
        /\ pending_files st1 !! "f1" = Some ("a.txt", 6, 0 + 1, "pc2")).
Proof.
  pose proof INT_LIMIT_large as Hint. pose proof FLOAT_LIMIT_large as Hfloat. split.
  - destruct (new_chunk_is_stored_and_acked plain_digest plain_decode 1
                "CHUNK f1 -3 abc" "10.0.0.2" 5000 (receiving 6 ∅)
                "f1" "-3" "abc" [] (-3) ["a"; "b"; "c"]%byte "a.txt" 6 0 "pc2" ∅)
      as (st1 & evs & Hrun & Hchunks & Hpending & _ & Hack); try reflexivity.
    rewrite Hack in Hrun by (simpl; lia).
    assert ((-3 =? Py.INT_LIMIT - 1) = false) as Hne by (apply Z.eqb_neq; lia).
    rewrite Hne in Hrun. exists st1.
    split; [exact Hrun|split; [exact Hchunks|exact Hpending]].
  - destruct (new_chunk_is_stored_and_acked plain_digest plain_decode 1
                ("CHUNK f1 " +:+ nines Py.MAX_STR_DIGITS +:+ " abc") "10.0.0.2" 5000
                (receiving 6 ∅) "f1" (nines Py.MAX_STR_DIGITS) "abc" []
                (Py.INT_LIMIT - 1) ["a"; "b"; "c"]%byte "a.txt" 6 0 "pc2" ∅)
      as (st1 & evs & Hrun & _ & Hpending & _ & Hack).
    + unfold Py.split.
      change ("CHUNK f1 " +:+ nines Py.MAX_STR_DIGITS +:+ " abc")
        with ("CHUNK" +:+ String " " ("f1" +:+ String " "
                (nines Py.MAX_STR_DIGITS +:+ String " " "abc"))).
      rewrite !split_from_field by (done || apply nines_shape).
      by rewrite split_from_rest.
    + apply int_nines.
    + reflexivity.
    + reflexivity.
    + reflexivity.
    + apply lookup_empty.
    + rewrite Hack, Z.eqb_refl in Hrun by (simpl; lia).
      exists st1. split; [exact Hrun|exact Hpending].
Defined.
